(** * DataKnot: the ChatManager persistence layer and inference gateway

    A shallow embedding of the [ChatManager] class (src/main.js, lines
    247-984, and its near-duplicate in src/unnamed/part_004) together with
    the theorems that settle the specification's claims about it, followed
    by further properties of its methods.

    Modelling conventions.
    - JavaScript strings are [string]s of 8-bit characters, a character
      above 127 standing for a byte of the UTF-8 form of the text; the
      embedding is exact on ASCII text (characters above 127 are neither
      whitespace nor cased here, so a statement that depends on [trim] or
      [toLowerCase] finding nothing to do is made of ASCII text only).
    - JavaScript numbers are modelled on their integer fragment by [Z]
      (identifiers are [Date.now()] timestamps); numerals with a fraction or
      an exponent are outside the fragment: the parser below recognises
      them, and says that the text has no value here.
    - The file system is a tree of named nodes below the storage root
      [chat_history]; a directory lists its entries in creation order here,
      where Node.js gives the order of the operating system, so statements
      about a listing are made up to order.  A path is a list of plain
      names: [path.join] is modelled for names it appends as they are.
      Permission and device errors are not modelled, so a file-system call
      fails only for the structural reasons Node.js reports ([ENOENT],
      [ENOTDIR], [EISDIR], [EEXIST], [ENOTEMPTY]).
    - [console.log] and friends have no effect on the modelled state. *)

From Stdlib Require Import String Ascii List ZArith Lia Bool Arith.
From Stdlib Require Import Permutation Sorted DecimalString.
From Stdlib Require DecimalPos DecimalFacts.
Import ListNotations.
Local Open Scope list_scope.
Local Open Scope string_scope.
Set Warnings "-register-all".

Set Implicit Arguments.

(** ** JavaScript string primitives *)

Module JsString.

Definition LF : string := String (ascii_of_nat 10) "".

(** The double-quote character, by its code. *)
Definition DQ : ascii := ascii_of_nat 34.

(** [String.prototype.trim] strips white space and line terminators; on
    ASCII these are TAB, LF, VT, FF, CR and SPACE. *)
Definition isWhiteSpace (c : ascii) : bool :=
  let n := nat_of_ascii c in
  ((9 <=? n)%nat && (n <=? 13)%nat) || (n =? 32)%nat.

Fixpoint trimStart (s : string) : string :=
  match s with
  | String c r => if isWhiteSpace c then trimStart r else s
  | EmptyString => EmptyString
  end.

Fixpoint trimEnd (s : string) : string :=
  match s with
  | String c r =>
      match trimEnd r with
      | EmptyString => if isWhiteSpace c then EmptyString else String c EmptyString
      | r' => String c r'
      end
  | EmptyString => EmptyString
  end.

Definition trim (s : string) : string := trimEnd (trimStart s).

Definition lowerChar (c : ascii) : ascii :=
  let n := nat_of_ascii c in
  if (65 <=? n)%nat && (n <=? 90)%nat then ascii_of_nat (n + 32) else c.

Fixpoint toLowerCase (s : string) : string :=
  match s with
  | String c r => String (lowerChar c) (toLowerCase r)
  | EmptyString => EmptyString
  end.

Fixpoint startsWith (s p : string) {struct p} : bool :=
  match p, s with
  | EmptyString, _ => true
  | String a p', String b s' => Ascii.eqb a b && startsWith s' p'
  | String _ _, EmptyString => false
  end.

(** [s.substring(n)]: the suffix of [s] from index [n]. *)
Fixpoint substring (n : nat) (s : string) : string :=
  match n, s with
  | O, _ => s
  | S n', String _ r => substring n' r
  | S _, EmptyString => EmptyString
  end.

(** [arr.join(sep)] *)
Fixpoint join (sep : string) (l : list string) : string :=
  match l with
  | [] => ""
  | [x] => x
  | x :: r => x ++ sep ++ join sep r
  end.

(** [Number.prototype.toString] on an integer (below 1e21): decimal
    digits with a leading minus sign for negatives. *)
Definition Number_toString (n : Z) : string :=
  NilZero.string_of_int (Z.to_int n).

End JsString.
Import JsString.

(** ** Association lists keyed by strings

    Both an object's own properties and a directory's entries are ordered
    lists of named items. *)

Module AList.

(** The first item named [k]. *)
Fixpoint assoc {A : Type} (k : string) (l : list (string * A)) : option A :=
  match l with
  | [] => None
  | (k', v) :: r => if String.eqb k k' then Some v else assoc k r
  end.

(** Assignment: an existing name keeps its position, a new one is
    appended. *)
Fixpoint assign {A : Type} (k : string) (v : A) (l : list (string * A))
  : list (string * A) :=
  match l with
  | [] => [(k, v)]
  | (k', v') :: r =>
      if String.eqb k k' then (k, v) :: r else (k', v') :: assign k v r
  end.

(** Removal of the first item named [k]. *)
Fixpoint remove {A : Type} (k : string) (l : list (string * A))
  : list (string * A) :=
  match l with
  | [] => []
  | (k', v') :: r =>
      if String.eqb k k' then r else (k', v') :: remove k r
  end.

End AList.
Import AList.

(** ** Exceptions and results

    A JavaScript call either returns a value or throws.  [OutOfFuel] is not
    a JavaScript error: it marks the (unreachable) exhaustion of the
    recursion budget of a fuelled definition.  [OutsideFragment] is not one
    either: the parser gives it for a JSON text that leaves the modelled
    fragment of JSON, where [JSON.parse] returns a value that the
    embedding does not describe. *)

Inductive exn : Type :=
| ENOENT | ENOTDIR | EISDIR | EEXIST | ENOTEMPTY | EPERM
| SyntaxError
| TypeError
| Error (msg : string)
| OutOfFuel
| OutsideFragment.

Inductive result (A : Type) : Type :=
| Ok (a : A)
| Throw (e : exn).
Arguments Ok {A} a.
Arguments Throw {A} e.

(** ** JSON values, [JSON.stringify] and [JSON.parse] *)

Inductive json : Type :=
| JNull
| JBool (b : bool)
| JNum (n : Z)
| JStr (s : string)
| JArr (items : list json)
| JObj (fields : list (string * json)).

Module Json.

Definition hexDigit (n : nat) : ascii :=
  if (n <? 10)%nat then ascii_of_nat (48 + n) else ascii_of_nat (87 + n).

(** QuoteJSONString, one character at a time. *)
Definition quoteChar (c : ascii) : string :=
  let n := nat_of_ascii c in
  if (n =? 34)%nat then String "\" (String DQ "")
  else if (n =? 92)%nat then "\\"
  else if (n =? 8)%nat then "\b"
  else if (n =? 9)%nat then "\t"
  else if (n =? 10)%nat then "\n"
  else if (n =? 12)%nat then "\f"
  else if (n =? 13)%nat then "\r"
  else if (n <? 32)%nat then
    "\u00" ++ String (hexDigit (n / 16)) (String (hexDigit (n mod 16)) "")
  else String c "".

Fixpoint quoteBody (s : string) : string :=
  match s with
  | String c r => quoteChar c ++ quoteBody r
  | EmptyString => EmptyString
  end.

Definition quote (s : string) : string :=
  String DQ (quoteBody s ++ String DQ "").

(** SerializeJSONProperty with indentation unit [gap] at current
    indentation [ind].  An empty [gap] gives the compact form. *)
Fixpoint serialize (gap ind : string) (v : json) : string :=
  let stepback := ind in
  let ind := ind ++ gap in
  let sep := if String.eqb gap "" then "," else "," ++ LF ++ ind in
  let colon := if String.eqb gap "" then ":" else ": " in
  let wrap (l r : string) (partial : list string) :=
    match partial with
    | [] => l ++ r
    | _ =>
        if String.eqb gap "" then l ++ join sep partial ++ r
        else l ++ LF ++ ind ++ join sep partial ++ LF ++ stepback ++ r
    end in
  match v with
  | JNull => "null"
  | JBool true => "true"
  | JBool false => "false"
  | JNum n => Number_toString n
  | JStr s => quote s
  | JArr items => wrap "[" "]" (map (serialize gap ind) items)
  | JObj fields =>
      wrap "{" "}"
        (map (fun kv => quote (fst kv) ++ colon ++ serialize gap ind (snd kv))
           fields)
  end.

(** [JSON.stringify(v)] and [JSON.stringify(v, null, 2)]. *)
Definition stringify (v : json) : string := serialize "" "" v.
Definition stringify2 (v : json) : string := serialize "  " "" v.

(** *** Parsing *)

(** A parser returns a value and the rest of the text ([POk]), rejects the
    text ([PErr]), has recognised the text up to [rest] but met a
    construct outside the modelled fragment on the way, so that it has no
    value ([PUnsupported]), or runs out of fuel ([PFuel]). *)
Inductive presult (A : Type) : Type :=
| POk (a : A) (rest : string)
| PErr
| PUnsupported (rest : string)
| PFuel.
Arguments POk {A} a rest.
Arguments PErr {A}.
Arguments PUnsupported {A} rest.
Arguments PFuel {A}.

(** What is recognised after a construct outside the fragment has no
    value. *)
Definition taint {A B : Type} (r : presult A) : presult B :=
  match r with
  | POk _ rest => PUnsupported rest
  | PErr => PErr
  | PUnsupported rest => PUnsupported rest
  | PFuel => PFuel
  end.

(** Sequencing.  After a construct outside the fragment the text is still
    recognised, with the placeholder [d] where a value is expected. *)
Definition pbind {A B : Type} (d : A) (r : presult A)
  (k : A -> string -> presult B) : presult B :=
  match r with
  | POk a rest => k a rest
  | PErr => PErr
  | PUnsupported rest => taint (k d rest)
  | PFuel => PFuel
  end.

Definition isJsonWs (c : ascii) : bool :=
  let n := nat_of_ascii c in
  (n =? 32)%nat || (n =? 9)%nat || (n =? 10)%nat || (n =? 13)%nat.

Fixpoint skipWs (s : string) : string :=
  match s with
  | String c r => if isJsonWs c then skipWs r else s
  | EmptyString => EmptyString
  end.

Definition isDigit (c : ascii) : bool :=
  let n := nat_of_ascii c in (48 <=? n)%nat && (n <=? 57)%nat.

Definition digitVal (c : ascii) : Z := Z.of_nat (nat_of_ascii c - 48).

Definition hexVal (c : ascii) : option nat :=
  let n := nat_of_ascii c in
  if (48 <=? n)%nat && (n <=? 57)%nat then Some (n - 48)
  else if (97 <=? n)%nat && (n <=? 102)%nat then Some (n - 87)
  else if (65 <=? n)%nat && (n <=? 70)%nat then Some (n - 55)
  else None.

(** The decimal digits at the head of [s], accumulated onto [acc]. *)
Fixpoint digits (acc : Z) (s : string) : Z * string :=
  match s with
  | String c r =>
      if isDigit c then digits (10 * acc + digitVal c)%Z r else (acc, s)
  | EmptyString => (acc, s)
  end.

(** One digit or more; what follows them. *)
Definition digits1 (s : string) : option string :=
  match s with
  | String c r => if isDigit c then Some (snd (digits 0 r)) else None
  | EmptyString => None
  end.

(** An exponent part after its letter: an optional sign, then digits. *)
Definition exponent (s : string) : presult json :=
  let s1 := match s with
            | String c r =>
                if Ascii.eqb c "+" || Ascii.eqb c "-" then r else s
            | EmptyString => s
            end in
  match digits1 s1 with
  | Some rest => PUnsupported rest
  | None => PErr
  end.

(** A fraction, an exponent, or both: a numeral that has them is
    recognised, and has no value in the integer fragment. *)
Definition fractionOrExponent (s : string) : presult json :=
  match s with
  | String c r =>
      if Ascii.eqb c "." then
        match digits1 r with
        | Some (String e r1) =>
            if Ascii.eqb e "e" || Ascii.eqb e "E" then exponent r1
            else PUnsupported (String e r1)
        | Some EmptyString => PUnsupported EmptyString
        | None => PErr
        end
      else exponent r
  | EmptyString => PErr
  end.

(** After the integer part. *)
Definition endOfInt (n : Z) (rest : string) : presult json :=
  match rest with
  | String c _ =>
      if Ascii.eqb c "." || Ascii.eqb c "e" || Ascii.eqb c "E"
      then fractionOrExponent rest else POk (JNum n) rest
  | EmptyString => POk (JNum n) rest
  end.

(** JSON number, positioned after an optional minus sign of sign [sg]. *)
Definition parseNat (sg : Z) (s : string) : presult json :=
  match s with
  | String c r =>
      if Ascii.eqb c "0" then endOfInt 0 r
      else if isDigit c then
        let (n, rest) := digits (digitVal c) r in endOfInt (sg * n)%Z rest
      else PErr
  | EmptyString => PErr
  end.

Definition pcons (c : ascii) (r : presult string) : presult string :=
  pbind "" r (fun s rest => POk (String c s) rest).

(** The characters of a string literal after its opening quote, up to and
    including the closing quote.  An escape [\uXXXX] above [007f] names a
    character that is not one 8-bit character of this model (a file holds
    it as several bytes): the string that has one is recognised, and has
    no value here. *)
Fixpoint parseStringBody (s : string) : presult string :=
  match s with
  | EmptyString => PErr
  | String c r =>
      if Ascii.eqb c DQ then POk "" r
      else if Ascii.eqb c "\" then
        match r with
        | String e r' =>
            if Ascii.eqb e DQ then pcons DQ (parseStringBody r')
            else if Ascii.eqb e "\" then pcons "\" (parseStringBody r')
            else if Ascii.eqb e "/" then pcons "/" (parseStringBody r')
            else if Ascii.eqb e "b" then pcons (ascii_of_nat 8) (parseStringBody r')
            else if Ascii.eqb e "f" then pcons (ascii_of_nat 12) (parseStringBody r')
            else if Ascii.eqb e "n" then pcons (ascii_of_nat 10) (parseStringBody r')
            else if Ascii.eqb e "r" then pcons (ascii_of_nat 13) (parseStringBody r')
            else if Ascii.eqb e "t" then pcons (ascii_of_nat 9) (parseStringBody r')
            else if Ascii.eqb e "u" then
              match r' with
              | String h1 (String h2 (String h3 (String h4 r''))) =>
                  match hexVal h1, hexVal h2, hexVal h3, hexVal h4 with
                  | Some a, Some b, Some c', Some d =>
                      let code := ((a * 16 + b) * 16 + c') * 16 + d in
                      if (code <? 128)%nat
                      then pcons (ascii_of_nat code) (parseStringBody r'')
                      else taint (parseStringBody r'')
                  | _, _, _, _ => PErr
                  end
              | _ => PErr
              end
            else PErr
        | EmptyString => PErr
        end
      else if (nat_of_ascii c <? 32)%nat then PErr
      else pcons c (parseStringBody r)
  end.

Definition expect (lit : string) (v : json) (s : string) : presult json :=
  if startsWith s lit
  then POk v (JsString.substring (String.length lit) s) else PErr.

Fixpoint parseValue (fuel : nat) (s : string) : presult json :=
  match fuel with
  | O => PFuel
  | S fuel =>
      match skipWs s with
      | EmptyString => PErr
      | String c r =>
          if Ascii.eqb c "n" then expect "ull" JNull r
          else if Ascii.eqb c "t" then expect "rue" (JBool true) r
          else if Ascii.eqb c "f" then expect "alse" (JBool false) r
          else if Ascii.eqb c DQ then
            pbind "" (parseStringBody r)
              (fun str rest => POk (JStr str) rest)
          else if Ascii.eqb c "-" then parseNat (-1) r
          else if isDigit c then parseNat 1 (String c r)
          else if Ascii.eqb c "[" then
            match skipWs r with
            | String "]" rest => POk (JArr []) rest
            | r1 => pbind [] (parseElements fuel r1)
                      (fun items rest => POk (JArr items) rest)
            end
          else if Ascii.eqb c "{" then
            match skipWs r with
            | String "}" rest => POk (JObj []) rest
            | r1 => pbind [] (parseMembers fuel [] r1)
                      (fun fields rest => POk (JObj fields) rest)
            end
          else PErr
      end
  end

with parseElements (fuel : nat) (s : string) : presult (list json) :=
  match fuel with
  | O => PFuel
  | S fuel =>
      pbind JNull (parseValue fuel s) (fun v rest =>
        match skipWs rest with
        | String "," rest' =>
            pbind [] (parseElements fuel rest')
              (fun vs rest'' => POk (v :: vs) rest'')
        | String "]" rest' => POk [v] rest'
        | _ => PErr
        end)
  end

with parseMembers (fuel : nat) (acc : list (string * json)) (s : string)
  : presult (list (string * json)) :=
  match fuel with
  | O => PFuel
  | S fuel =>
      match skipWs s with
      | String c r =>
          if Ascii.eqb c DQ then
            pbind "" (parseStringBody r) (fun key rest =>
              match skipWs rest with
              | String ":" rest1 =>
                  pbind JNull (parseValue fuel rest1) (fun v rest2 =>
                    let acc' := assign key v acc in
                    match skipWs rest2 with
                    | String "," rest3 => parseMembers fuel acc' rest3
                    | String "}" rest3 => POk acc' rest3
                    | _ => PErr
                    end)
              | _ => PErr
              end)
          else PErr
      | EmptyString => PErr
      end
  end.

(** [JSON.parse(s)]: the value of a complete JSON text, or a
    [SyntaxError] for a text that is not JSON; the two other outcomes are
    not outcomes of [JSON.parse] (see [exn]). *)
Definition parse (s : string) : result json :=
  match parseValue (2 * String.length s + 2) s with
  | POk v rest =>
      match skipWs rest with
      | EmptyString => Ok v
      | _ => Throw SyntaxError
      end
  | PErr => Throw SyntaxError
  | PUnsupported rest =>
      match skipWs rest with
      | EmptyString => Throw OutsideFragment
      | _ => Throw SyntaxError
      end
  | PFuel => Throw OutOfFuel
  end.

End Json.
Import Json.

(** ** The file system below the storage root *)

Inductive node : Type :=
| File (data : string)
| Dir (entries : list (string * node)).

(** A path is the list of its components below [chat_history]. *)
Definition path : Type := list string.

Module Fs.

(** What a path resolves to, starting from what the storage root itself
    resolves to ([None]: nothing there). *)
Fixpoint lookup (p : path) (o : option node) : option node :=
  match p with
  | [] => o
  | c :: p' =>
      match o with
      | Some (Dir es) => lookup p' (assoc c es)
      | _ => None
      end
  end.

(** Replace what [p] resolves to by [f] of it; every directory on the way
    must exist. *)
Fixpoint alter (p : path) (f : option node -> result (option node))
  (o : option node) : result (option node) :=
  match p with
  | [] => f o
  | c :: p' =>
      match o with
      | None => Throw ENOENT
      | Some (File _) => Throw ENOTDIR
      | Some (Dir es) =>
          match alter p' f (assoc c es) with
          | Ok (Some child) => Ok (Some (Dir (assign c child es)))
          | Ok None => Ok (Some (Dir (remove c es)))
          | Throw e => Throw e
          end
      end
  end.

(** [mkdir -p]: create [p] and every missing directory on the way. *)
Fixpoint mkdirp (p : path) (o : option node) : result node :=
  match p with
  | [] =>
      match o with
      | None => Ok (Dir [])
      | Some (Dir es) => Ok (Dir es)
      | Some (File _) => Throw EEXIST
      end
  | c :: p' =>
      match o with
      | None =>
          match mkdirp p' None with
          | Ok child => Ok (Dir [(c, child)])
          | Throw e => Throw e
          end
      | Some (Dir es) =>
          match mkdirp p' (assoc c es) with
          | Ok child => Ok (Dir (assign c child es))
          | Throw e => Throw e
          end
      | Some (File _) => Throw ENOTDIR
      end
  end.

(** The height of a tree bounds the recursion depth of a recursive
    removal. *)
Fixpoint height (n : node) : nat :=
  match n with
  | File _ => 0
  | Dir es => S (fold_right (fun e h => Nat.max (height (snd e)) h) 0 es)
  end.

End Fs.

(** ** The world: storage, and the clock read by [Date.now()] *)

Record World : Type := mkWorld {
  storage : option node;   (* what [chat_history] resolves to *)
  clock : nat -> Z;        (* successive readings of [Date.now()] *)
  tick : nat               (* how many readings were taken *)
}.

Definition withStorage (w : World) (o : option node) : World :=
  mkWorld o (clock w) (tick w).

(** A computation returns or throws, and leaves a world behind either
    way. *)
Definition M (A : Type) : Type := World -> result A * World.

Definition ret {A : Type} (a : A) : M A := fun w => (Ok a, w).

Definition throw {A : Type} (e : exn) : M A := fun w => (Throw e, w).

Definition bind {A B : Type} (m : M A) (k : A -> M B) : M B :=
  fun w =>
    match m w with
    | (Ok a, w') => k a w'
    | (Throw e, w') => (Throw e, w')
    end.

(** [try { m } catch (error) { h error }] *)
Definition tryCatch {A : Type} (m : M A) (h : exn -> M A) : M A :=
  fun w =>
    match m w with
    | (Ok a, w') => (Ok a, w')
    | (Throw e, w') => h e w'
    end.

Definition liftResult {A : Type} (r : result A) : M A := fun w => (r, w).

Declare Scope js_scope.
Delimit Scope js_scope with js.
Notation "x <- c ;; k" := (bind c (fun x => k))
  (at level 61, c at next level, right associativity) : js_scope.
Notation "c ;; k" := (bind c (fun _ => k))
  (at level 61, right associativity) : js_scope.
Local Open Scope js_scope.

(** [arr.forEach(f)] *)
Fixpoint forEach {A : Type} (l : list A) (f : A -> M unit) : M unit :=
  match l with
  | [] => ret tt
  | x :: r => f x ;; forEach r f
  end.

(** [arr.filter(f)] with an effectful predicate. *)
Fixpoint filterM {A : Type} (f : A -> M bool) (l : list A) : M (list A) :=
  match l with
  | [] => ret []
  | x :: r =>
      keep <- f x ;;
      r' <- filterM f r ;;
      ret (if keep then x :: r' else r')
  end.

(** A [forEach] whose callback grows an array by [push]. *)
Fixpoint foldM {A B : Type} (f : B -> A -> M B) (l : list A) (acc : B)
  : M B :=
  match l with
  | [] => ret acc
  | x :: r => acc' <- f acc x ;; foldM f r acc'
  end.

(** *** Node.js [fs] *)

Record Stats : Type := mkStats { isDirectory : bool }.

Definition existsSync (p : path) : M bool :=
  fun w =>
    (Ok (match Fs.lookup p (storage w) with Some _ => true | None => false end),
     w).

(** [fs.mkdirSync(p, { recursive: true })] *)
Definition mkdirSync (p : path) : M unit :=
  fun w =>
    match Fs.mkdirp p (storage w) with
    | Ok n => (Ok tt, withStorage w (Some n))
    | Throw e => (Throw e, w)
    end.

Definition readdirSync (p : path) : M (list string) :=
  fun w =>
    match Fs.lookup p (storage w) with
    | Some (Dir es) => (Ok (map fst es), w)
    | Some (File _) => (Throw ENOTDIR, w)
    | None => (Throw ENOENT, w)
    end.

Definition statSync (p : path) : M Stats :=
  fun w =>
    match Fs.lookup p (storage w) with
    | Some (Dir _) => (Ok (mkStats true), w)
    | Some (File _) => (Ok (mkStats false), w)
    | None => (Throw ENOENT, w)
    end.

Definition readFileSync (p : path) : M string :=
  fun w =>
    match Fs.lookup p (storage w) with
    | Some (File data) => (Ok data, w)
    | Some (Dir _) => (Throw EISDIR, w)
    | None => (Throw ENOENT, w)
    end.

Definition alterSync (p : path) (f : option node -> result (option node))
  : M unit :=
  fun w =>
    match Fs.alter p f (storage w) with
    | Ok o => (Ok tt, withStorage w o)
    | Throw e => (Throw e, w)
    end.

Definition writeFileSync (p : path) (data : string) : M unit :=
  alterSync p (fun o =>
    match o with
    | Some (Dir _) => Throw EISDIR
    | _ => Ok (Some (File data))
    end).

Definition unlinkSync (p : path) : M unit :=
  alterSync p (fun o =>
    match o with
    | Some (File _) => Ok None
    | Some (Dir _) => Throw EISDIR
    | None => Throw ENOENT
    end).

Definition rmdirSync (p : path) : M unit :=
  alterSync p (fun o =>
    match o with
    | Some (Dir []) => Ok None
    | Some (Dir (_ :: _)) => Throw ENOTEMPTY
    | Some (File _) => Throw ENOTDIR
    | None => Throw ENOENT
    end).

(** [Date.now()] *)
Definition Date_now : M Z :=
  fun w => (Ok (clock w (tick w)), mkWorld (storage w) (clock w) (S (tick w))).

(** *** JavaScript values and property access *)

(** What a call can hand back besides JSON data: [undefined], or a
    [Buffer] of raw bytes.  [null] is [Val JNull]. *)
Inductive jsval : Type :=
| Undefined
| Val (j : json)
| Buffer (bytes : string).

(** [v.k] for the property names this program reads ([projectType], [id],
    [response]): only an object can own them, [null.k] throws, and on any
    other value the read gives [undefined] ([None]). *)
Definition getProp (k : string) (v : json) : result (option json) :=
  match v with
  | JNull => Throw TypeError
  | JObj fields => Ok (assoc k fields)
  | _ => Ok None
  end.

(** [v.k = x] in strict code (a class body): it throws on [null] and on
    primitives; on an array it creates a property that [JSON.stringify]
    never prints, so the array's JSON value is unchanged. *)
Definition setProp (k : string) (x : json) (v : json) : result json :=
  match v with
  | JObj fields => Ok (JObj (assign k x fields))
  | JArr items => Ok (JArr items)
  | _ => Throw TypeError
  end.

(** ToBoolean of a property read. *)
Definition truthy (v : option json) : bool :=
  match v with
  | None => false
  | Some JNull => false
  | Some (JBool b) => b
  | Some (JNum n) => negb (n =? 0)%Z
  | Some (JStr s) => negb (String.eqb s "")
  | Some (JArr _) => true
  | Some (JObj _) => true
  end.

(** ToNumber of a property read, [None] standing for NaN.  Strings, arrays
    and objects are outside the integer fragment and read as NaN. *)
Definition toNumber (v : option json) : option Z :=
  match v with
  | Some JNull => Some 0%Z
  | Some (JBool b) => Some (if b then 1 else 0)%Z
  | Some (JNum n) => Some n
  | _ => None
  end.

(** [arr.sort(comparefn)]: a stable sort; a comparison that is NaN counts
    as 0, and an exception of [comparefn] leaves the sort. *)
Section Sort.
Variable A : Type.
Variable comparefn : A -> A -> result (option Z).

Fixpoint insertSorted (x : A) (l : list A) : result (list A) :=
  match l with
  | [] => Ok [x]
  | y :: r =>
      match comparefn x y with
      | Throw e => Throw e
      | Ok v =>
          if (match v with Some d => d | None => 0 end <=? 0)%Z
          then Ok (x :: y :: r)
          else
            match insertSorted x r with
            | Ok r' => Ok (y :: r')
            | Throw e => Throw e
            end
      end
  end.

Fixpoint arraySort (l : list A) : result (list A) :=
  match l with
  | [] => Ok []
  | x :: r =>
      match arraySort r with
      | Ok r' => insertSorted x r'
      | Throw e => Throw e
      end
  end.
End Sort.

(** [arr.pop()] on a fresh array: its last element, if any. *)
Fixpoint pop {A : Type} (l : list A) : option A :=
  match l with
  | [] => None
  | [x] => Some x
  | _ :: r => pop r
  end.

(** ** Conversations *)

Record Message : Type := mkMessage {
  role : string;
  content : string
}.

Record Conversation : Type := mkConversation {
  id : Z;
  title : string;
  messages : list Message
}.

Definition messageToJson (m : Message) : json :=
  JObj [("role", JStr (role m)); ("content", JStr (content m))].

(** The object [JSON.stringify(conversation, null, 2)] prints. *)
Definition conversationToJson (c : Conversation) : json :=
  JObj [("id", JNum (id c)); ("title", JStr (title c));
        ("messages", JArr (map messageToJson (messages c)))].

(** ** The HTTP exchange with the inference server *)

Record Request : Type := mkRequest {
  hostname : string;
  port : Z;
  urlPath : string;
  method : string;
  headers : list (string * json);
  body : string
}.

(** What the server side of one request amounts to: an [error] event on
    the request, or a response whose chunks are collected until [end]. *)
Inductive Exchange : Type :=
| TransportError (e : exn)
| Response (responseData : string).

(** How the promise returned by an [async] method settles. *)
Inductive Settled : Type :=
| Resolved (v : jsval)
| Rejected (e : exn).

(** ** The ChatManager class

    The class is defined twice in the repository, in src/main.js and in
    src/unnamed/part_004.  The two bodies are the same statement for
    statement, except for the model name compared in [sendMessageToAPI],
    which is the section variable [claudeModel]. *)

Module ChatManager.
Section Class.

Variable claudeModel : string.

Definition chatHistoryDir : path := [].

(** [path.join(dir, name)] for a plain file name (not empty, neither [.]
    nor [..], without separator), which is appended as one component.
    The names the class builds itself are plain; a theorem about a name
    chosen by the caller assumes it plain. *)
Definition path_join (dir : path) (name : string) : path :=
  (dir ++ [name])%list.

(** [JSON.parse] as a throwing call. *)
Definition JSON_parse (s : string) : M json := liftResult (Json.parse s).

(** The template literal [chat_${id}]. *)
Definition conversationDirOf (conversationId : Z) : string :=
  "chat_" ++ Number_toString conversationId.

(** Helper function to recursively remove a directory and its contents
    (lines 618-632).  [fuel] bounds the recursion depth. *)
Fixpoint removeDirectoryRecursiveFuel (fuel : nat) (dirPath : path)
  : M unit :=
  match fuel with
  | O => throw OutOfFuel
  | S fuel =>
      ex <- existsSync dirPath ;;
      if ex then
        files <- readdirSync dirPath ;;
        forEach files (fun file =>
          let filePath := path_join dirPath file in
          stat <- statSync filePath ;;
          if isDirectory stat
          then removeDirectoryRecursiveFuel fuel filePath
          else unlinkSync filePath) ;;
        rmdirSync dirPath
      else ret tt
  end.

(** The recursion descends one directory level per call, so the height of
    the stored tree is budget enough. *)
Definition removeDirectoryRecursive (dirPath : path) : M unit :=
  fun w =>
    removeDirectoryRecursiveFuel
      (S (match storage w with Some n => Fs.height n | None => 0 end))
      dirPath w.

(** Lines 410-412: the last message whose role is [user]. *)
Definition lastUserMessage (conversation : Conversation) : option Message :=
  pop (filter (fun msg => String.eqb (role msg) "user")
         (messages conversation)).

(** Lines 415-421: the text after the [dataknot:] prefix of the trimmed,
    lower-cased message, when it has that prefix. *)
Definition dataKnotCommand (msg : Message) : option string :=
  let messageContent := toLowerCase (trim (content msg)) in
  if startsWith messageContent "dataknot:"
  then Some (trim (JsString.substring 9 messageContent))
  else None.

(** Lines 406-444: DataKnot command processing on the metadata object. *)
Definition processDataKnotCommand (conversation : Conversation)
  (metadata : json) : M json :=
  match lastUserMessage conversation with
  | Some msg =>
      match dataKnotCommand msg with
      | Some command =>
          if String.eqb command "start recipe" then
            metadata <- liftResult
                          (setProp "projectType" (JStr "recipe") metadata) ;;
            now <- Date_now ;;
            liftResult (setProp "lastModified" (JNum now) metadata)
          else ret metadata
      | None => ret metadata
      end
  | None => ret metadata
  end.

(** Lines 450-465: the read-back of a written [start recipe] record, whose
    outcome is only logged. *)
Definition verifyMetadataWrite (conversation : Conversation)
  (metadataFile : path) : M unit :=
  match lastUserMessage conversation with
  | Some msg =>
      match dataKnotCommand msg with
      | Some command =>
          if String.eqb command "start recipe" then
            tryCatch
              (verifyContent <- readFileSync metadataFile ;;
               verifyMetadata <- JSON_parse verifyContent ;;
               _ <- liftResult (getProp "projectType" verifyMetadata) ;;
               ret tt)
              (fun verifyError => ret tt)
          else ret tt
      | None => ret tt
      end
  | None => ret tt
  end.

(** Lines 357-466: the callback of [conversations.forEach]. *)
Definition saveConversation (conversation : Conversation) : M unit :=
  let conversationDir := conversationDirOf (id conversation) in
  let conversationPath := path_join chatHistoryDir conversationDir in
  ex <- existsSync conversationPath ;;
  (if negb ex then mkdirSync conversationPath else ret tt) ;;
  let artifactsPath := path_join conversationPath "artifacts" in
  ex <- existsSync artifactsPath ;;
  (if negb ex then mkdirSync artifactsPath else ret tt) ;;
  let conversationFile := path_join conversationPath "conversation.json" in
  writeFileSync conversationFile
    (Json.stringify2 (conversationToJson conversation)) ;;
  let metadataFile := path_join conversationPath "metadata.json" in
  ex <- existsSync metadataFile ;;
  metadata <-
    (if ex then
       tryCatch
         (existingMetadata <- readFileSync metadataFile ;;
          JSON_parse existingMetadata)
         (fun error => ret (JObj []))
     else ret (JObj [])) ;;
  metadata <- liftResult (setProp "id" (JNum (id conversation)) metadata) ;;
  metadata <- liftResult
                (setProp "title" (JStr (title conversation)) metadata) ;;
  metadata <- liftResult
                (setProp "created" (JNum (id conversation)) metadata) ;;
  now <- Date_now ;;
  metadata <- liftResult (setProp "lastModified" (JNum now) metadata) ;;
  metadata <- liftResult
                (setProp "messageCount"
                   (JNum (Z.of_nat (List.length (messages conversation))))
                   metadata) ;;
  metadata <- liftResult (setProp "version" (JStr "1.0") metadata) ;;
  projectType <- liftResult (getProp "projectType" metadata) ;;
  metadata <-
    (if negb (truthy projectType)
        || match projectType with
           | Some (JStr s) => String.eqb s ""
           | _ => false
           end
     then liftResult (setProp "projectType" (JStr "chat") metadata)
     else ret metadata) ;;
  metadata <- processDataKnotCommand conversation metadata ;;
  writeFileSync metadataFile (Json.stringify2 metadata) ;;
  verifyMetadataWrite conversation metadataFile.

(** Lines 338-470. *)
Definition saveChatHistory (conversations : list Conversation) : M unit :=
  tryCatch
    (ex <- existsSync chatHistoryDir ;;
     (if negb ex then mkdirSync chatHistoryDir else ret tt) ;;
     files <- readdirSync chatHistoryDir ;;
     forEach files (fun file =>
       let filePath := path_join chatHistoryDir file in
       stat <- statSync filePath ;;
       if isDirectory stat && startsWith file "chat_"
       then removeDirectoryRecursive filePath
       else ret tt) ;;
     forEach conversations saveConversation)
    (fun error => ret tt).

(** Lines 482-507: the callback of [files.forEach] in
    [initializeDefaultProjectTypes]. *)
Definition backfillProjectType (file : string) : M unit :=
  let filePath := path_join chatHistoryDir file in
  stat <- statSync filePath ;;
  if isDirectory stat && startsWith file "chat_" then
    let metadataFile := path_join filePath "metadata.json" in
    ex <- existsSync metadataFile ;;
    if ex then
      tryCatch
        (metadataContent <- readFileSync metadataFile ;;
         metadata <- JSON_parse metadataContent ;;
         projectType <- liftResult (getProp "projectType" metadata) ;;
         if negb (truthy projectType) then
           metadata <- liftResult
                         (setProp "projectType" (JStr "chat") metadata) ;;
           now <- Date_now ;;
           metadata <- liftResult
                         (setProp "lastModified" (JNum now) metadata) ;;
           writeFileSync metadataFile (Json.stringify2 metadata)
         else ret tt)
        (fun error => ret tt)
    else ret tt
  else ret tt.

(** Lines 475-513. *)
Definition initializeDefaultProjectTypes : M unit :=
  tryCatch
    (ex <- existsSync chatHistoryDir ;;
     if negb ex then ret tt
     else
       files <- readdirSync chatHistoryDir ;;
       forEach files backfillProjectType)
    (fun error => ret tt).

(** The comparator [(a, b) => b.id - a.id]. *)
Definition compareIds (a b : json) : result (option Z) :=
  match getProp "id" b with
  | Throw e => Throw e
  | Ok bid =>
      match getProp "id" a with
      | Throw e => Throw e
      | Ok aid =>
          Ok (match toNumber bid, toNumber aid with
              | Some x, Some y => Some (x - y)%Z
              | _, _ => None
              end)
      end
  end.

(** Lines 558-598. *)
Definition loadChatHistory : M (list json) :=
  tryCatch
    (ex <- existsSync chatHistoryDir ;;
     if negb ex then ret []
     else
       files <- readdirSync chatHistoryDir ;;
       conversationDirs <-
         filterM (fun file =>
           let filePath := path_join chatHistoryDir file in
           stat <- statSync filePath ;;
           ret (isDirectory stat && startsWith file "chat_")) files ;;
       conversations <-
         foldM (fun conversations dir =>
           tryCatch
             (let conversationPath := path_join chatHistoryDir dir in
              let conversationFile :=
                path_join conversationPath "conversation.json" in
              ex <- existsSync conversationFile ;;
              if ex then
                data <- readFileSync conversationFile ;;
                conversation <- JSON_parse data ;;
                ret (conversations ++ [conversation])%list
              else ret conversations)
             (fun error => ret conversations))
           conversationDirs [] ;;
       liftResult (arraySort compareIds conversations))
    (fun error => ret []).

(** Lines 637-663. *)
Definition createArtifactsDirectories : M unit :=
  tryCatch
    (ex <- existsSync chatHistoryDir ;;
     if negb ex then ret tt
     else
       files <- readdirSync chatHistoryDir ;;
       forEach files (fun file =>
         let filePath := path_join chatHistoryDir file in
         stat <- statSync filePath ;;
         if isDirectory stat && startsWith file "chat_" then
           let artifactsPath := path_join filePath "artifacts" in
           ex <- existsSync artifactsPath ;;
           if negb ex then mkdirSync artifactsPath else ret tt
         else ret tt))
    (fun error => ret tt).

(** Lines 284-307. *)
Definition initChatHistory : M (list json) :=
  tryCatch
    (ex <- existsSync chatHistoryDir ;;
     (if negb ex then mkdirSync chatHistoryDir else ret tt) ;;
     createArtifactsDirectories ;;
     initializeDefaultProjectTypes ;;
     loadChatHistory)
    (fun error => ret []).

(** [fs.writeFileSync(p, data)] for an arbitrary value: only a string or a
    buffer is accepted. *)
Definition writeData (p : path) (data : jsval) : M unit :=
  match data with
  | Val (JStr s) => writeFileSync p s
  | Buffer bytes => writeFileSync p bytes
  | _ => throw TypeError
  end.

(** [JSON.stringify(data, null, 2)] for an arbitrary value: [undefined]
    prints as [undefined], a buffer through its [toJSON]. *)
Definition stringifyData (data : jsval) : jsval :=
  match data with
  | Undefined => Undefined
  | Val j => Val (JStr (Json.stringify2 j))
  | Buffer bytes =>
      Val (JStr (Json.stringify2
        (JObj [("type", JStr "Buffer");
               ("data",
                JArr (map (fun c => JNum (Z.of_nat (nat_of_ascii c)))
                        (list_ascii_of_string bytes)))])))
  end.

(** Lines 672-708.  [artifactName] is a plain file name. *)
Definition saveConversationArtifact (conversationId : Z)
  (artifactName : string) (data : jsval) (type : string) : M unit :=
  tryCatch
    (let conversationDir := conversationDirOf conversationId in
     let conversationPath := path_join chatHistoryDir conversationDir in
     let artifactsPath := path_join conversationPath "artifacts" in
     ex <- existsSync conversationPath ;;
     (if negb ex then mkdirSync conversationPath else ret tt) ;;
     ex <- existsSync artifactsPath ;;
     (if negb ex then mkdirSync artifactsPath else ret tt) ;;
     let artifactPath := path_join artifactsPath artifactName in
     if String.eqb type "json" then writeData artifactPath (stringifyData data)
     else if String.eqb type "text" then writeData artifactPath data
     else if String.eqb type "binary" then writeData artifactPath data
     else throw (Error ("Unsupported artifact type: " ++ type)))
    (fun error => ret tt).

(** Lines 717-744. *)
Definition loadConversationArtifact (conversationId : Z)
  (artifactName : string) (type : string) : M jsval :=
  tryCatch
    (let conversationDir := conversationDirOf conversationId in
     let conversationPath := path_join chatHistoryDir conversationDir in
     let artifactsPath := path_join conversationPath "artifacts" in
     let artifactPath := path_join artifactsPath artifactName in
     ex <- existsSync artifactPath ;;
     if negb ex then ret (Val JNull)
     else
       data <- readFileSync artifactPath ;;
       if String.eqb type "json" then
         v <- JSON_parse data ;; ret (Val v)
       else if String.eqb type "text" then ret (Val (JStr data))
       else if String.eqb type "binary" then ret (Buffer data)
       else throw (Error ("Unsupported artifact type: " ++ type)))
    (fun error => ret (Val JNull)).

(** Lines 751-767. *)
Definition getConversationArtifacts (conversationId : Z) : M (list string) :=
  tryCatch
    (let conversationDir := conversationDirOf conversationId in
     let conversationPath := path_join chatHistoryDir conversationDir in
     let artifactsPath := path_join conversationPath "artifacts" in
     ex <- existsSync artifactsPath ;;
     if negb ex then ret []
     else readdirSync artifactsPath)
    (fun error => ret []).

(** Lines 915-927: the prompt built from the buffer and the new message. *)
Definition buildContext (conversationBuffer : list Message)
  (messageContent : string) : string :=
  let fullPrompt := messageContent in
  if (0 <? List.length conversationBuffer)%nat then
    let contextMessages :=
      join (LF ++ LF)
        (map (fun msg =>
           (if String.eqb (role msg) "user" then "User" else "AI")
           ++ ": " ++ content msg) conversationBuffer) in
    contextMessages ++ LF ++ LF ++ "User: " ++ messageContent
  else fullPrompt.

(** Lines 929-957: the request [http.request] is given. *)
Definition buildRequest (messageContent : string)
  (conversationBuffer : list Message) (model : string)
  (claudeApiKey : option string) : Request :=
  let postData :=
    Json.stringify
      (JObj [("prompt", JStr (buildContext conversationBuffer messageContent));
             ("model", JStr model);
             ("reset_conversation", JBool false)]) in
  let headers :=
    [("Content-Type", JStr "application/json");
     ("Content-Length", JNum (Z.of_nat (String.length postData)))] in
  let headers :=
    match claudeApiKey with
    | Some key =>
        if String.eqb model claudeModel && negb (String.eqb key "")
        then assign "claude-api-key" (JStr key) headers
        else headers
    | None => headers
    end in
  mkRequest "127.0.0.1" 8000 "/chat" "POST" headers postData.

(** Lines 958-975: how the promise settles on the exchange's outcome. *)
Definition handleExchange (x : Exchange) : Settled :=
  match x with
  | TransportError error => Rejected error
  | Response responseData =>
      match Json.parse responseData with
      | Ok data =>
          match getProp "response" data with
          | Ok (Some v) => Resolved (Val v)
          | Ok None => Resolved Undefined
          | Throw _ => Rejected (Error "Invalid JSON response from server")
          end
      | Throw _ => Rejected (Error "Invalid JSON response from server")
      end
  end.

(** Lines 911-983, against a server that answers a request by [server]. *)
Definition sendMessageToAPI (server : Request -> Exchange)
  (messageContent : string) (conversationBuffer : list Message)
  (model : string) (claudeApiKey : option string) : Settled :=
  handleExchange
    (server (buildRequest messageContent conversationBuffer model
               claudeApiKey)).

(** The text of a path in a message: what [path.join] returns, with the
    POSIX separator. *)
Definition pathToString (p : path) : string :=
  join "/" ("chat_history" :: p).

(** Lines 518-553.  [projectType] is [None] when the argument is omitted,
    and the parameter then takes its default.  The [catch] logs and
    rethrows. *)
Definition updateMetadataWithProjectType (conversationId : Z)
  (projectType : option string) : M bool :=
  let projectType :=
    match projectType with Some t => t | None => "recipe" end in
  tryCatch
    (let conversationDir := conversationDirOf conversationId in
     let conversationPath := path_join chatHistoryDir conversationDir in
     let metadataFile := path_join conversationPath "metadata.json" in
     ex <- existsSync conversationPath ;;
     (if negb ex
      then throw (Error ("Conversation directory not found: "
                         ++ pathToString conversationPath))
      else ret tt) ;;
     ex <- existsSync metadataFile ;;
     metadata <-
       (if ex then
          metadataContent <- readFileSync metadataFile ;;
          JSON_parse metadataContent
        else throw (Error ("Metadata file not found: "
                           ++ pathToString metadataFile))) ;;
     metadata <- liftResult
                   (setProp "projectType" (JStr projectType) metadata) ;;
     now <- Date_now ;;
     metadata <- liftResult (setProp "lastModified" (JNum now) metadata) ;;
     writeFileSync metadataFile (Json.stringify2 metadata) ;;
     ret true)
    (fun error => throw error).

(** Lines 603-613. *)
Definition deleteChatFile (conversationId : Z) : M unit :=
  tryCatch
    (let conversationDir := conversationDirOf conversationId in
     let conversationPath := path_join chatHistoryDir conversationDir in
     ex <- existsSync conversationPath ;;
     if ex then removeDirectoryRecursive conversationPath else ret tt)
    (fun error => ret tt).

(** Line 796: the prompt of the reset request. *)
Definition resetPrompt : string :=
  "SYSTEM: You are starting a completely new conversation. Forget everything from previous conversations. You have no memory of any previous interactions. Start fresh.".

(** Lines 791-869, against a server that answers a request by [server]:
    the requests sent, in order, and how the promise settles.  The second
    request is made after the first was answered; its failure is caught
    by the inner [try], a failure of the first by the outer one. *)
Definition resetAIMemory (server : Request -> Exchange) (model : string)
  : list Request * Settled :=
  let postData :=
    Json.stringify
      (JObj [("prompt", JStr resetPrompt);
             ("model", JStr model);
             ("reset_conversation", JBool true)]) in
  let chat :=
    mkRequest "127.0.0.1" 8000 "/chat" "POST"
      [("Content-Type", JStr "application/json");
       ("Content-Length", JNum (Z.of_nat (String.length postData)))]
      postData in
  match server chat with
  | TransportError error => ([chat], Resolved Undefined)
  | Response responseData =>
      let reset := mkRequest "127.0.0.1" 8000 "/reset-model" "POST" [] "" in
      match server reset with
      | TransportError modelError => ([chat; reset], Resolved Undefined)
      | Response responseData => ([chat; reset], Resolved Undefined)
      end
  end.

End Class.
End ChatManager.

(** The class of src/main.js (lines 247-984). *)
Module MainJs.
Definition claudeModel : string := "claude-sonnet-4-5".
Definition initChatHistory := ChatManager.initChatHistory.
Definition saveChatHistory := ChatManager.saveChatHistory.
Definition initializeDefaultProjectTypes :=
  ChatManager.initializeDefaultProjectTypes.
Definition loadChatHistory := ChatManager.loadChatHistory.
Definition saveConversationArtifact := ChatManager.saveConversationArtifact.
Definition loadConversationArtifact := ChatManager.loadConversationArtifact.
Definition getConversationArtifacts := ChatManager.getConversationArtifacts.
Definition buildRequest := ChatManager.buildRequest claudeModel.
Definition sendMessageToAPI := ChatManager.sendMessageToAPI claudeModel.
End MainJs.

(** The class of src/unnamed/part_004 (lines 8-610). *)
Module Part004.
Definition claudeModel : string := "claude-3-5-sonnet".
Definition initChatHistory := ChatManager.initChatHistory.
Definition saveChatHistory := ChatManager.saveChatHistory.
Definition initializeDefaultProjectTypes :=
  ChatManager.initializeDefaultProjectTypes.
Definition loadChatHistory := ChatManager.loadChatHistory.
Definition saveConversationArtifact := ChatManager.saveConversationArtifact.
Definition loadConversationArtifact := ChatManager.loadConversationArtifact.
Definition getConversationArtifacts := ChatManager.getConversationArtifacts.
Definition buildRequest := ChatManager.buildRequest claudeModel.
Definition sendMessageToAPI := ChatManager.sendMessageToAPI claudeModel.
End Part004.

(** ** Vocabulary of the specification

    Definitions that follow the specification's wording, for comparison
    with the code above. *)

(** The role label of a rendered transcript entry. *)
Definition roleLabel (r : string) : string :=
  if String.eqb r "user" then "User" else "AI".

(** A transcript entry: role label, colon, content. *)
Definition renderEntry (m : Message) : string :=
  roleLabel (role m) ++ ": " ++ content m.

(** Entries are joined with a blank line. *)
Definition blankLine : string := LF ++ LF.

(** The error envelope of the backend protocol, as the server sends it. *)
Definition errorEnvelope : string :=
  Json.stringify (JObj [("error", JStr "model not found")]).

(** A server that answers every request with the error envelope. *)
Definition failingServer (r : Request) : Exchange := Response errorEnvelope.

(** A server that checks for the API key header, as the Python server does
    for Claude models: with the header it answers, without it it reports
    an error. *)
Definition keyCheckingServer (r : Request) : Exchange :=
  match assoc "claude-api-key" (headers r) with
  | Some _ => Response (Json.stringify (JObj [("response", JStr "hello")]))
  | None => Response (Json.stringify (JObj [("error", JStr "no API key")]))
  end.
(** A computation is read-only when it leaves every world as it found
    it. *)
Definition readOnly {A : Type} (m : M A) : Prop :=
  forall w, snd (m w) = w.

(** A computation is safe when it never throws. *)
Definition neverThrows {A : Type} (m : M A) : Prop :=
  forall w, exists a, fst (m w) = Ok a.

(** Where an artifact of a conversation is stored. *)
Definition artifactPath (conversationId : Z) (artifactName : string) : path :=
  [ChatManager.conversationDirOf conversationId; "artifacts"; artifactName].

(** A computation preserves files when it neither creates, removes nor
    changes a regular file. *)
Definition preservesFiles {A : Type} (m : M A) : Prop :=
  forall w p data,
    Fs.lookup p (storage (snd (m w))) = Some (File data)
    <-> Fs.lookup p (storage w) = Some (File data).

(** A world whose clock starts at [t0] and advances by one per reading. *)
Definition worldAt (o : option node) (t0 : Z) : World :=
  mkWorld o (fun n => (t0 + Z.of_nat n)%Z) 0.

(** A storage root holding conversation 1 with one artifact whose text is
    not JSON. *)
Definition malformedArtifactStorage : option node :=
  Some (Dir [("chat_1", Dir [("artifacts", Dir [("x.json", File "{bad")])])]).

(** The storage in which [p] resolves to [n] ([None]: to nothing), all
    else being equal; [o] itself when a directory on the way is missing. *)
Fixpoint putAt (p : path) (n : option node) (o : option node)
  : option node :=
  match p with
  | [] => n
  | c :: p' =>
      match o with
      | Some (Dir es) =>
          match putAt p' n (assoc c es) with
          | Some child => Some (Dir (assign c child es))
          | None => Some (Dir (remove c es))
          end
      | _ => o
      end
  end.

(** ** Well-formed JSON values

    An object of JavaScript never has two properties of one name. *)

Section JsonInduction.
Variable P : json -> Prop.
Hypothesis HNull : P JNull.
Hypothesis HBool : forall b, P (JBool b).
Hypothesis HNum : forall n, P (JNum n).
Hypothesis HStr : forall s, P (JStr s).
Hypothesis HArr : forall items, Forall P items -> P (JArr items).
Hypothesis HObj :
  forall fields, Forall (fun kv => P (snd kv)) fields -> P (JObj fields).

(** Induction on JSON values, with the hypothesis for every item of an
    array and every value of an object. *)
Fixpoint json_nested_ind (v : json) : P v :=
  match v with
  | JNull => HNull
  | JBool b => HBool b
  | JNum n => HNum n
  | JStr s => HStr s
  | JArr items =>
      HArr ((fix go (l : list json) : Forall P l :=
               match l with
               | [] => Forall_nil P
               | x :: r => Forall_cons x (json_nested_ind x) (go r)
               end) items)
  | JObj fields =>
      HObj ((fix go (l : list (string * json))
               : Forall (fun kv => P (snd kv)) l :=
               match l with
               | [] => Forall_nil _
               | kv :: r =>
                   Forall_cons kv (json_nested_ind (snd kv)) (go r)
               end) fields)
  end.
End JsonInduction.

(** No object of [v], at any depth, repeats a property name. *)
Fixpoint wfJson (v : json) : Prop :=
  match v with
  | JArr items => fold_right (fun x acc => wfJson x /\ acc) True items
  | JObj fields =>
      NoDup (map fst fields)
      /\ fold_right (fun kv acc => wfJson (snd kv) /\ acc) True fields
  | _ => True
  end.

(** The recursion budget the parser needs on the text of [v]. *)
Fixpoint parseFuel (v : json) : nat :=
  match v with
  | JArr items =>
      S (fold_right (fun x acc => S (Nat.max (parseFuel x) acc)) 0 items)
  | JObj fields =>
      S (fold_right (fun kv acc => S (Nat.max (parseFuel (snd kv)) acc)) 0
           fields)
  | _ => 1
  end.

(** The number of values in [v]. *)
Fixpoint nodes (v : json) : nat :=
  match v with
  | JArr items => S (fold_right (fun x acc => nodes x + acc) 0 items)
  | JObj fields => S (fold_right (fun kv acc => nodes (snd kv) + acc) 0 fields)
  | _ => 1
  end.

(** A string of JSON white space only. *)
Fixpoint allWs (s : string) : bool :=
  match s with
  | String c r => Json.isJsonWs c && allWs r
  | EmptyString => true
  end.

(** What may follow a number for it to end there: the end of the text, or
    a character that is no digit, point or exponent mark. *)
Definition terminated (rest : string) : bool :=
  match rest with
  | String c _ =>
      negb (Json.isDigit c || Ascii.eqb c "." || Ascii.eqb c "e"
            || Ascii.eqb c "E")
  | EmptyString => true
  end.

(** The white space [JSON.stringify] puts after an opening bracket and
    after a comma, and before a closing bracket, at indentation [ind]. *)
Definition padOpen (gap ind : string) : string :=
  if String.eqb gap "" then "" else LF ++ ind ++ gap.

Definition padClose (gap ind : string) : string :=
  if String.eqb gap "" then "" else LF ++ ind.

(** The recursion budget of a run of array elements or object members. *)
Definition elementsFuel (items : list json) : nat :=
  fold_right (fun x acc => S (Nat.max (parseFuel x) acc)) 0 items.

Definition membersFuel (fields : list (string * json)) : nat :=
  fold_right (fun kv acc => S (Nat.max (parseFuel (snd kv)) acc)) 0 fields.

(** The text of one object member. *)
Definition memberText (gap ind : string) (kv : string * json) : string :=
  Json.quote (fst kv)
  ++ (if String.eqb gap "" then ":" else ": ")
  ++ Json.serialize gap (ind ++ gap) (snd kv).


(** A serialized value starts with a character that is neither white
    space nor a closing bracket. *)
Definition opensValue (c : ascii) : bool :=
  negb (Json.isJsonWs c) && negb (Ascii.eqb c "]") && negb (Ascii.eqb c "}").


(** The text of [v], at any indentation and before any text a number may
    end at, parses back to [v] within the budget of [v]. *)
Definition parsesBack (v : json) : Prop :=
  forall gap ind rest fuel,
    allWs gap = true -> allWs ind = true -> wfJson v ->
    terminated rest = true -> parseFuel v <= fuel ->
    Json.parseValue fuel (Json.serialize gap ind v ++ rest) = POk v rest.

(** ** Persistence, in the specification's words *)

(** The most recently appended message authored by the [user] role. *)
Definition trailingUserMessage (c : Conversation) : option Message :=
  find (fun m => String.eqb (role m) "user") (rev (messages c)).

(** The command token of a message: what follows the directive prefix of
    the trimmed, lower-cased text, itself trimmed. *)
Definition directive (text : string) : option string :=
  let t := toLowerCase (trim text) in
  if startsWith t "dataknot:"
  then Some (trim (JsString.substring (String.length "dataknot:") t))
  else None.

(** The trailing user message is the recognized command. *)
Definition startRecipeRequested (c : Conversation) : bool :=
  match trailingUserMessage c with
  | Some m =>
      match directive (content m) with
      | Some token => String.eqb token "start recipe"
      | None => false
      end
  | None => false
  end.

(** The metadata record a persist writes for a conversation whose
    directory held no record, the clock standing at reading [t]. *)
Definition freshMetadata (c : Conversation) (clk : nat -> Z) (t : nat)
  : json :=
  JObj [("id", JNum (id c));
        ("title", JStr (title c));
        ("created", JNum (id c));
        ("lastModified",
         JNum (if startRecipeRequested c then clk (S t) else clk t));
        ("messageCount", JNum (Z.of_nat (List.length (messages c))));
        ("version", JStr "1.0");
        ("projectType",
         JStr (if startRecipeRequested c then "recipe" else "chat"))].

(** How many clock readings persisting one conversation takes. *)
Definition readingsOf (c : Conversation) : nat :=
  if startRecipeRequested c then 2 else 1.

(** The directory a persist creates for a conversation. *)
Definition savedDir (c : Conversation) (clk : nat -> Z) (t : nat) : node :=
  Dir [("artifacts", Dir []);
       ("conversation.json", File (Json.stringify2 (conversationToJson c)));
       ("metadata.json", File (Json.stringify2 (freshMetadata c clk t)))].

(** The directories a persist creates for a list of conversations, in the
    order of the list. *)
Fixpoint savedDirs (l : list Conversation) (clk : nat -> Z) (t : nat)
  : list (string * node) :=
  match l with
  | [] => []
  | c :: r =>
      (ChatManager.conversationDirOf (id c), savedDir c clk t)
      :: savedDirs r clk (t + readingsOf c)
  end.

Fixpoint readingsOfAll (l : list Conversation) : nat :=
  match l with
  | [] => 0
  | c :: r => readingsOf c + readingsOfAll r
  end.

(** An entry of the storage root that a persist clears: a directory
    whose name starts with [chat_]. *)
Definition isConversationDir (e : string * node) : bool :=
  match snd e with
  | Dir _ => startsWith (fst e) "chat_"
  | File _ => false
  end.

(** A storage root a persist of [l] can work on: nothing there yet, or a
    directory whose entries have distinct names and in which no regular
    file bears the directory name of a conversation of [l]. *)
Definition storageReady (o : option node) (l : list Conversation) : Prop :=
  match o with
  | None => True
  | Some (File _) => False
  | Some (Dir entries) =>
      NoDup (map fst entries)
      /\ forall c data,
           In c l ->
           assoc (ChatManager.conversationDirOf (id c)) entries
           <> Some (File data)
  end.

(** The entries of the root, once present. *)
Definition rootEntries (o : option node) : list (string * node) :=
  match o with
  | Some (Dir entries) => entries
  | _ => []
  end.

(** Conversations by identifier, newest first: a stable insertion sort. *)
Fixpoint insertById (c : Conversation) (l : list Conversation)
  : list Conversation :=
  match l with
  | [] => [c]
  | d :: r => if (id d - id c <=? 0)%Z then c :: d :: r
              else d :: insertById c r
  end.

Fixpoint sortByIdDesc (l : list Conversation) : list Conversation :=
  match l with
  | [] => []
  | c :: r => insertById c (sortByIdDesc r)
  end.

(** The names under the storage root that resolve to conversation
    directories. *)
Definition isConversationDirName (o : option node) (name : string) : Prop :=
  startsWith name "chat_" = true
  /\ exists entries, Fs.lookup [name] o = Some (Dir entries).

(** The metadata record of a conversation as a reader finds it on disk:
    the parsed text of its [metadata.json], if it is there and parses. *)
Definition readMetadata (o : option node) (conversationId : Z)
  : option json :=
  match Fs.lookup [ChatManager.conversationDirOf conversationId;
                   "metadata.json"] o with
  | Some (File text) =>
      match Json.parse text with
      | Ok v => Some v
      | Throw _ => None
      end
  | _ => None
  end.

(** A field of that record. *)
Definition metadataField (o : option node) (conversationId : Z)
  (k : string) : option json :=
  match readMetadata o conversationId with
  | Some (JObj fields) => assoc k fields
  | _ => None
  end.

(** *** Sample data *)

Definition helloConversation : Conversation :=
  mkConversation 1 "First chat"
    [mkMessage "user" "hello"; mkMessage "assistant" "hi there"].

Definition recipeConversation : Conversation :=
  mkConversation 2 "Soup"
    [mkMessage "user" "  DataKnot:   Start Recipe  "].

(** Conversation 1 again, now ending in a directive with another token. *)
Definition frobnicateConversation : Conversation :=
  mkConversation 1 "First chat"
    [mkMessage "user" "hello"; mkMessage "assistant" "hi there";
     mkMessage "user" "dataknot: frobnicate"].

(** A second conversation that bears the identifier of the first. *)
Definition clashingConversation : Conversation :=
  mkConversation 1 "Same millisecond" [mkMessage "user" "other"].

(** A storage root with a stray file and a conversation directory of an
    earlier generation, holding an artifact. *)
Definition earlierStorage : option node :=
  Some (Dir [("notes.txt", File "keep me");
             ("chat_9",
              Dir [("artifacts", Dir [("old.txt", File "old")]);
                   ("conversation.json", File "{}")])]).

(** A storage root in which conversation 1 is classified [recipe] and its
    metadata record carries the caller-defined field [foo]. *)
Definition annotatedStorage : option node :=
  Some (Dir [("chat_1",
              Dir [("artifacts", Dir []);
                   ("conversation.json",
                    File (Json.stringify2 (conversationToJson helloConversation)));
                   ("metadata.json",
                    File (Json.stringify2
                      (JObj [("id", JNum 1); ("title", JStr "First chat");
                             ("created", JNum 1); ("lastModified", JNum 5);
                             ("messageCount", JNum 2);
                             ("version", JStr "1.0");
                             ("projectType", JStr "recipe");
                             ("foo", JStr "bar")])))])]).

(** Well-formed member lists: distinct names, well-formed values. *)
Definition wfFields (fields : list (string * json)) : Prop :=
  NoDup (map fst fields)
  /\ fold_right (fun kv acc => wfJson (snd kv) /\ acc) True fields.

(** ** Initialization, in the specification's words *)

(** The conversation directory [name] has a metadata record: a file
    [metadata.json] whose text is a JSON object. *)
Definition hasMetadataRecord (o : option node) (name : string) : Prop :=
  exists text fields,
    Fs.lookup [name; "metadata.json"] o = Some (File text)
    /\ Json.parse text = Ok (JObj fields).

(** ... and the record carries a classification tag. *)
Definition hasClassification (o : option node) (name : string) : Prop :=
  exists text fields,
    Fs.lookup [name; "metadata.json"] o = Some (File text)
    /\ Json.parse text = Ok (JObj fields)
    /\ truthy (assoc "projectType" fields) = true.

(** What the backfill writes back for a parsed record, if it writes. *)
Definition backfillOf (v : json) (now : Z) : option json :=
  match v with
  | JObj fields =>
      if truthy (assoc "projectType" fields) then None
      else Some (JObj (assign "lastModified" (JNum now)
                         (assign "projectType" (JStr "chat") fields)))
  | JArr items => Some (JArr items)
  | _ => None
  end.

(** A legacy storage root: conversation 1 has a record without a
    classification, conversation 2 has no record, the record of
    conversation 3 is not JSON. *)
Definition legacyStorage : option node :=
  Some (Dir [("chat_1",
              Dir [("conversation.json", File "{}");
                   ("metadata.json",
                    File (Json.stringify2
                            (JObj [("id", JNum 1);
                                   ("title", JStr "Old chat")])))]);
             ("chat_2", Dir [("conversation.json", File "{}")]);
             ("chat_3",
              Dir [("conversation.json", File "{}");
                   ("metadata.json", File "not json")])]).

(** A string of white space only, as [trim] sees it. *)
Fixpoint allWhite (s : string) : bool :=
  match s with
  | String c r => isWhiteSpace c && allWhite r
  | EmptyString => true
  end.

(** ** Inputs on which the embedding is exact

    The conditions below single out the inputs on which the primitives of
    the embedding coincide with those of Node.js; the theorems that depend
    on such a primitive assume them. *)

(** Every character of [s] satisfies [p]. *)
Fixpoint allChars (p : ascii -> bool) (s : string) : bool :=
  match s with
  | String c r => p c && allChars p r
  | EmptyString => true
  end.

(** ASCII text: on it [trim] and [toLowerCase] are those of JavaScript. *)
Definition asciiOnly (s : string) : bool :=
  allChars (fun c => (nat_of_ascii c <? 128)%nat) s.

(** The trailing user message of a conversation, if any, is ASCII text. *)
Definition trailingAscii (c : Conversation) : bool :=
  match trailingUserMessage c with
  | Some m => asciiOnly (content m)
  | None => true
  end.

(** A plain file name: [path.join] appends it as one component.  It is
    not empty, neither [.] nor [..], and holds no separator and no NUL. *)
Definition plainFileName (name : string) : bool :=
  negb (String.eqb name "") && negb (String.eqb name ".")
  && negb (String.eqb name "..")
  && allChars (fun c => negb (Ascii.eqb c "/") && negb (Ascii.eqb c "\")
                        && negb (Ascii.eqb c zero)) name.

(** A property name that JavaScript may treat as an array index (a
    numeral): an object lists such names first, whatever the order in
    which they were assigned. *)
Definition integerLikeKey (k : string) : bool :=
  negb (String.eqb k "") && allChars Json.isDigit k.

(** A plain JSON value: its integers are safe integers, which a
    JavaScript number holds exactly, and its objects have no numeral among
    their property names, so that they list their properties in the order
    of assignment. *)
Fixpoint plainJson (v : json) : bool :=
  match v with
  | JNum n => (Z.abs n <=? 9007199254740991)%Z
  | JArr items => forallb plainJson items
  | JObj fields =>
      forallb (fun kv => negb (integerLikeKey (fst kv)) && plainJson (snd kv))
        fields
  | _ => true
  end.

(** A text on which the parser above describes [JSON.parse]: it is the
    text of a plain value, or it is not JSON. *)
Definition describedText (text : string) : bool :=
  match Json.parse text with
  | Ok v => plainJson v
  | Throw SyntaxError => true
  | Throw _ => false
  end.

(** ** Further vocabulary: the rest of the class *)

(** Directory entries have distinct names, at every level of the tree. *)
Fixpoint wfNode (n : node) : Prop :=
  match n with
  | File _ => True
  | Dir es =>
      NoDup (map fst es)
      /\ (fix all (l : list (string * node)) : Prop :=
            match l with
            | [] => True
            | e :: r => wfNode (snd e) /\ all r
            end) es
  end.

Definition wfStorage (o : option node) : Prop :=
  match o with
  | Some n => wfNode n
  | None => True
  end.

(** [p] is [q] or an ancestor of [q]. *)
Fixpoint isPrefix (p q : path) : bool :=
  match p, q with
  | [], _ => true
  | c :: p', d :: q' => String.eqb c d && isPrefix p' q'
  | _ :: _, [] => false
  end.

(** The conversation body a load reads from an entry of the storage
    root: the parsed text of [conversation.json] in a directory whose
    name starts with [chat_], when the file is there and parses. *)
Definition bodyOf (e : string * node) : list json :=
  match snd e with
  | Dir es =>
      if startsWith (fst e) "chat_" then
        match assoc "conversation.json" es with
        | Some (File text) =>
            match Json.parse text with
            | Ok v => [v]
            | Throw _ => []
            end
        | _ => []
        end
      else []
  | File _ => []
  end.

(** The text of the body file of an entry of the storage root, when the
    entry is a directory whose name starts with [chat_] and the file is
    there. *)
Definition bodyText (e : string * node) : option string :=
  match snd e with
  | Dir es =>
      if startsWith (fst e) "chat_" then
        match assoc "conversation.json" es with
        | Some (File text) => Some text
        | _ => None
        end
      else None
  | File _ => None
  end.

(** Every body file under the storage root holds a text that the parser
    describes: the text of a plain value, or a text that is not JSON. *)
Definition bodiesDescribed (o : option node) : Prop :=
  Forall (fun e => match bodyText e with
                   | Some text => describedText text = true
                   | None => True
                   end) (rootEntries o).

(** The readable bodies under a storage root, in directory order. *)
Definition readableBodies (o : option node) : list json :=
  flat_map bodyOf (rootEntries o).

(** The number a body's [id] reads as, if it has one. *)
Definition idNumber (v : json) : option Z :=
  match getProp "id" v with
  | Ok x => toNumber x
  | Throw _ => None
  end.

(** [a] is at least as new as [b]. *)
Definition newerOrEqual (a b : json) : Prop :=
  exists x y, idNumber a = Some x /\ idNumber b = Some y /\ (y <= x)%Z.

(** A storage root with a stray file, two conversations that load, one
    whose body is not JSON and one without a body. *)
Definition mixedStorage : option node :=
  Some (Dir [("notes.txt", File "keep me");
             ("chat_1",
              Dir [("conversation.json",
                    File (Json.stringify2
                            (conversationToJson helloConversation)))]);
             ("chat_5", Dir [("conversation.json", File "{bad")]);
             ("chat_2",
              Dir [("conversation.json",
                    File (Json.stringify2
                            (conversationToJson recipeConversation)));
                   ("metadata.json", File "not json")]);
             ("chat_7", Dir [("artifacts", Dir [])])]).

(** The classification an update is asked to set: the argument, or the
    parameter's default when it is omitted. *)
Definition requestedType (projectType : option string) : string :=
  match projectType with
  | Some t => t
  | None => "recipe"
  end.

(** Setting [projectType] and [lastModified] on a parsed record, as the
    property assignments of strict code do: on an object they are set, an
    array prints as before, [null] and primitives make the assignment
    throw. *)
Definition updatedRecord (v : json) (t : string) (now : Z) : option json :=
  match v with
  | JObj fields =>
      Some (JObj (assign "lastModified" (JNum now)
                    (assign "projectType" (JStr t) fields)))
  | JArr items => Some (JArr items)
  | _ => None
  end.

(** A storage root in which an artifact of conversation [i] named [name]
    can be written: nothing blocks the way (no regular file where a
    directory is needed, no directory where the artifact goes). *)
Definition artifactReady (o : option node) (i : Z) (name : string) : Prop :=
  match o with
  | None => True
  | Some (File _) => False
  | Some (Dir E) =>
      match assoc (ChatManager.conversationDirOf i) E with
      | None => True
      | Some (File _) => False
      | Some (Dir sub) =>
          match assoc "artifacts" sub with
          | None => True
          | Some (File _) => False
          | Some (Dir arts) =>
              match assoc name arts with
              | Some (Dir _) => False
              | _ => True
              end
          end
      end
  end.

(** The entries of the artifacts directory of conversation [i]. *)
Definition artifactsOf (o : option node) (i : Z) : list (string * node) :=
  match Fs.lookup [ChatManager.conversationDirOf i; "artifacts"] o with
  | Some (Dir arts) => arts
  | _ => []
  end.

(** The storage with the artifact written, missing directories
    created. *)
Definition withArtifact (o : option node) (i : Z) (name content : string)
  : option node :=
  let d := ChatManager.conversationDirOf i in
  let sub := match assoc d (rootEntries o) with
             | Some (Dir sub) => sub
             | _ => []
             end in
  let arts := match assoc "artifacts" sub with
              | Some (Dir arts) => arts
              | _ => []
              end in
  Some (Dir (assign d
               (Dir (assign "artifacts"
                       (Dir (assign name (File content) arts)) sub))
               (rootEntries o))).

(** The text an artifact save writes for [data] under encoding [type],
    when it writes. *)
Definition artifactText (data : jsval) (type : string) : option string :=
  if String.eqb type "json" then
    match data with
    | Val j => Some (Json.stringify2 j)
    | Buffer bytes =>
        Some (Json.stringify2
                (JObj [("type", JStr "Buffer");
                       ("data",
                        JArr (map (fun c => JNum (Z.of_nat (nat_of_ascii c)))
                                (list_ascii_of_string bytes)))]))
    | Undefined => None
    end
  else if String.eqb type "text" || String.eqb type "binary" then
    match data with
    | Val (JStr s) => Some s
    | Buffer bytes => Some bytes
    | _ => None
    end
  else None.

(** A computation changes no regular file other than the one at [p]. *)
Definition preservesFilesExcept {A : Type} (p : path) (m : M A) : Prop :=
  forall w q data,
    q <> p ->
    (Fs.lookup q (storage (snd (m w))) = Some (File data)
     <-> Fs.lookup q (storage w) = Some (File data)).

(** The fields of the metadata record in the directory [name], when the
    record is there and is a JSON object. *)
Definition recordFields (o : option node) (name : string)
  : option (list (string * json)) :=
  match Fs.lookup [name; "metadata.json"] o with
  | Some (File text) =>
      match Json.parse text with
      | Ok (JObj fields) => Some fields
      | _ => None
      end
  | _ => None
  end.

(** * Proofs *)

Unset Implicit Arguments.

(** The printer, the parser and number formatting are reasoned about
    through lemmas, never by unfolding. *)
Arguments Json.parse : simpl never.
Arguments Json.stringify : simpl never.
Arguments Json.stringify2 : simpl never.
Arguments Json.serialize : simpl never.
Arguments Number_toString : simpl never.
Arguments Fs.lookup : simpl never.

(** ** Strings *)

Lemma append_assoc (a b c : string) : (a ++ b) ++ c = a ++ (b ++ c).
Proof. induction a; simpl; congruence. Qed.

Lemma append_nil_r (a : string) : a ++ "" = a.
Proof. induction a; simpl; congruence. Qed.

Lemma join_snoc (sep x : string) (l : list string) (y : string) :
  join sep ((x :: l) ++ [y])%list = join sep (x :: l) ++ sep ++ y.
Proof.
  revert x. induction l as [|z l IH]; intros x; [reflexivity|].
  change (join sep ((x :: z :: l) ++ [y])%list)
    with (x ++ sep ++ join sep ((z :: l) ++ [y])%list).
  rewrite IH.
  change (join sep (x :: z :: l)) with (x ++ sep ++ join sep (z :: l)).
  now rewrite !append_assoc.
Qed.

(** ** Computations that only read *)

Lemma readOnly_ret {A : Type} (a : A) : readOnly (ret a).
Proof. intros w. reflexivity. Qed.

Lemma readOnly_throw {A : Type} (e : exn) : readOnly (@throw A e).
Proof. intros w. reflexivity. Qed.

Lemma readOnly_liftResult {A : Type} (r : result A) : readOnly (liftResult r).
Proof. intros w. reflexivity. Qed.

Lemma readOnly_bind {A B : Type} (m : M A) (k : A -> M B) :
  readOnly m -> (forall a, readOnly (k a)) -> readOnly (bind m k).
Proof.
  intros Hm Hk w. unfold bind. specialize (Hm w).
  destruct (m w) as [[a|e] w']; simpl in *; subst; [apply Hk|reflexivity].
Qed.

Lemma readOnly_tryCatch {A : Type} (m : M A) (h : exn -> M A) :
  readOnly m -> (forall e, readOnly (h e)) -> readOnly (tryCatch m h).
Proof.
  intros Hm Hh w. unfold tryCatch. specialize (Hm w).
  destruct (m w) as [[a|e] w']; simpl in *; subst; [reflexivity|apply Hh].
Qed.

Lemma readOnly_if {A : Type} (b : bool) (m1 m2 : M A) :
  readOnly m1 -> readOnly m2 -> readOnly (if b then m1 else m2).
Proof. now destruct b. Qed.

Lemma readOnly_existsSync (p : path) : readOnly (existsSync p).
Proof. intros w. reflexivity. Qed.

Lemma readOnly_readdirSync (p : path) : readOnly (readdirSync p).
Proof.
  intros w. unfold readdirSync.
  now destruct (Fs.lookup p (storage w)) as [[?|?]|].
Qed.

Lemma readOnly_statSync (p : path) : readOnly (statSync p).
Proof.
  intros w. unfold statSync.
  now destruct (Fs.lookup p (storage w)) as [[?|?]|].
Qed.

Lemma readOnly_readFileSync (p : path) : readOnly (readFileSync p).
Proof.
  intros w. unfold readFileSync.
  now destruct (Fs.lookup p (storage w)) as [[?|?]|].
Qed.

Lemma readOnly_filterM {A : Type} (f : A -> M bool) (l : list A) :
  (forall x, readOnly (f x)) -> readOnly (filterM f l).
Proof.
  intros Hf. induction l as [|x l IH]; simpl.
  - apply readOnly_ret.
  - apply readOnly_bind; [apply Hf|]. intros keep.
    apply readOnly_bind; [exact IH|]. intros r. apply readOnly_ret.
Qed.

Lemma readOnly_foldM {A B : Type} (f : B -> A -> M B) (l : list A) :
  (forall acc x, readOnly (f acc x)) -> forall acc, readOnly (foldM f l acc).
Proof.
  intros Hf. induction l as [|x l IH]; intros acc; simpl.
  - apply readOnly_ret.
  - apply readOnly_bind; [apply Hf|]. intros acc'. apply IH.
Qed.

Create HintDb readonly.
#[export] Hint Resolve readOnly_ret readOnly_throw readOnly_liftResult
  readOnly_existsSync readOnly_readdirSync readOnly_statSync
  readOnly_readFileSync : readonly.

(** One step of a read-only derivation: split the computation at its
    outermost combinator. *)
Ltac read_only_step :=
  match goal with
  | |- readOnly (bind _ _) => apply readOnly_bind; [|intro]
  | |- readOnly (tryCatch _ _) => apply readOnly_tryCatch; [|intro]
  | |- readOnly (filterM _ _) => apply readOnly_filterM; intro
  | |- readOnly (foldM _ _ _) => apply readOnly_foldM; intros
  | |- readOnly (if _ then _ else _) => apply readOnly_if
  | |- readOnly _ => solve [auto with readonly]
  end.

Ltac read_only := repeat read_only_step.

(** A [try] whose handler returns never throws. *)
Lemma neverThrows_tryCatch_ret {A : Type} (m : M A) (a0 : A) :
  neverThrows (tryCatch m (fun _ => ret a0)).
Proof.
  intros w. unfold tryCatch.
  destruct (m w) as [[a|e] w']; simpl; eauto.
Qed.

Lemma tryCatch_ok {A : Type} (m : M A) (h : exn -> M A) (w w' : World)
  (a : A) :
  m w = (Ok a, w') -> tryCatch m h w = (Ok a, w').
Proof. intros H. unfold tryCatch. now rewrite H. Qed.

Lemma tryCatch_throw {A : Type} (m : M A) (h : exn -> M A) (w w' : World)
  (e : exn) :
  m w = (Throw e, w') -> tryCatch m h w = h e w'.
Proof. intros H. unfold tryCatch. now rewrite H. Qed.

(** ** Association lists and the file tree *)

Lemma assoc_assign_same {A : Type} (k : string) (v : A)
  (l : list (string * A)) : assoc k (assign k v l) = Some v.
Proof.
  induction l as [|[k' v'] l IH]; simpl.
  - now rewrite String.eqb_refl.
  - destruct (String.eqb k k') eqn:E; simpl; rewrite ?E, ?String.eqb_refl;
      auto.
Qed.

Lemma assoc_assign_other {A : Type} (k k0 : string) (v : A)
  (l : list (string * A)) :
  k0 <> k -> assoc k0 (assign k v l) = assoc k0 l.
Proof.
  intros N. induction l as [|[k' v'] l IH]; simpl.
  - destruct (String.eqb_spec k0 k); [contradiction|reflexivity].
  - destruct (String.eqb_spec k k'); simpl.
    + subst k'. destruct (String.eqb_spec k0 k); [contradiction|reflexivity].
    + destruct (String.eqb k0 k'); auto.
Qed.

Lemma assoc_app_none {A : Type} (k : string) (l r : list (string * A)) :
  assoc k l = None -> assoc k (l ++ r)%list = assoc k r.
Proof.
  induction l as [|[k' v'] l IH]; simpl; [reflexivity|].
  destruct (String.eqb k k'); [discriminate|exact IH].
Qed.

Lemma assoc_app_some {A : Type} (k : string) (v : A)
  (l r : list (string * A)) :
  assoc k l = Some v -> assoc k (l ++ r)%list = Some v.
Proof.
  induction l as [|[k' v'] l IH]; simpl; [discriminate|].
  destruct (String.eqb k k'); auto.
Qed.

Lemma assign_app_none {A : Type} (k : string) (v : A)
  (l : list (string * A)) :
  assoc k l = None -> assign k v l = (l ++ [(k, v)])%list.
Proof.
  induction l as [|[k' v'] l IH]; simpl; [reflexivity|].
  destruct (String.eqb k k'); [discriminate|]. intros H. now rewrite IH.
Qed.

Lemma assoc_none_not_in {A : Type} (k : string) (l : list (string * A)) :
  assoc k l = None <-> ~ In k (map fst l).
Proof.
  induction l as [|[k' v'] l IH]; simpl; [tauto|].
  destruct (String.eqb_spec k k'); split; intros H.
  - discriminate.
  - exfalso. apply H. left. congruence.
  - intros [E|I]; [congruence|]. now apply IH.
  - apply IH. tauto.
Qed.

(** *** Files are untouched by [mkdir -p] *)

Lemma lookup_none (p : path) : Fs.lookup p None = None.
Proof. now destruct p. Qed.

Lemma lookup_nil (o : option node) : Fs.lookup [] o = o.
Proof. reflexivity. Qed.

Lemma lookup_cons (c : string) (p : path) (o : option node) :
  Fs.lookup (c :: p) o
  = match o with
    | Some (Dir es) => Fs.lookup p (assoc c es)
    | _ => None
    end.
Proof. reflexivity. Qed.

Lemma mkdirp_files (p : path) :
  forall o n, Fs.mkdirp p o = Ok n ->
  forall q data,
    Fs.lookup q (Some n) = Some (File data)
    <-> Fs.lookup q o = Some (File data).
Proof.
  induction p as [|c p IH]; intros o n H q data.
  - simpl in H. destruct o as [[d|es]|]; inversion H; subst; try tauto.
    destruct q as [|c' q]; [split; discriminate|].
    rewrite !lookup_cons, lookup_none. tauto.
  - simpl in H. destruct o as [[d|es]|]; try discriminate.
    + destruct (Fs.mkdirp p (assoc c es)) as [child|e] eqn:E; inversion H; subst.
      destruct q as [|c' q]; [split; discriminate|].
      rewrite !lookup_cons.
      destruct (String.eqb_spec c' c) as [->|N].
      * rewrite assoc_assign_same. apply (IH _ _ E).
      * rewrite assoc_assign_other by assumption. tauto.
    + destruct (Fs.mkdirp p None) as [child|e] eqn:E; inversion H; subst.
      destruct q as [|c' q]; [split; discriminate|].
      rewrite !lookup_cons. simpl.
      destruct (String.eqb c' c).
      * rewrite (IH _ _ E). rewrite lookup_none. tauto.
      * rewrite lookup_none. tauto.
Qed.

Lemma preservesFiles_ret {A : Type} (a : A) : preservesFiles (ret a).
Proof. intros w p d. simpl. tauto. Qed.

Lemma preservesFiles_throw {A : Type} (e : exn) : preservesFiles (@throw A e).
Proof. intros w p d. simpl. tauto. Qed.

Lemma preservesFiles_bind {A B : Type} (m : M A) (k : A -> M B) :
  preservesFiles m -> (forall a, preservesFiles (k a)) ->
  preservesFiles (bind m k).
Proof.
  intros Hm Hk w p d. unfold bind. specialize (Hm w p d).
  destruct (m w) as [[a|e] w']; simpl in *; [|exact Hm].
  rewrite (Hk a w' p d). exact Hm.
Qed.

Lemma preservesFiles_tryCatch {A : Type} (m : M A) (h : exn -> M A) :
  preservesFiles m -> (forall e, preservesFiles (h e)) ->
  preservesFiles (tryCatch m h).
Proof.
  intros Hm Hh w p d. unfold tryCatch. specialize (Hm w p d).
  destruct (m w) as [[a|e] w']; simpl in *; [exact Hm|].
  rewrite (Hh e w' p d). exact Hm.
Qed.

Lemma preservesFiles_if {A : Type} (b : bool) (m1 m2 : M A) :
  preservesFiles m1 -> preservesFiles m2 ->
  preservesFiles (if b then m1 else m2).
Proof. now destruct b. Qed.

Lemma preservesFiles_readOnly {A : Type} (m : M A) :
  readOnly m -> preservesFiles m.
Proof. intros H w p d. rewrite H. tauto. Qed.

Lemma preservesFiles_mkdirSync (p : path) : preservesFiles (mkdirSync p).
Proof.
  intros w q d. unfold mkdirSync.
  destruct (Fs.mkdirp p (storage w)) as [n|e] eqn:E; simpl; [|tauto].
  apply (mkdirp_files _ _ _ E).
Qed.

(** ** Updates of the file tree *)

Lemma withStorage_same (w : World) : withStorage w (storage w) = w.
Proof. now destruct w. Qed.

Lemma withStorage_twice (w : World) (o1 o2 : option node) :
  withStorage (withStorage w o1) o2 = withStorage w o2.
Proof. reflexivity. Qed.

Lemma storage_withStorage (w : World) (o : option node) :
  storage (withStorage w o) = o.
Proof. reflexivity. Qed.

Lemma assign_same {A : Type} (k : string) (v : A) (l : list (string * A)) :
  assoc k l = Some v -> assign k v l = l.
Proof.
  induction l as [|[k' v'] l IH]; simpl; [discriminate|].
  destruct (String.eqb_spec k k').
  - intros [= ->]. now subst.
  - intros H. now rewrite IH.
Qed.

Lemma assign_assign {A : Type} (k : string) (v v' : A)
  (l : list (string * A)) :
  assign k v (assign k v' l) = assign k v l.
Proof.
  induction l as [|[k0 v0] l IH]; simpl.
  - now rewrite String.eqb_refl.
  - destruct (String.eqb k k0) eqn:E; simpl.
    + now rewrite String.eqb_refl.
    + now rewrite E, IH.
Qed.

Lemma remove_assign {A : Type} (k : string) (v : A) (l : list (string * A)) :
  assoc k l <> None -> remove k (assign k v l) = remove k l.
Proof.
  induction l as [|[k0 v0] l IH]; simpl; [congruence|].
  destruct (String.eqb k k0) eqn:E; simpl.
  - now rewrite String.eqb_refl.
  - intros H. now rewrite E, IH.
Qed.

Lemma assign_remove_head {A : Type} (k : string) (v x : A)
  (l : list (string * A)) :
  assign k v (remove k ((k, x) :: l)) = assign k v l.
Proof. simpl. now rewrite String.eqb_refl. Qed.

Lemma lookup_app (p q : path) (o : option node) :
  Fs.lookup (p ++ q)%list o = Fs.lookup q (Fs.lookup p o).
Proof.
  revert o. induction p as [|c p IH]; intros o; [reflexivity|].
  simpl app. rewrite !lookup_cons.
  destruct o as [[d|es]|]; try now rewrite lookup_none.
  apply IH.
Qed.

Lemma alter_existing (p : path) :
  forall f o x n,
    Fs.lookup p o = Some x -> f (Some x) = Ok n ->
    Fs.alter p f o = Ok (putAt p n o).
Proof.
  induction p as [|c p IH]; intros f o x n H F.
  - rewrite lookup_nil in H. subst o. exact F.
  - rewrite lookup_cons in H. destruct o as [[d|es]|]; try discriminate.
    simpl. rewrite (IH f _ x n H F). now destruct (putAt p n (assoc c es)).
Qed.

Lemma alter_child (p : path) (c : string) :
  forall f o es n,
    Fs.lookup p o = Some (Dir es) -> f (assoc c es) = Ok n ->
    Fs.alter (p ++ [c])%list f o = Ok (putAt (p ++ [c])%list n o).
Proof.
  induction p as [|c0 p IH]; intros f o es n H F.
  - rewrite lookup_nil in H. subst o. simpl. rewrite F. now destruct n.
  - rewrite lookup_cons in H. destruct o as [[d|es0]|]; try discriminate.
    simpl. rewrite (IH f _ es n H F).
    now destruct (putAt (p ++ [c])%list n (assoc c0 es0)).
Qed.

Lemma lookup_putAt_parent (p : path) (c : string) :
  forall o es n,
    Fs.lookup p o = Some (Dir es) ->
    Fs.lookup p (putAt (p ++ [c])%list n o)
    = Some (Dir (match n with
                 | Some x => assign c x es
                 | None => remove c es
                 end)).
Proof.
  induction p as [|c0 p IH]; intros o es n H.
  - rewrite lookup_nil in H. subst o. simpl. now destruct n.
  - rewrite lookup_cons in H. destruct o as [[d|es0]|]; try discriminate.
    simpl app. simpl putAt.
    pose proof (IH _ _ n H) as K.
    destruct (putAt (p ++ [c])%list n (assoc c0 es0)) as [child|] eqn:E.
    + rewrite lookup_cons, assoc_assign_same. exact K.
    + now rewrite lookup_none in K.
Qed.

Lemma putAt_some_below (p : path) (c : string) :
  forall o es n,
    Fs.lookup p o = Some (Dir es) ->
    putAt (p ++ [c])%list n o <> None.
Proof.
  intros o es n H E.
  pose proof (lookup_putAt_parent p c o es n H) as K.
  rewrite E, lookup_none in K. discriminate.
Qed.

Lemma putAt_putAt_below (p : path) (c : string) :
  forall o es n m,
    Fs.lookup p o = Some (Dir es) ->
    putAt p m (putAt (p ++ [c])%list n o) = putAt p m o.
Proof.
  induction p as [|c0 p IH]; intros o es n m H; [reflexivity|].
  rewrite lookup_cons in H. destruct o as [[d|es0]|]; try discriminate.
  simpl app. simpl putAt at 2.
  pose proof (IH _ _ n m H) as K.
  pose proof (putAt_some_below p c _ _ n H) as S.
  destruct (putAt (p ++ [c])%list n (assoc c0 es0)) as [child|] eqn:E;
    [|congruence].
  simpl. rewrite assoc_assign_same, K.
  destruct (putAt p m (assoc c0 es0)).
  - now rewrite assign_assign.
  - rewrite remove_assign; [reflexivity|].
    intros N. rewrite N, lookup_none in H. discriminate.
Qed.

Lemma putAt_same (p : path) :
  forall o x, Fs.lookup p o = Some x -> putAt p (Some x) o = o.
Proof.
  induction p as [|c p IH]; intros o x H.
  - now rewrite lookup_nil in H.
  - rewrite lookup_cons in H. destruct o as [[d|es]|]; try discriminate.
    simpl. rewrite (IH _ _ H).
    destruct (assoc c es) as [child|] eqn:E.
    + now rewrite assign_same.
    + now rewrite lookup_none in H.
Qed.

Lemma putAt_putAt_same (p : path) :
  forall o x y n,
    Fs.lookup p o = Some x ->
    putAt p n (putAt p (Some y) o) = putAt p n o.
Proof.
  induction p as [|c p IH]; intros o x y n H; [reflexivity|].
  rewrite lookup_cons in H. destruct o as [[d|es]|]; try discriminate.
  simpl putAt at 2.
  assert (S : putAt p (Some y) (assoc c es) <> None).
  { clear IH. revert H. generalize (assoc c es). clear.
    induction p as [|c p IH]; intros o H; simpl; [discriminate|].
    rewrite lookup_cons in H. destruct o as [[d|es]|]; try discriminate.
    now destruct (putAt p (Some y) (assoc c es)). }
  destruct (putAt p (Some y) (assoc c es)) as [child|] eqn:E; [|congruence].
  simpl. rewrite assoc_assign_same, <- E, (IH _ _ y n H).
  destruct (putAt p n (assoc c es)).
  - now rewrite assign_assign.
  - rewrite remove_assign; [reflexivity|].
    intros N. rewrite N, lookup_none in H. discriminate.
Qed.

Lemma lookup_putAt_same (p : path) :
  forall o x y,
    Fs.lookup p o = Some x -> Fs.lookup p (putAt p (Some y) o) = Some y.
Proof.
  induction p as [|c p IH]; intros o x y H; [reflexivity|].
  rewrite lookup_cons in H. destruct o as [[d|es]|]; try discriminate.
  simpl. pose proof (IH _ _ y H) as K.
  destruct (putAt p (Some y) (assoc c es)) as [child|] eqn:E.
  - now rewrite lookup_cons, assoc_assign_same.
  - now rewrite lookup_none in K.
Qed.

(** *** Heights *)

Lemma height_child (c : string) (es : list (string * node)) (x : node) :
  assoc c es = Some x -> Fs.height x < Fs.height (Dir es).
Proof.
  simpl. induction es as [|[k v] es IH]; simpl; [discriminate|].
  destruct (String.eqb c k).
  - intros [= ->]. lia.
  - intros H. specialize (IH H). lia.
Qed.

Lemma height_lookup (p : path) :
  forall n x, Fs.lookup p (Some n) = Some x -> Fs.height x <= Fs.height n.
Proof.
  induction p as [|c p IH]; intros n x H.
  - rewrite lookup_nil in H. injection H as ->. lia.
  - rewrite lookup_cons in H. destruct n as [d|es]; try discriminate.
    destruct (assoc c es) as [child|] eqn:E.
    + pose proof (height_child _ _ _ E). specialize (IH _ _ H). lia.
    + now rewrite lookup_none in H.
Qed.

(** ** Recursive removal *)

Lemma remove_head {A : Type} (c : string) (x : A) (l : list (string * A)) :
  remove c ((c, x) :: l) = l.
Proof. simpl. now rewrite String.eqb_refl. Qed.

Lemma assoc_head {A : Type} (c : string) (x : A) (l : list (string * A)) :
  assoc c ((c, x) :: l) = Some x.
Proof. simpl. now rewrite String.eqb_refl. Qed.

Lemma unlinkSync_file (p : path) (c : string) (w : World)
  (es : list (string * node)) (d : string) :
  Fs.lookup p (storage w) = Some (Dir es) ->
  assoc c es = Some (File d) ->
  unlinkSync (p ++ [c])%list w
  = (Ok tt, withStorage w (putAt (p ++ [c])%list None (storage w))).
Proof.
  intros H E. unfold unlinkSync, alterSync.
  rewrite (alter_child p c _ _ es None H); [reflexivity|now rewrite E].
Qed.

Lemma rmdirSync_empty (p : path) (w : World) :
  Fs.lookup p (storage w) = Some (Dir []) ->
  rmdirSync p w = (Ok tt, withStorage w (putAt p None (storage w))).
Proof.
  intros H. unfold rmdirSync, alterSync.
  now rewrite (alter_existing p _ _ (Dir []) None H).
Qed.

(** With fuel for the height of the directory, the removal succeeds and
    takes exactly that directory out of the tree. *)
Lemma removeDirectoryRecursiveFuel_spec (fuel : nat) :
  forall p w es,
    Fs.lookup p (storage w) = Some (Dir es) ->
    Fs.height (Dir es) <= fuel ->
    ChatManager.removeDirectoryRecursiveFuel fuel p w
    = (Ok tt, withStorage w (putAt p None (storage w))).
Proof.
  induction fuel as [|fuel IHf]; intros p w es H Hh.
  - simpl in Hh. lia.
  - cbn [ChatManager.removeDirectoryRecursiveFuel].
    unfold bind at 1. unfold existsSync at 1. rewrite H.
    unfold bind at 1. unfold readdirSync at 1. rewrite H.
    (* the loop empties the directory *)
    assert (L : forall es' w',
      Fs.lookup p (storage w') = Some (Dir es') ->
      Fs.height (Dir es') <= S fuel ->
      forEach (map fst es')
        (fun file =>
           stat <- statSync (ChatManager.path_join p file) ;;
           if isDirectory stat
           then ChatManager.removeDirectoryRecursiveFuel fuel
                  (ChatManager.path_join p file)
           else unlinkSync (ChatManager.path_join p file)) w'
      = (Ok tt, withStorage w' (putAt p (Some (Dir [])) (storage w')))).
    { clear H Hh w es. induction es' as [|[c x] es' IHe]; intros w' H Hh.
      - simpl. unfold ret. now rewrite (putAt_same p _ _ H), withStorage_same.
      - cbn [map fst forEach]. unfold ChatManager.path_join.
        assert (Hx : Fs.lookup (p ++ [c])%list (storage w') = Some x).
        { rewrite lookup_app, H, lookup_cons, assoc_head. reflexivity. }
        assert (Hes' : Fs.height (Dir es') <= S fuel).
        { simpl in Hh |- *. lia. }
        assert (Step :
          (stat <- statSync (p ++ [c])%list ;;
           if isDirectory stat
           then ChatManager.removeDirectoryRecursiveFuel fuel (p ++ [c])%list
           else unlinkSync (p ++ [c])%list) w'
          = (Ok tt,
             withStorage w' (putAt (p ++ [c])%list None (storage w')))).
        { unfold bind, statSync. rewrite Hx. destruct x as [d|sub].
          - cbn [isDirectory]. apply (unlinkSync_file p c w' _ d H).
            apply assoc_head.
          - cbn [isDirectory]. apply (IHf _ _ sub Hx).
            pose proof (height_child c ((c, Dir sub) :: es') (Dir sub)
                          (assoc_head c _ _)).
            lia. }
        unfold bind at 1. rewrite Step.
        rewrite IHe.
        + rewrite storage_withStorage, withStorage_twice.
          now rewrite (putAt_putAt_below p c _ _ None (Some (Dir [])) H).
        + rewrite storage_withStorage.
          rewrite (lookup_putAt_parent p c _ _ None H).
          now rewrite remove_head.
        + exact Hes'. }
    unfold bind at 1. rewrite (L es w H Hh).
    rewrite rmdirSync_empty.
    + rewrite storage_withStorage, withStorage_twice.
      now rewrite (putAt_putAt_same p _ (Dir es) (Dir []) None H).
    + rewrite storage_withStorage.
      apply (lookup_putAt_same p _ (Dir es) (Dir []) H).
Qed.

Lemma removeDirectoryRecursive_spec (p : path) (w : World)
  (es : list (string * node)) :
  Fs.lookup p (storage w) = Some (Dir es) ->
  ChatManager.removeDirectoryRecursive p w
  = (Ok tt, withStorage w (putAt p None (storage w))).
Proof.
  intros H. unfold ChatManager.removeDirectoryRecursive.
  apply (removeDirectoryRecursiveFuel_spec _ p w es H).
  destruct (storage w) as [n|] eqn:E.
  - pose proof (height_lookup p n (Dir es) H). lia.
  - now rewrite lookup_none in H.
Qed.

(** ** JSON texts parse back: strings and numbers *)

Lemma pcons_ok (c : ascii) (s rest : string) :
  Json.pcons c (POk s rest) = POk (String c s) rest.
Proof. reflexivity. Qed.

Lemma parse_quoteChar (c : ascii) (tail : string) :
  Json.parseStringBody (Json.quoteChar c ++ tail)
  = Json.pcons c (Json.parseStringBody tail).
Proof.
  destruct c as [[] [] [] [] [] [] [] []]; reflexivity.
Qed.

Lemma parseStringBody_quoteBody (s rest : string) :
  Json.parseStringBody (Json.quoteBody s ++ String DQ rest) = POk s rest.
Proof.
  induction s as [|c s IH].
  - reflexivity.
  - cbn [Json.quoteBody]. rewrite append_assoc, parse_quoteChar, IH.
    reflexivity.
Qed.

(** *** Numbers *)

Lemma digits_stop (acc : Z) (rest : string) :
  terminated rest = true -> Json.digits acc rest = (acc, rest).
Proof.
  destruct rest as [|c r]; [reflexivity|]. simpl. intros H.
  destruct (Json.isDigit c); [discriminate|reflexivity].
Qed.

Lemma digits_string_of_uint (d : Decimal.uint) :
  forall (acc : positive) (rest : string),
    terminated rest = true ->
    Json.digits (Zpos acc) (NilEmpty.string_of_uint d ++ rest)
    = (Zpos (Pos.of_uint_acc d acc), rest).
Proof.
  induction d; intros acc rest T;
    try (cbn [NilEmpty.string_of_uint append Json.digits Pos.of_uint_acc];
         match goal with
         | |- context [Json.isDigit ?c] =>
             change (Json.isDigit c) with true; cbv iota
         end;
         match goal with
         | |- Json.digits ?z _ = (Zpos (Pos.of_uint_acc _ ?a), _) =>
             replace z with (Zpos a)
               by (match goal with
                   | |- context [Json.digitVal ?c] =>
                       let v := eval vm_compute in (Json.digitVal c) in
                       change (Json.digitVal c) with v
                   end; lia)
         end;
         now apply IHd).
  simpl. now apply digits_stop.
Qed.

Lemma endOfInt_terminated (n : Z) (rest : string) :
  terminated rest = true -> Json.endOfInt n rest = POk (JNum n) rest.
Proof.
  destruct rest as [|c r]; [reflexivity|]. unfold terminated, Json.endOfInt.
  intros H. apply negb_true_iff in H.
  rewrite !orb_false_iff in H. destruct H as [[[_ H1] H2] H3].
  now rewrite H1, H2, H3.
Qed.

Lemma to_uint_head (p : positive) :
  exists (a : positive) (l : Decimal.uint),
    Zpos (Pos.of_uint_acc l a) = Zpos p /\
    forall sg rest,
      terminated rest = true ->
      Json.parseNat sg (NilEmpty.string_of_uint (Pos.to_uint p) ++ rest)
      = POk (JNum (sg * Zpos p)) rest.
Proof.
  pose proof (DecimalPos.Unsigned.of_to p) as OT.
  pose proof (DecimalPos.Unsigned.to_uint_nonzero p) as NZ.
  pose proof (DecimalPos.Unsigned.to_uint_nonnil p) as NN.
  pose proof (DecimalPos.Unsigned.to_of (Pos.to_uint p)) as TO.
  rewrite OT in TO. simpl in TO.
  destruct (Pos.to_uint p) as [|l|l|l|l|l|l|l|l|l|l] eqn:E;
    [congruence| | | | | | | | | |].
  1: { (* a leading zero is not normal *)
    exfalso. rewrite DecimalFacts.unorm_D0 in TO.
    destruct l as [|l|l|l|l|l|l|l|l|l|l];
      [apply NZ; reflexivity| | | | | | | | | |];
      match goal with
      | _ : Decimal.D0 ?u = Decimal.unorm ?u |- _ =>
          assert (NU : u <> Decimal.Nil) by discriminate;
          pose proof (DecimalFacts.nb_digits_unorm u NU) as B;
          rewrite <- TO in B; simpl in B; lia
      end. }
  all: simpl in OT; injection OT as OT;
    eexists; exists l; split; [rewrite OT; reflexivity|];
    intros sg rest T;
    cbn [NilEmpty.string_of_uint append Json.parseNat];
    match goal with
    | |- context [Ascii.eqb ?c "0"] =>
        change (Ascii.eqb c "0") with false;
        change (Json.isDigit c) with true; cbv iota
    end;
    match goal with
    | |- context [Json.digits ?z _] =>
        let a := eval vm_compute in z in change z with a
    end;
    rewrite (digits_string_of_uint l _ rest T), OT;
    now apply endOfInt_terminated.
Qed.

Lemma parseValue_digit (fuel : nat) (c : ascii) (r : string) :
  Json.isDigit c = true ->
  Json.parseValue (S fuel) (String c r) = Json.parseNat 1 (String c r).
Proof.
  destruct c as [[] [] [] [] [] [] [] []]; try discriminate; reflexivity.
Qed.

Lemma string_of_uint_head_digit (p : positive) :
  exists c r,
    NilEmpty.string_of_uint (Pos.to_uint p) = String c r
    /\ Json.isDigit c = true.
Proof.
  pose proof (DecimalPos.Unsigned.to_uint_nonnil p) as NN.
  destruct (Pos.to_uint p); [congruence| | | | | | | | | |];
    eexists; eexists; split; reflexivity.
Qed.

Lemma parseValue_number (n : Z) (fuel : nat) (rest : string) :
  terminated rest = true ->
  Json.parseValue (S fuel) (Number_toString n ++ rest) = POk (JNum n) rest.
Proof.
  intros T. unfold Number_toString. destruct n as [|p|p].
  - simpl. now rewrite endOfInt_terminated.
  - unfold Z.to_int, NilZero.string_of_int, NilZero.string_of_uint.
    destruct (to_uint_head p) as (a & l & _ & H).
    destruct (string_of_uint_head_digit p) as (c & r & E & D).
    pose proof (DecimalPos.Unsigned.to_uint_nonnil p) as NN.
    replace (match Pos.to_uint p with
             | Decimal.Nil => "0"
             | _ => NilEmpty.string_of_uint (Pos.to_uint p)
             end) with (NilEmpty.string_of_uint (Pos.to_uint p))
      by (destruct (Pos.to_uint p); congruence).
    specialize (H 1%Z rest T). rewrite E in H |- *.
    cbn [append] in H |- *. rewrite (parseValue_digit fuel c _ D), H.
    reflexivity.
  - unfold Z.to_int, NilZero.string_of_int, NilZero.string_of_uint.
    destruct (to_uint_head p) as (a & l & _ & H).
    pose proof (DecimalPos.Unsigned.to_uint_nonnil p) as NN.
    replace (match Pos.to_uint p with
             | Decimal.Nil => "0"
             | _ => NilEmpty.string_of_uint (Pos.to_uint p)
             end) with (NilEmpty.string_of_uint (Pos.to_uint p))
      by (destruct (Pos.to_uint p); congruence).
    specialize (H (-1)%Z rest T).
    change (Json.parseValue (S fuel)
              (String "-" (NilEmpty.string_of_uint (Pos.to_uint p)) ++ rest))
      with (Json.parseNat (-1)
              (NilEmpty.string_of_uint (Pos.to_uint p) ++ rest)).
    rewrite H. reflexivity.
Qed.

(** ** JSON texts parse back: arrays and objects *)

Lemma skipWs_allWs (ws s : string) :
  allWs ws = true -> Json.skipWs (ws ++ s) = Json.skipWs s.
Proof.
  induction ws as [|c ws IH]; simpl; [reflexivity|].
  intros H. apply andb_true_iff in H. destruct H as [H1 H2].
  rewrite H1. now apply IH.
Qed.

Lemma skipWs_head (c : ascii) (s : string) :
  Json.isJsonWs c = false -> Json.skipWs (String c s) = String c s.
Proof. intros H. simpl. now rewrite H. Qed.

Lemma parseValue_skip (fuel : nat) (ws s : string) :
  allWs ws = true ->
  Json.parseValue fuel (ws ++ s) = Json.parseValue fuel s.
Proof.
  intros H. destruct fuel; [reflexivity|].
  cbn [Json.parseValue]. now rewrite (skipWs_allWs ws s H).
Qed.

Lemma parseElements_skip (fuel : nat) (ws s : string) :
  allWs ws = true ->
  Json.parseElements fuel (ws ++ s) = Json.parseElements fuel s.
Proof.
  intros H. destruct fuel; [reflexivity|].
  cbn [Json.parseElements]. now rewrite (parseValue_skip fuel ws s H).
Qed.

Lemma parseMembers_skip (fuel : nat) (acc : list (string * json))
  (ws s : string) :
  allWs ws = true ->
  Json.parseMembers fuel acc (ws ++ s) = Json.parseMembers fuel acc s.
Proof.
  intros H. destruct fuel; [reflexivity|].
  cbn [Json.parseMembers]. now rewrite (skipWs_allWs ws s H).
Qed.

Lemma allWs_app (a b : string) :
  allWs a = true -> allWs b = true -> allWs (a ++ b) = true.
Proof.
  induction a as [|c a IH]; simpl; [auto|].
  intros H Hb. apply andb_true_iff in H. destruct H as [H1 H2].
  rewrite H1. now apply IH.
Qed.

Lemma allWs_padOpen (gap ind : string) :
  allWs gap = true -> allWs ind = true -> allWs (padOpen gap ind) = true.
Proof.
  intros G I. unfold padOpen. destruct (String.eqb gap ""); [reflexivity|].
  apply (allWs_app LF); [reflexivity|now apply allWs_app].
Qed.

Lemma allWs_padClose (gap ind : string) :
  allWs ind = true -> allWs (padClose gap ind) = true.
Proof.
  intros I. unfold padClose. destruct (String.eqb gap ""); [reflexivity|].
  now apply (allWs_app LF).
Qed.

Lemma terminated_closing (ws : string) (c : ascii) (rest : string) :
  allWs ws = true -> terminated (String c rest) = true ->
  terminated (ws ++ String c rest) = true.
Proof.
  destruct ws as [|w ws]; [auto|]. intros H _. simpl in H.
  apply andb_true_iff in H. destruct H as [H _].
  revert H. destruct w as [[] [] [] [] [] [] [] []]; try discriminate;
    reflexivity.
Qed.

(** *** The shape of a serialized value *)

Lemma serialize_JArr (gap ind : string) (x : json) (xs : list json) :
  Json.serialize gap ind (JArr (x :: xs))
  = "[" ++ padOpen gap ind
    ++ join ("," ++ padOpen gap ind)
         (map (Json.serialize gap (ind ++ gap)) (x :: xs))
    ++ padClose gap ind ++ "]".
Proof.
  change (Json.serialize gap ind (JArr (x :: xs)))
    with (let sep :=
            if String.eqb gap "" then "," else "," ++ LF ++ (ind ++ gap) in
          if String.eqb gap ""
          then "[" ++ join sep
                        (map (Json.serialize gap (ind ++ gap)) (x :: xs))
               ++ "]"
          else "[" ++ LF ++ (ind ++ gap)
               ++ join sep (map (Json.serialize gap (ind ++ gap)) (x :: xs))
               ++ LF ++ ind ++ "]").
  unfold padOpen, padClose. cbv zeta.
  destruct (String.eqb gap ""); cbn [append].
  - reflexivity.
  - now rewrite !append_assoc.
Qed.

Lemma serialize_JObj (gap ind : string) (kv : string * json)
  (fields : list (string * json)) :
  Json.serialize gap ind (JObj (kv :: fields))
  = "{" ++ padOpen gap ind
    ++ join ("," ++ padOpen gap ind) (map (memberText gap ind) (kv :: fields))
    ++ padClose gap ind ++ "}".
Proof.
  change (Json.serialize gap ind (JObj (kv :: fields)))
    with (let sep :=
            if String.eqb gap "" then "," else "," ++ LF ++ (ind ++ gap) in
          if String.eqb gap ""
          then "{" ++ join sep (map (memberText gap ind) (kv :: fields))
               ++ "}"
          else "{" ++ LF ++ (ind ++ gap)
               ++ join sep (map (memberText gap ind) (kv :: fields))
               ++ LF ++ ind ++ "}").
  unfold padOpen, padClose. cbv zeta.
  destruct (String.eqb gap ""); cbn [append].
  - reflexivity.
  - now rewrite !append_assoc.
Qed.

Lemma Number_toString_head (n : Z) :
  exists c r,
    Number_toString n = String c r
    /\ (Json.isDigit c = true \/ c = "-"%char).
Proof.
  unfold Number_toString. destruct n as [|p|p].
  - exists "0"%char, "". split; [reflexivity|now left].
  - destruct (string_of_uint_head_digit p) as (c & r & E & D).
    exists c, r. split; [|now left].
    unfold Z.to_int, NilZero.string_of_int, NilZero.string_of_uint.
    rewrite <- E. pose proof (DecimalPos.Unsigned.to_uint_nonnil p).
    destruct (Pos.to_uint p); congruence.
  - eexists. eexists. split; [reflexivity|now right].
Qed.

Lemma serialize_head (gap ind : string) (v : json) :
  exists c r, Json.serialize gap ind v = String c r /\ opensValue c = true.
Proof.
  destruct v as [|[]|n|s|[|x xs]|[|kv fields]];
    try (eexists; eexists; split; reflexivity).
  - destruct (Number_toString_head n) as (c & r & E & [D| ->]).
    + exists c, r. split; [exact E|].
      revert D. destruct c as [[] [] [] [] [] [] [] []]; try discriminate;
        reflexivity.
    + exists "-"%char, r. split; [exact E|reflexivity].
  - rewrite serialize_JArr. eexists. eexists. split; reflexivity.
  - rewrite serialize_JObj. eexists. eexists. split; reflexivity.
Qed.

Lemma skipWs_opensValue (c : ascii) (s : string) :
  opensValue c = true -> Json.skipWs (String c s) = String c s.
Proof.
  intros H. apply skipWs_head. unfold opensValue in H.
  destruct (Json.isJsonWs c); [discriminate|reflexivity].
Qed.

Lemma parseValue_array_open (fuel : nat) (c : ascii) (t r : string) :
  Json.skipWs r = String c t -> opensValue c = true ->
  Json.parseValue (S fuel) (String "[" r)
  = Json.pbind [] (Json.parseElements fuel (String c t))
      (fun items rest => POk (JArr items) rest).
Proof.
  intros H O. cbn [Json.parseValue]. rewrite skipWs_head by reflexivity.
  cbv beta iota.
  change (Ascii.eqb "[" "n") with false. change (Ascii.eqb "[" "t") with false.
  change (Ascii.eqb "[" "f") with false. change (Ascii.eqb "[" DQ) with false.
  change (Ascii.eqb "[" "-") with false. change (Json.isDigit "[") with false.
  change (Ascii.eqb "[" "[") with true. cbv iota. rewrite H.
  revert O. destruct c as [[] [] [] [] [] [] [] []]; try discriminate;
    reflexivity.
Qed.

Lemma parseValue_object_open (fuel : nat) (c : ascii) (t r : string) :
  Json.skipWs r = String c t -> opensValue c = true ->
  Json.parseValue (S fuel) (String "{" r)
  = Json.pbind [] (Json.parseMembers fuel [] (String c t))
      (fun fields rest => POk (JObj fields) rest).
Proof.
  intros H O. cbn [Json.parseValue]. rewrite skipWs_head by reflexivity.
  cbv beta iota.
  change (Ascii.eqb "{" "n") with false. change (Ascii.eqb "{" "t") with false.
  change (Ascii.eqb "{" "f") with false. change (Ascii.eqb "{" DQ) with false.
  change (Ascii.eqb "{" "-") with false. change (Json.isDigit "{") with false.
  change (Ascii.eqb "{" "[") with false. change (Ascii.eqb "{" "{") with true.
  cbv iota. rewrite H.
  revert O. destruct c as [[] [] [] [] [] [] [] []]; try discriminate;
    reflexivity.
Qed.

(** ** JSON texts parse back: the round trip *)

Lemma parseElements_items (gap ind : string) :
  allWs gap = true -> allWs ind = true ->
  forall items,
    items <> [] -> Forall parsesBack items ->
    fold_right (fun x acc => wfJson x /\ acc) True items ->
    forall rest fuel,
      elementsFuel items <= fuel ->
      Json.parseElements fuel
        (join (String "," (padOpen gap ind))
           (map (Json.serialize gap (ind ++ gap)) items)
         ++ padClose gap ind ++ String "]" rest)
      = POk items rest.
Proof.
  intros G I. induction items as [|x xs IH]; intros NE F W rest fuel B;
    [congruence|].
  inversion F as [|? ? Px Pxs]; subst. destruct W as [Wx Wxs].
  destruct fuel as [|fuel]; [simpl in B; lia|].
  assert (Bx : parseFuel x <= fuel) by (simpl in B; lia).
  assert (Bxs : elementsFuel xs <= fuel) by (simpl in B; lia).
  assert (I' : allWs (ind ++ gap) = true) by now apply allWs_app.
  destruct xs as [|y ys].
  - cbn [map join append Json.parseElements].
    rewrite (Px gap (ind ++ gap) _ fuel G I' Wx
               (terminated_closing (padClose gap ind) "]" rest
                  (allWs_padClose gap ind I) eq_refl) Bx).
    cbn [Json.pbind append].
    rewrite (skipWs_allWs _ _ (allWs_padClose gap ind I)).
    reflexivity.
  - change (join (String "," (padOpen gap ind))
              (map (Json.serialize gap (ind ++ gap)) (x :: y :: ys)))
      with (Json.serialize gap (ind ++ gap) x
            ++ String "," (padOpen gap ind)
            ++ join (String "," (padOpen gap ind))
                 (map (Json.serialize gap (ind ++ gap)) (y :: ys))).
    rewrite !append_assoc. cbn [append Json.parseElements].
    rewrite (Px gap (ind ++ gap) _ fuel G I' Wx); [|reflexivity|exact Bx].
    cbn [Json.pbind]. rewrite skipWs_head by reflexivity.
    rewrite (parseElements_skip fuel _ _ (allWs_padOpen gap ind G I)).
    rewrite (IH (fun E => ltac:(discriminate E)) Pxs Wxs rest fuel Bxs).
    reflexivity.
Qed.

Lemma memberText_app (gap ind k : string) (v : json) (tail : string) :
  memberText gap ind (k, v) ++ tail
  = String DQ
      (Json.quoteBody k
       ++ String DQ
            (String ":"
               ((if String.eqb gap "" then "" else " ")
                ++ Json.serialize gap (ind ++ gap) v ++ tail))).
Proof.
  unfold memberText, Json.quote. cbn [fst snd append].
  rewrite !append_assoc. cbn [append].
  destruct (String.eqb gap ""); cbn [append]; reflexivity.
Qed.

Lemma allWs_colonPad (gap : string) :
  allWs (if String.eqb gap "" then "" else " ") = true.
Proof. now destruct (String.eqb gap ""). Qed.

Lemma parseMembers_head (fuel : nat) (acc : list (string * json))
  (k rest1 : string) :
  Json.parseMembers (S fuel) acc
    (String DQ (Json.quoteBody k ++ String DQ (String ":" rest1)))
  = Json.pbind JNull (Json.parseValue fuel rest1) (fun v rest2 =>
      match Json.skipWs rest2 with
      | String "," rest3 => Json.parseMembers fuel (assign k v acc) rest3
      | String "}" rest3 => POk (assign k v acc) rest3
      | _ => PErr
      end).
Proof.
  cbn [Json.parseMembers]. rewrite skipWs_head by reflexivity.
  change (Ascii.eqb DQ DQ) with true. cbv iota.
  rewrite parseStringBody_quoteBody. cbn [Json.pbind].
  rewrite skipWs_head by reflexivity. reflexivity.
Qed.

Lemma parseMembers_fields (gap ind : string) :
  allWs gap = true -> allWs ind = true ->
  forall fields,
    fields <> [] -> Forall (fun kv => parsesBack (snd kv)) fields ->
    fold_right (fun kv acc => wfJson (snd kv) /\ acc) True fields ->
    NoDup (map fst fields) ->
    forall acc rest fuel,
      (forall k, In k (map fst fields) -> ~ In k (map fst acc)) ->
      membersFuel fields <= fuel ->
      Json.parseMembers fuel acc
        (join (String "," (padOpen gap ind)) (map (memberText gap ind) fields)
         ++ padClose gap ind ++ String "}" rest)
      = POk (acc ++ fields)%list rest.
Proof.
  intros G I. induction fields as [|[k v] fs IH];
    intros NE F W ND acc rest fuel D B; [congruence|].
  inversion F as [|? ? Pv Pfs]; subst. destruct W as [Wv Wfs].
  inversion ND as [|? ? Nk NDfs]; subst.
  destruct fuel as [|fuel]; [simpl in B; lia|].
  assert (Bv : parseFuel v <= fuel) by (simpl in B; lia).
  assert (Bfs : membersFuel fs <= fuel) by (simpl in B; lia).
  assert (I' : allWs (ind ++ gap) = true) by now apply allWs_app.
  assert (A : assign k v acc = (acc ++ [(k, v)])%list).
  { apply assign_app_none, assoc_none_not_in, D. now left. }
  simpl in Pv.
  destruct fs as [|kv' fs'].
  - cbn [map join append]. rewrite memberText_app, parseMembers_head.
    rewrite (parseValue_skip fuel _ _ (allWs_colonPad gap)).
    rewrite (Pv gap (ind ++ gap) _ fuel G I' Wv
               (terminated_closing (padClose gap ind) "}" rest
                  (allWs_padClose gap ind I) eq_refl) Bv).
    cbn [Json.pbind append].
    rewrite (skipWs_allWs _ _ (allWs_padClose gap ind I)).
    rewrite skipWs_head by reflexivity. now rewrite A.
  - change (join (String "," (padOpen gap ind))
              (map (memberText gap ind) ((k, v) :: kv' :: fs')))
      with (memberText gap ind (k, v)
            ++ String "," (padOpen gap ind)
            ++ join (String "," (padOpen gap ind))
                 (map (memberText gap ind) (kv' :: fs'))).
    rewrite append_assoc, memberText_app, parseMembers_head.
    rewrite (parseValue_skip fuel _ _ (allWs_colonPad gap)).
    rewrite !append_assoc. cbn [append].
    rewrite (Pv gap (ind ++ gap) _ fuel G I' Wv); [|reflexivity|exact Bv].
    cbn [Json.pbind]. rewrite skipWs_head by reflexivity.
    rewrite (parseMembers_skip fuel _ _ _ (allWs_padOpen gap ind G I)).
    rewrite A.
    rewrite (IH (fun E => ltac:(discriminate E)) Pfs Wfs NDfs
               (acc ++ [(k, v)])%list rest fuel).
    + now rewrite <- app_assoc.
    + intros k' Hk' Hin. rewrite map_app, in_app_iff in Hin.
      destruct Hin as [Hin|[<-|[]]].
      * apply (D k'); [now right|exact Hin].
      * now apply Nk.
    + exact Bfs.
Qed.

(** Every well-formed value parses back from its text. *)
Lemma parsesBack_all (v : json) : parsesBack v.
Proof.
  induction v as [| b | n | s | items IH | fields IH] using json_nested_ind;
    intros gap ind rest fuel G I W T B;
    (destruct fuel as [|fuel]; [simpl in B; lia|]).
  - reflexivity.
  - destruct b; reflexivity.
  - now apply parseValue_number.
  - change (Json.serialize gap ind (JStr s)) with (Json.quote s).
    unfold Json.quote. cbn [append Json.parseValue].
    rewrite skipWs_head by reflexivity.
    change (Ascii.eqb DQ "n") with false. change (Ascii.eqb DQ "t") with false.
    change (Ascii.eqb DQ "f") with false. change (Ascii.eqb DQ DQ) with true.
    cbv iota. rewrite append_assoc. cbn [append].
    now rewrite parseStringBody_quoteBody.
  - destruct items as [|x xs]; [reflexivity|].
    rewrite serialize_JArr, !append_assoc. cbn [append].
    destruct (serialize_head gap (ind ++ gap) x) as (c & r & E & O).
    assert (Hd : exists t,
      join (String "," (padOpen gap ind))
        (map (Json.serialize gap (ind ++ gap)) (x :: xs))
      ++ padClose gap ind ++ String "]" rest
      = String c t).
    { destruct xs as [|y ys]; cbn [map join]; rewrite E; cbn [append];
        eexists; reflexivity. }
    destruct Hd as (t & Hd).
    rewrite (parseValue_array_open fuel c t).
    + rewrite <- Hd.
      rewrite (parseElements_items gap ind G I (x :: xs)
                 (fun E => ltac:(discriminate E)) IH W rest fuel).
      * reflexivity.
      * change (parseFuel (JArr (x :: xs)))
          with (S (elementsFuel (x :: xs))) in B. lia.
    + rewrite (skipWs_allWs _ _ (allWs_padOpen gap ind G I)), Hd.
      now apply skipWs_opensValue.
    + exact O.
  - destruct fields as [|kv fs]; [reflexivity|].
    rewrite serialize_JObj, !append_assoc. cbn [append].
    destruct W as [ND W].
    assert (Hd : exists t,
      join (String "," (padOpen gap ind)) (map (memberText gap ind) (kv :: fs))
      ++ padClose gap ind ++ String "}" rest
      = String DQ t).
    { destruct kv as [k v].
      destruct fs as [|kv' fs']; cbn [map join];
        rewrite ?append_assoc, memberText_app; eexists; reflexivity. }
    destruct Hd as (t & Hd).
    rewrite (parseValue_object_open fuel DQ t).
    + rewrite <- Hd.
      rewrite (parseMembers_fields gap ind G I (kv :: fs)
                 (fun E => ltac:(discriminate E)) IH W ND [] rest fuel).
      * reflexivity.
      * intros k _ [].
      * change (parseFuel (JObj (kv :: fs)))
          with (S (membersFuel (kv :: fs))) in B. lia.
    + rewrite (skipWs_allWs _ _ (allWs_padOpen gap ind G I)), Hd.
      now apply skipWs_head.
    + reflexivity.
Qed.

(** *** The budget of [JSON.parse] is enough *)

Lemma length_app (a b : string) :
  String.length (a ++ b) = String.length a + String.length b.
Proof. induction a; simpl; congruence. Qed.

Lemma join_length (sep : string) (l : list string) :
  fold_right (fun s acc => String.length s + acc) 0 l
  <= String.length (join sep l).
Proof.
  induction l as [|x [|y l] IH].
  - simpl. lia.
  - simpl. lia.
  - change (join sep (x :: y :: l)) with (x ++ sep ++ join sep (y :: l)).
    rewrite !length_app. cbn [fold_right] in IH |- *. lia.
Qed.

Lemma parseFuel_nodes (v : json) : parseFuel v + 1 <= 2 * nodes v.
Proof.
  induction v as [| b | n | s | items IH | fields IH] using json_nested_ind;
    try (simpl; lia).
  - change (parseFuel (JArr items)) with (S (elementsFuel items)).
    change (nodes (JArr items))
      with (S (fold_right (fun x acc => nodes x + acc) 0 items)).
    enough (elementsFuel items
            <= 2 * fold_right (fun x acc => nodes x + acc) 0 items) by lia.
    induction IH as [|x xs Hx _ IHxs]; [simpl; lia|].
    unfold elementsFuel in *. cbn [fold_right]. lia.
  - change (parseFuel (JObj fields)) with (S (membersFuel fields)).
    change (nodes (JObj fields))
      with (S (fold_right (fun kv acc => nodes (snd kv) + acc) 0 fields)).
    enough (membersFuel fields
            <= 2 * fold_right (fun kv acc => nodes (snd kv) + acc) 0 fields)
      by lia.
    induction IH as [|x xs Hx _ IHxs]; [simpl; lia|].
    unfold membersFuel in *. cbn [fold_right]. lia.
Qed.

Lemma nodes_length (v : json) :
  forall gap ind, nodes v <= String.length (Json.serialize gap ind v).
Proof.
  induction v as [| b | n | s | items IH | fields IH] using json_nested_ind;
    intros gap ind.
  - simpl. change (Json.serialize gap ind JNull) with "null". simpl. lia.
  - destruct b; cbv; lia.
  - destruct (Number_toString_head n) as (c & r & E & _).
    change (Json.serialize gap ind (JNum n)) with (Number_toString n).
    rewrite E. simpl. lia.
  - change (Json.serialize gap ind (JStr s)) with (Json.quote s).
    unfold Json.quote. simpl. lia.
  - destruct items as [|x xs]; [cbv; lia|].
    rewrite serialize_JArr. rewrite !length_app.
    pose proof (join_length ("," ++ padOpen gap ind)
                  (map (Json.serialize gap (ind ++ gap)) (x :: xs))) as J.
    change (nodes (JArr (x :: xs)))
      with (S (fold_right (fun x acc => nodes x + acc) 0 (x :: xs))).
    enough (fold_right (fun x acc => nodes x + acc) 0 (x :: xs)
            <= fold_right (fun s acc => String.length s + acc) 0
                 (map (Json.serialize gap (ind ++ gap)) (x :: xs))).
    { change (String.length "[") with 1. change (String.length "]") with 1.
      lia. }
    clear J. induction IH as [|y ys Hy _ IHys]; [simpl; lia|].
    cbn [map fold_right]. specialize (Hy gap (ind ++ gap)). lia.
  - destruct fields as [|kv fs]; [cbv; lia|].
    rewrite serialize_JObj. rewrite !length_app.
    pose proof (join_length ("," ++ padOpen gap ind)
                  (map (memberText gap ind) (kv :: fs))) as J.
    change (nodes (JObj (kv :: fs)))
      with (S (fold_right (fun kv acc => nodes (snd kv) + acc) 0 (kv :: fs))).
    enough (fold_right (fun kv acc => nodes (snd kv) + acc) 0 (kv :: fs)
            <= fold_right (fun s acc => String.length s + acc) 0
                 (map (memberText gap ind) (kv :: fs))).
    { change (String.length "{") with 1. change (String.length "}") with 1.
      lia. }
    clear J. induction IH as [|y ys Hy _ IHys]; [simpl; lia|].
    cbn [map fold_right]. specialize (Hy gap (ind ++ gap)).
    unfold memberText at 1. rewrite !length_app. lia.
Qed.

Lemma parse_serialize (gap : string) (v : json) :
  allWs gap = true -> wfJson v ->
  Json.parse (Json.serialize gap "" v) = Ok v.
Proof.
  intros G W. unfold Json.parse.
  pose proof (parsesBack_all v gap "" ""
                (2 * String.length (Json.serialize gap "" v) + 2)
                G eq_refl W eq_refl) as P.
  rewrite append_nil_r in P. rewrite P; [reflexivity|].
  pose proof (parseFuel_nodes v). pose proof (nodes_length v gap ""). lia.
Qed.

(** [JSON.parse(JSON.stringify(v, null, 2))] is [v]. *)
Lemma parse_stringify2 (v : json) :
  wfJson v -> Json.parse (Json.stringify2 v) = Ok v.
Proof. apply parse_serialize. reflexivity. Qed.

(** [JSON.parse(JSON.stringify(v))] is [v]. *)
Lemma parse_stringify (v : json) :
  wfJson v -> Json.parse (Json.stringify v) = Ok v.
Proof. apply parse_serialize. reflexivity. Qed.

Lemma wfJson_conversation (c : Conversation) : wfJson (conversationToJson c).
Proof.
  unfold conversationToJson. cbn [wfJson map fst snd fold_right].
  split; [|repeat split].
  - repeat constructor; simpl; intuition discriminate.
  - induction (messages c) as [|m ms IH]; cbn [map fold_right]; [exact I|].
    split; [|exact IH].
    unfold messageToJson. cbn [wfJson map fst snd fold_right].
    split; [|repeat split]. repeat constructor; simpl; intuition discriminate.
Qed.

(** ** Persisting one conversation *)

Lemma find_append {A : Type} (f : A -> bool) (l r : list A) :
  find f (l ++ r)%list
  = match find f l with
    | Some x => Some x
    | None => find f r
    end.
Proof.
  induction l as [|x l IH]; [reflexivity|].
  simpl. now destruct (f x).
Qed.

Lemma pop_cons {A : Type} (x : A) (t : list A) :
  pop (x :: t)
  = match pop t with
    | Some y => Some y
    | None => Some x
    end.
Proof.
  revert x. induction t as [|y t IH]; intros x; [reflexivity|].
  change (pop (x :: y :: t)) with (pop (y :: t)).
  rewrite (IH y). now destruct (pop t).
Qed.

Lemma pop_filter_find {A : Type} (f : A -> bool) (l : list A) :
  pop (filter f l) = find f (rev l).
Proof.
  induction l as [|x l IH]; [reflexivity|].
  cbn [filter rev]. rewrite find_append, <- IH. cbn [find].
  destruct (f x).
  - apply pop_cons.
  - now destruct (pop (filter f l)).
Qed.

Lemma lastUserMessage_trailing (c : Conversation) :
  ChatManager.lastUserMessage c = trailingUserMessage c.
Proof. apply pop_filter_find. Qed.

Lemma dataKnotCommand_directive (m : Message) :
  ChatManager.dataKnotCommand m = directive (content m).
Proof. reflexivity. Qed.

(** The command block, by cases on the trailing user message. *)
Lemma processDataKnotCommand_recognized (c : Conversation)
  (fields : list (string * json)) (w : World) :
  startRecipeRequested c = true ->
  ChatManager.processDataKnotCommand c (JObj fields) w
  = (Ok (JObj (assign "lastModified" (JNum (clock w (tick w)))
                 (assign "projectType" (JStr "recipe") fields))),
     mkWorld (storage w) (clock w) (S (tick w))).
Proof.
  unfold startRecipeRequested, ChatManager.processDataKnotCommand.
  rewrite lastUserMessage_trailing.
  destruct (trailingUserMessage c) as [m|]; [|discriminate].
  rewrite dataKnotCommand_directive.
  destruct (directive (content m)) as [token|]; [|discriminate].
  intros ->. reflexivity.
Qed.

Lemma processDataKnotCommand_other (c : Conversation) (metadata : json)
  (w : World) :
  startRecipeRequested c = false ->
  ChatManager.processDataKnotCommand c metadata w = (Ok metadata, w).
Proof.
  unfold startRecipeRequested, ChatManager.processDataKnotCommand.
  rewrite lastUserMessage_trailing.
  destruct (trailingUserMessage c) as [m|]; [|reflexivity].
  rewrite dataKnotCommand_directive.
  destruct (directive (content m)) as [token|]; [|reflexivity].
  intros ->. reflexivity.
Qed.

Lemma tryCatch_unit_readOnly (m : M unit) (w : World) :
  readOnly m -> tryCatch m (fun _ => ret tt) w = (Ok tt, w).
Proof.
  intros R. unfold tryCatch. specialize (R w).
  destruct (m w) as [[[]|e] w']; simpl in R; subst; reflexivity.
Qed.

Lemma verifyMetadataWrite_skip (c : Conversation) (p : path) (w : World) :
  ChatManager.verifyMetadataWrite c p w = (Ok tt, w).
Proof.
  unfold ChatManager.verifyMetadataWrite.
  destruct (ChatManager.lastUserMessage c) as [m|]; [|reflexivity].
  destruct (ChatManager.dataKnotCommand m) as [command|]; [|reflexivity].
  destruct (String.eqb command "start recipe"); [|reflexivity].
  apply tryCatch_unit_readOnly. unfold ChatManager.JSON_parse. read_only.
Qed.

Lemma assign_app_last {A : Type} (k : string) (v x : A)
  (l : list (string * A)) :
  assoc k l = None ->
  assign k v (l ++ [(k, x)])%list = (l ++ [(k, v)])%list.
Proof.
  induction l as [|[k' v'] l IH]; simpl.
  - now rewrite String.eqb_refl.
  - destruct (String.eqb k k'); [discriminate|]. intros H. now rewrite IH.
Qed.

Lemma assoc_app_last {A : Type} (k : string) (x : A) (l : list (string * A)) :
  assoc k l = None -> assoc k (l ++ [(k, x)])%list = Some x.
Proof.
  intros H. rewrite (assoc_app_none k l _ H). apply assoc_head.
Qed.

Lemma saveConversation_fresh (c : Conversation) (w : World)
  (R : list (string * node)) :
  storage w = Some (Dir R) ->
  assoc (ChatManager.conversationDirOf (id c)) R = None ->
  ChatManager.saveConversation c w
  = (Ok tt,
     mkWorld
       (Some (Dir (R ++ [(ChatManager.conversationDirOf (id c),
                          savedDir c (clock w) (tick w))])%list))
       (clock w) (tick w + readingsOf c)).
Proof.
  destruct w as [o clk t]. cbn [storage clock tick]. intros -> N.
  unfold ChatManager.saveConversation.
  set (d := ChatManager.conversationDirOf (id c)) in *.
  unfold ChatManager.path_join, ChatManager.chatHistoryDir. cbn [app].
  unfold bind at 1. unfold existsSync at 1. cbn [storage].
  rewrite lookup_cons, N, lookup_none. cbn [negb].
  unfold bind at 1. unfold mkdirSync at 1. cbn [storage Fs.mkdirp]. rewrite N.
  rewrite (assign_app_none d (Dir []) R N). unfold withStorage. cbn [clock tick].
  unfold bind at 1. unfold existsSync at 1. cbn [storage].
  rewrite !lookup_cons, (assoc_app_last d (Dir []) R N). cbn [assoc]. rewrite lookup_none. cbn [negb].
  unfold bind at 1. unfold mkdirSync at 1. cbn [storage Fs.mkdirp].
  rewrite (assoc_app_last d (Dir []) R N). cbn [assoc assign].
  rewrite (assign_app_last d _ (Dir []) R N). unfold withStorage. cbn [clock tick].
  unfold bind at 1. unfold writeFileSync at 1, alterSync. cbn [storage Fs.alter].
  rewrite (assoc_app_last d _ R N). simpl (assoc "conversation.json" _). cbv iota beta.
  simpl (assign "conversation.json" _ _).
  rewrite (assign_app_last d _ _ R N). unfold withStorage. cbn [clock tick].
  unfold bind at 1. unfold existsSync at 1. cbn [storage].
  rewrite !lookup_cons, (assoc_app_last d _ R N). simpl (assoc "metadata.json" _). rewrite lookup_none.
  cbv iota.
  unfold bind at 1. unfold ret at 1.
  unfold bind at 1. unfold liftResult at 1. cbn [setProp assign].
  unfold bind at 1. unfold liftResult at 1. simpl (setProp "title" _ _).
  unfold bind at 1. unfold liftResult at 1. simpl (setProp "created" _ _).
  unfold bind at 1. unfold Date_now at 1. cbn [storage clock tick].
  unfold bind at 1. unfold liftResult at 1. simpl (setProp "lastModified" _ _).
  unfold bind at 1. unfold liftResult at 1. simpl (setProp "messageCount" _ _).
  unfold bind at 1. unfold liftResult at 1. simpl (setProp "version" _ _).
  unfold bind at 1. unfold liftResult at 1. simpl (getProp "projectType" _).
  cbn [truthy negb orb].
  unfold bind at 1. unfold liftResult at 1. simpl (setProp "projectType" _ _).
  cbv iota beta. unfold bind at 1.
  unfold savedDir, freshMetadata, readingsOf.
  destruct (startRecipeRequested c) eqn:Q.
  - rewrite (processDataKnotCommand_recognized c _ _ Q).
    cbn [storage clock tick].
    simpl (assign "projectType" _ _). simpl (assign "lastModified" _ _).
    unfold bind at 1. unfold writeFileSync at 1, alterSync.
    cbn [storage Fs.alter].
    rewrite (assoc_app_last d _ R N). simpl (assoc "metadata.json" _).
    cbv iota beta. simpl (assign "metadata.json" _ _).
    rewrite (assign_app_last d _ _ R N). unfold withStorage.
    cbn [clock tick]. rewrite verifyMetadataWrite_skip.
    repeat f_equal. lia.
  - rewrite (processDataKnotCommand_other c _ _ Q).
    unfold bind at 1. unfold writeFileSync at 1, alterSync.
    cbn [storage Fs.alter].
    rewrite (assoc_app_last d _ R N). simpl (assoc "metadata.json" _).
    cbv iota beta. simpl (assign "metadata.json" _ _).
    rewrite (assign_app_last d _ _ R N). unfold withStorage.
    cbn [clock tick]. rewrite verifyMetadataWrite_skip.
    repeat f_equal. lia.
Qed.

(** ** Persisting and loading the whole list *)

Lemma assoc_in {A : Type} (k : string) (x : A) (l : list (string * A)) :
  assoc k l = Some x -> In (k, x) l.
Proof.
  induction l as [|[k' v'] l IH]; simpl; [discriminate|].
  destruct (String.eqb_spec k k').
  - intros [= ->]. left. now subst.
  - intros H. right. now apply IH.
Qed.

Lemma assoc_nodup {A : Type} (k : string) (x : A) (l : list (string * A)) :
  NoDup (map fst l) -> In (k, x) l -> assoc k l = Some x.
Proof.
  induction l as [|[k' v'] l IH]; simpl; [intros _ []|].
  intros ND [E|I]; inversion ND as [|? ? Nk NDl]; subst.
  - injection E as -> ->. now rewrite String.eqb_refl.
  - destruct (String.eqb_spec k k') as [->|_]; [|now apply IH].
    exfalso. apply Nk. apply (in_map fst) in I. exact I.
Qed.

Lemma remove_app_none {A : Type} (k : string) (l r : list (string * A)) :
  assoc k l = None -> remove k (l ++ r)%list = (l ++ remove k r)%list.
Proof.
  induction l as [|[k' v'] l IH]; simpl; [reflexivity|].
  destruct (String.eqb k k'); [discriminate|]. intros H. now rewrite IH.
Qed.

Lemma statSync_entry (name : string) (x : node) (w : World)
  (E : list (string * node)) :
  storage w = Some (Dir E) -> assoc name E = Some x ->
  statSync [name] w
  = (Ok (mkStats (match x with Dir _ => true | File _ => false end)), w).
Proof.
  intros S A. unfold statSync. rewrite S, lookup_cons, A, lookup_nil.
  now destruct x.
Qed.

(** The clearing loop of [saveChatHistory] (lines 346-354) removes
    exactly the conversation directories. *)
Lemma clear_loop (es : list (string * node)) :
  forall (K : list (string * node)) (w : World),
    storage w = Some (Dir (K ++ es)%list) ->
    NoDup (map fst (K ++ es)%list) ->
    forEach (map fst es)
      (fun file =>
         stat <- statSync (ChatManager.path_join ChatManager.chatHistoryDir
                             file) ;;
         if isDirectory stat && startsWith file "chat_"
         then ChatManager.removeDirectoryRecursive
                (ChatManager.path_join ChatManager.chatHistoryDir file)
         else ret tt) w
    = (Ok tt,
       withStorage w
         (Some (Dir (K ++ filter (fun e => negb (isConversationDir e)) es)
                  %list))).
Proof.
  induction es as [|[n x] es IH]; intros K w S ND.
  - simpl. unfold ret. rewrite <- S. now rewrite withStorage_same.
  - cbn [map fst forEach].
    change (ChatManager.path_join ChatManager.chatHistoryDir n) with [n].
    assert (NK : assoc n K = None).
    { apply assoc_none_not_in. intros I.
      rewrite map_app in ND. apply NoDup_remove_2 in ND.
      apply ND. apply in_or_app. now left. }
    assert (A : assoc n (K ++ (n, x) :: es)%list = Some x).
    { rewrite (assoc_app_none n K _ NK). apply assoc_head. }
    unfold bind at 1. unfold bind at 1.
    rewrite (statSync_entry n x w _ S A). cbn [isDirectory filter].
    unfold isConversationDir at 1. cbn [fst snd].
    destruct x as [d|sub].
    + cbn [andb negb]. unfold ret at 1.
      replace (K ++ (n, File d) :: es)%list
        with ((K ++ [(n, File d)]) ++ es)%list in S, ND
        by now rewrite <- app_assoc.
      rewrite (IH _ w S ND). now rewrite <- app_assoc.
    + cbn [andb]. destruct (startsWith n "chat_") eqn:P.
      * assert (L : Fs.lookup [n] (storage w) = Some (Dir sub)).
        { now rewrite S, lookup_cons, A, lookup_nil. }
        rewrite (removeDirectoryRecursive_spec [n] w sub L).
        rewrite S. cbn [putAt]. rewrite (remove_app_none n K _ NK).
        rewrite remove_head. cbn [negb].
        rewrite (IH K (withStorage w (Some (Dir (K ++ es)%list))) eq_refl).
        -- reflexivity.
        -- rewrite map_app in ND |- *. now apply NoDup_remove_1 in ND.
      * cbn [negb]. unfold ret at 1.
        replace (K ++ (n, Dir sub) :: es)%list
          with ((K ++ [(n, Dir sub)]) ++ es)%list in S, ND
          by now rewrite <- app_assoc.
        rewrite (IH _ w S ND). now rewrite <- app_assoc.
Qed.

Lemma Number_toString_inj (n m : Z) :
  Number_toString n = Number_toString m -> n = m.
Proof.
  intros E.
  pose proof (parseValue_number n 0 "" eq_refl) as Pn.
  pose proof (parseValue_number m 0 "" eq_refl) as Pm.
  rewrite E, Pm in Pn. now injection Pn.
Qed.

Lemma conversationDirOf_inj (n m : Z) :
  ChatManager.conversationDirOf n = ChatManager.conversationDirOf m -> n = m.
Proof.
  unfold ChatManager.conversationDirOf. cbn [append].
  intros [= E]. now apply Number_toString_inj.
Qed.

Lemma conversationDirOf_prefix (n : Z) :
  startsWith (ChatManager.conversationDirOf n) "chat_" = true.
Proof. reflexivity. Qed.

(** The saving loop of [saveChatHistory] (lines 357-466) appends one
    directory per conversation, in order. *)
Lemma save_loop (l : list Conversation) :
  forall (R : list (string * node)) (clk : nat -> Z) (t : nat),
    NoDup (map id l) ->
    (forall c, In c l -> assoc (ChatManager.conversationDirOf (id c)) R = None) ->
    forEach l ChatManager.saveConversation (mkWorld (Some (Dir R)) clk t)
    = (Ok tt,
       mkWorld (Some (Dir (R ++ savedDirs l clk t)%list)) clk
         (t + readingsOfAll l)).
Proof.
  induction l as [|c l IH]; intros R clk t ND F.
  - simpl. unfold ret. now rewrite app_nil_r, Nat.add_0_r.
  - cbn [forEach]. unfold bind.
    rewrite (saveConversation_fresh c (mkWorld (Some (Dir R)) clk t) R eq_refl
               (F c (or_introl eq_refl))).
    cbn [clock tick]. inversion ND as [|? ? Nc NDl]; subst.
    rewrite IH.
    + cbn [savedDirs readingsOfAll]. rewrite <- app_assoc. cbn [app].
      now rewrite Nat.add_assoc.
    + exact NDl.
    + intros c' I. rewrite assoc_app_none by (apply F; now right).
      cbn [assoc].
      destruct (String.eqb_spec (ChatManager.conversationDirOf (id c'))
                  (ChatManager.conversationDirOf (id c))) as [E|_];
        [|reflexivity].
      exfalso. apply Nc. apply conversationDirOf_inj in E. rewrite <- E.
      now apply in_map.
Qed.

Lemma assoc_filter_none {A : Type} (f : string * A -> bool) (k : string)
  (l : list (string * A)) :
  (forall x, In (k, x) l -> f (k, x) = false) ->
  assoc k (filter f l) = None.
Proof.
  induction l as [|[k' v'] l IH]; intros H; [reflexivity|].
  cbn [filter]. destruct (f (k', v')) eqn:E.
  - cbn [assoc]. destruct (String.eqb_spec k k') as [->|_].
    + rewrite (H v' (or_introl eq_refl)) in E. discriminate.
    + apply IH. intros x I. apply H. now right.
  - apply IH. intros x I. apply H. now right.
Qed.

Lemma cleared_root_free (R : list (string * node)) (l : list Conversation) :
  storageReady (Some (Dir R)) l ->
  forall c, In c l ->
    assoc (ChatManager.conversationDirOf (id c))
      (filter (fun e => negb (isConversationDir e)) R) = None.
Proof.
  intros [ND F] c I. apply assoc_filter_none. intros x Ix.
  pose proof (assoc_nodup _ _ _ ND Ix) as A.
  unfold isConversationDir. cbn [fst snd].
  destruct x as [d|sub]; [exfalso; exact (F c d I A)|reflexivity].
Qed.

(** What [saveChatHistory] leaves behind: the entries of the root that
    are no conversation directories, then the directories of the list. *)
Lemma saveChatHistory_spec (l : list Conversation) (w : World) :
  storageReady (storage w) l -> NoDup (map id l) ->
  ChatManager.saveChatHistory l w
  = (Ok tt,
     mkWorld
       (Some (Dir (filter (fun e => negb (isConversationDir e))
                     (rootEntries (storage w))
                   ++ savedDirs l (clock w) (tick w))%list))
       (clock w) (tick w + readingsOfAll l)).
Proof.
  destruct w as [o clk t]. cbn [storage clock tick]. intros SR ND.
  unfold ChatManager.saveChatHistory, tryCatch.
  destruct o as [[d|R]|].
  - destruct SR.
  - unfold bind at 1. unfold existsSync at 1. cbn [storage].
    unfold ChatManager.chatHistoryDir at 1. rewrite lookup_nil. cbn [negb].
    unfold bind at 1. unfold ret at 1.
    unfold bind at 1. unfold readdirSync at 1. cbn [storage].
    unfold ChatManager.chatHistoryDir at 1. rewrite lookup_nil.
    unfold bind at 1.
    rewrite (clear_loop R [] (mkWorld (Some (Dir R)) clk t) eq_refl (proj1 SR)).
    unfold withStorage. cbn [app clock tick rootEntries].
    rewrite (save_loop l _ clk t ND (cleared_root_free R l SR)).
    reflexivity.
  - unfold bind at 1. unfold existsSync at 1. cbn [storage].
    unfold ChatManager.chatHistoryDir at 1. rewrite lookup_nil. cbn [negb].
    unfold bind at 1. unfold mkdirSync at 1. cbn [storage].
    unfold ChatManager.chatHistoryDir at 1. cbn [Fs.mkdirp].
    unfold withStorage. cbn [clock tick].
    unfold bind at 1. unfold readdirSync at 1. cbn [storage].
    unfold ChatManager.chatHistoryDir at 1. rewrite lookup_nil.
    cbn [map forEach]. unfold bind at 1. unfold ret at 1.
    rewrite (save_loop l [] clk t ND (fun _ _ => eq_refl)).
    reflexivity.
Qed.

(** ** The context window (claim C3) *)

(** C3. The context-building step of [sendMessageToAPI] is a function of
    the buffer and the new message alone.  On an empty buffer the prompt is
    the new message verbatim.  On a non-empty buffer the prompt is the
    blank-line join of the rendered entries of the buffer followed by the
    new message rendered as a user entry, where an entry is rendered as its
    role label ([User] for role [user], [AI] for any other role), a colon, a
    space and its content.  The two examples of the specification
    evaluate as stated. *)
Theorem buildContext_transcript :
  (forall newMessage, ChatManager.buildContext [] newMessage = newMessage) /\
  (forall b buffer newMessage,
     ChatManager.buildContext (b :: buffer) newMessage
     = join blankLine
         (map renderEntry (b :: buffer)
            ++ [("User: " ++ newMessage)%string])%list) /\
  (forall c, renderEntry (mkMessage "user" c) = "User: " ++ c) /\
  (forall r c, r <> "user" -> renderEntry (mkMessage r c) = "AI: " ++ c) /\
  ChatManager.buildContext [] "hi" = "hi" /\
  ChatManager.buildContext
    [mkMessage "user" "a"; mkMessage "assistant" "b"] "c"
  = "User: a" ++ LF ++ LF ++ "AI: b" ++ LF ++ LF ++ "User: c".
Proof.
  split; [reflexivity|]. split.
  - intros b buffer m. unfold ChatManager.buildContext.
    change (0 <? List.length (b :: buffer))%nat with true. cbv iota.
    change (map renderEntry (b :: buffer))
      with (renderEntry b :: map renderEntry buffer).
    rewrite join_snoc. unfold blankLine.
    now rewrite !append_assoc.
  - split; [reflexivity|]. split; [|split; reflexivity].
    intros r c Hr. unfold renderEntry, roleLabel. simpl.
    destruct (String.eqb_spec r "user"); [contradiction|reflexivity].
Qed.

(** ** The inference gateway (claims C8 and C9) *)

Lemma sendMessageToAPI_transport_error (cm : string)
  (server : Request -> Exchange) (msg : string) (buf : list Message)
  (model : string) (key : option string) (e : exn) :
  server (ChatManager.buildRequest cm msg buf model key) = TransportError e ->
  ChatManager.sendMessageToAPI cm server msg buf model key = Rejected e.
Proof. intros H. unfold ChatManager.sendMessageToAPI. now rewrite H. Qed.

Lemma sendMessageToAPI_invalid_body (cm : string)
  (server : Request -> Exchange) (msg : string) (buf : list Message)
  (model : string) (key : option string) (data : string) (e : exn) :
  server (ChatManager.buildRequest cm msg buf model key) = Response data ->
  Json.parse data = Throw e ->
  ChatManager.sendMessageToAPI cm server msg buf model key
  = Rejected (Error "Invalid JSON response from server").
Proof.
  intros H P. unfold ChatManager.sendMessageToAPI. rewrite H.
  unfold ChatManager.handleExchange. now rewrite P.
Qed.

(** An envelope without a [response] field resolves the promise, with
    [undefined], whatever else the envelope carries. *)
Lemma sendMessageToAPI_no_response_field (cm : string)
  (server : Request -> Exchange) (msg : string) (buf : list Message)
  (model : string) (key : option string) (data : string)
  (fields : list (string * json)) :
  server (ChatManager.buildRequest cm msg buf model key) = Response data ->
  Json.parse data = Ok (JObj fields) ->
  assoc "response" fields = None ->
  ChatManager.sendMessageToAPI cm server msg buf model key
  = Resolved Undefined.
Proof.
  intros H P N. unfold ChatManager.sendMessageToAPI. rewrite H.
  unfold ChatManager.handleExchange. rewrite P. simpl. now rewrite N.
Qed.

(** C8. When the backend answers with the error envelope
    [{error: model not found}], [sendMessageToAPI] does not fail with a
    backend error: the promise resolves, with [undefined]. *)
Theorem sendMessageToAPI_error_envelope_resolves :
  Json.parse errorEnvelope = Ok (JObj [("error", JStr "model not found")]) /\
  MainJs.sendMessageToAPI failingServer "hi" [] "mistral:latest" None
  = Resolved Undefined.
Proof. split; vm_compute; reflexivity. Qed.

(** Outside the API key header the two classes build the same request. *)
Lemma buildRequest_agree (msg : string) (buf : list Message)
  (model : string) (key : option string) :
  (model <> MainJs.claudeModel /\ model <> Part004.claudeModel)
  \/ key = None \/ key = Some "" ->
  MainJs.buildRequest msg buf model key
  = Part004.buildRequest msg buf model key.
Proof.
  unfold MainJs.buildRequest, Part004.buildRequest, ChatManager.buildRequest.
  intros [[H1 H2]|[->| ->]]; try reflexivity.
  - destruct key as [k|]; [|reflexivity].
    destruct (String.eqb_spec model MainJs.claudeModel); [contradiction|].
    destruct (String.eqb_spec model Part004.claudeModel); [contradiction|].
    reflexivity.
  - now rewrite !andb_false_r.
Qed.

(** The storage operations of the two classes are the same functions. *)
Lemma storage_operations_agree :
  MainJs.initChatHistory = Part004.initChatHistory /\
  MainJs.saveChatHistory = Part004.saveChatHistory /\
  MainJs.loadChatHistory = Part004.loadChatHistory /\
  MainJs.saveConversationArtifact = Part004.saveConversationArtifact /\
  MainJs.loadConversationArtifact = Part004.loadConversationArtifact /\
  MainJs.getConversationArtifacts = Part004.getConversationArtifacts.
Proof. repeat split. Qed.

(** C9. The two class definitions are not extensionally equal: asked for
    model [claude-sonnet-4-5] with an API key, the class of src/main.js
    puts the key in the [claude-api-key] header and the class of
    src/unnamed/part_004 sends no such header; against a server that
    checks the header the first call resolves with the answer and the
    second with [undefined]. *)
Theorem claude_header_condition_differs :
  assoc "claude-api-key"
    (headers (MainJs.buildRequest "hi" [] "claude-sonnet-4-5" (Some "sk-key")))
  = Some (JStr "sk-key") /\
  assoc "claude-api-key"
    (headers (Part004.buildRequest "hi" [] "claude-sonnet-4-5"
                (Some "sk-key")))
  = None /\
  MainJs.sendMessageToAPI keyCheckingServer "hi" [] "claude-sonnet-4-5"
    (Some "sk-key") = Resolved (Val (JStr "hello")) /\
  Part004.sendMessageToAPI keyCheckingServer "hi" [] "claude-sonnet-4-5"
    (Some "sk-key") = Resolved Undefined.
Proof. repeat split; vm_compute; reflexivity. Qed.

(** ** The read operations (claim C10) *)

Lemma loadChatHistory_readOnly : readOnly ChatManager.loadChatHistory.
Proof.
  unfold ChatManager.loadChatHistory, ChatManager.JSON_parse. read_only.
Qed.

Lemma loadConversationArtifact_readOnly (conversationId : Z)
  (artifactName type : string) :
  readOnly
    (ChatManager.loadConversationArtifact conversationId artifactName type).
Proof.
  unfold ChatManager.loadConversationArtifact, ChatManager.JSON_parse.
  read_only.
Qed.

Lemma getConversationArtifacts_readOnly (conversationId : Z) :
  readOnly (ChatManager.getConversationArtifacts conversationId).
Proof. unfold ChatManager.getConversationArtifacts. read_only. Qed.

(** C10. The read operations [loadChatHistory],
    [loadConversationArtifact] and [getConversationArtifacts] return (they
    never throw) and leave the world, and so every file and directory below
    the storage root, exactly as it was, from every starting state. *)
Theorem read_operations_preserve_storage :
  (forall w,
     (exists l, fst (MainJs.loadChatHistory w) = Ok l) /\
     snd (MainJs.loadChatHistory w) = w) /\
  (forall conversationId artifactName type w,
     (exists v,
        fst (MainJs.loadConversationArtifact conversationId artifactName
               type w) = Ok v) /\
     snd (MainJs.loadConversationArtifact conversationId artifactName type w)
     = w) /\
  (forall conversationId w,
     (exists l, fst (MainJs.getConversationArtifacts conversationId w) = Ok l)
     /\ snd (MainJs.getConversationArtifacts conversationId w) = w).
Proof.
  split; [|split].
  - intros w. split.
    + apply (neverThrows_tryCatch_ret _ []).
    + apply loadChatHistory_readOnly.
  - intros i n t w. split.
    + apply (neverThrows_tryCatch_ret _ (Val JNull)).
    + apply loadConversationArtifact_readOnly.
  - intros i w. split.
    + apply (neverThrows_tryCatch_ret _ []).
    + apply getConversationArtifacts_readOnly.
Qed.

(** ** The artifact store (claims C6 and C7) *)

(** C6, as the code has it.  [loadConversationArtifact] never throws.
    For a plain file name, it returns [null] when the artifact does not
    exist; and when the stored text of a [json] artifact is not JSON, the
    [SyntaxError] of [JSON.parse] is caught inside the method and the
    caller receives [null] as well. *)
Theorem loadConversationArtifact_never_throws :
  forall conversationId artifactName type w,
    let a := MainJs.loadConversationArtifact conversationId artifactName type in
    (exists v, fst (a w) = Ok v) /\
    (plainFileName artifactName = true ->
     Fs.lookup (artifactPath conversationId artifactName) (storage w) = None ->
     fst (a w) = Ok (Val JNull)) /\
    (forall data,
       plainFileName artifactName = true ->
       Fs.lookup (artifactPath conversationId artifactName) (storage w)
       = Some (File data) ->
       type = "json" -> Json.parse data = Throw SyntaxError ->
       fst (a w) = Ok (Val JNull)).
Proof.
  intros i n t w a. split; [|split].
  - apply (neverThrows_tryCatch_ret _ (Val JNull)).
  - intros _ H. subst a.
    unfold MainJs.loadConversationArtifact,
      ChatManager.loadConversationArtifact, tryCatch, bind, existsSync.
    change (ChatManager.path_join _ n) with (artifactPath i n).
    now rewrite H.
  - intros data _ H -> P. subst a.
    unfold MainJs.loadConversationArtifact,
      ChatManager.loadConversationArtifact, tryCatch, bind, existsSync,
      readFileSync, ChatManager.JSON_parse, liftResult.
    change (ChatManager.path_join _ n) with (artifactPath i n).
    rewrite H. simpl. rewrite H. simpl. now rewrite P.
Qed.

(** C6, the counterexample.  With an artifact whose text is not JSON on
    disk, [JSON.parse] throws a [SyntaxError], yet the load returns
    normally, with [null]: the failure does not reach the caller. *)
Lemma loadConversationArtifact_swallows_parse_error :
  Json.parse "{bad" = Throw SyntaxError /\
  fst (MainJs.loadConversationArtifact 1 "x.json" "json"
         (worldAt malformedArtifactStorage 0))
  = Ok (Val JNull).
Proof. split; vm_compute; reflexivity. Qed.

Lemma saveConversationArtifact_preservesFiles_unsupported
  (conversationId : Z) (artifactName : string) (data : jsval)
  (type : string) :
  type <> "json" -> type <> "text" -> type <> "binary" ->
  preservesFiles
    (ChatManager.saveConversationArtifact conversationId artifactName data
       type).
Proof.
  intros N1 N2 N3. unfold ChatManager.saveConversationArtifact.
  destruct (String.eqb_spec type "json"); [contradiction|].
  destruct (String.eqb_spec type "text"); [contradiction|].
  destruct (String.eqb_spec type "binary"); [contradiction|].
  apply preservesFiles_tryCatch; [|intro; apply preservesFiles_ret].
  apply preservesFiles_bind;
    [apply preservesFiles_readOnly, readOnly_existsSync|intro ex1].
  apply preservesFiles_bind;
    [apply preservesFiles_if;
       [apply preservesFiles_mkdirSync|apply preservesFiles_ret]|intros _].
  apply preservesFiles_bind;
    [apply preservesFiles_readOnly, readOnly_existsSync|intro ex2].
  apply preservesFiles_bind;
    [apply preservesFiles_if;
       [apply preservesFiles_mkdirSync|apply preservesFiles_ret]|intros _].
  apply preservesFiles_throw.
Qed.

(** C7, as the code has it.  With an encoding other than [json], [text]
    and [binary], [saveConversationArtifact] returns normally (the error
    it raises is caught and logged inside the method) and neither creates,
    removes nor changes any file below the storage root. *)
Theorem saveConversationArtifact_unsupported_encoding :
  forall conversationId artifactName data type w,
    type <> "json" -> type <> "text" -> type <> "binary" ->
    let a :=
      MainJs.saveConversationArtifact conversationId artifactName data type in
    fst (a w) = Ok tt /\
    (forall p content,
       Fs.lookup p (storage (snd (a w))) = Some (File content)
       <-> Fs.lookup p (storage w) = Some (File content)).
Proof.
  intros i n d t w N1 N2 N3 a. split.
  - subst a. unfold MainJs.saveConversationArtifact,
      ChatManager.saveConversationArtifact.
    match goal with |- fst (tryCatch ?m _ w) = _ =>
      destruct (neverThrows_tryCatch_ret m tt w) as [[] H] end.
    exact H.
  - intros p content.
    apply (saveConversationArtifact_preservesFiles_unsupported i n d t N1 N2 N3).
Qed.

(** C7, the theorem at a concrete call. *)
Lemma saveConversationArtifact_unsupported_encoding_witness :
  let a := MainJs.saveConversationArtifact 1 "notes" (Val (JStr "x")) "xml" in
  fst (a (worldAt None 0)) = Ok tt /\
  (forall p content,
     Fs.lookup p (storage (snd (a (worldAt None 0)))) = Some (File content)
     <-> Fs.lookup p (storage (worldAt None 0)) = Some (File content)).
Proof.
  apply (saveConversationArtifact_unsupported_encoding 1 "notes"
           (Val (JStr "x")) "xml" (worldAt None 0));
    discriminate.
Defined.

(** C7, the counterexample.  Saving with encoding [xml] returns normally,
    so no failure reaches the caller; it even leaves the conversation
    directory and its artifacts directory behind. *)
Lemma saveConversationArtifact_unsupported_not_surfaced :
  fst (MainJs.saveConversationArtifact 1 "notes" (Val (JStr "x")) "xml"
         (worldAt None 0)) = Ok tt /\
  storage (snd (MainJs.saveConversationArtifact 1 "notes" (Val (JStr "x"))
                  "xml" (worldAt None 0)))
  = Some (Dir [("chat_1", Dir [("artifacts", Dir [])])]).
Proof. split; vm_compute; reflexivity. Qed.

(** ** Loading what was persisted *)

Lemma filterM_conversationDirs (E es : list (string * node)) (w : World) :
  storage w = Some (Dir E) -> NoDup (map fst E) -> incl es E ->
  filterM (fun file =>
             stat <- statSync (ChatManager.path_join
                                 ChatManager.chatHistoryDir file) ;;
             ret (isDirectory stat && startsWith file "chat_"))
    (map fst es) w
  = (Ok (map fst (filter isConversationDir es)), w).
Proof.
  intros S ND. induction es as [|[n x] es IH]; intros I; [reflexivity|].
  cbn [map fst filterM].
  change (ChatManager.path_join ChatManager.chatHistoryDir n) with [n].
  assert (A : assoc n E = Some x).
  { apply (assoc_nodup _ _ _ ND). apply I. now left. }
  unfold bind at 1. unfold bind at 1.
  rewrite (statSync_entry n x w E S A). unfold ret at 1.
  unfold bind at 1. rewrite IH by (intros e He; apply I; now right).
  unfold ret. cbn [filter isDirectory].
  assert (Q : isConversationDir (n, x)
              = match x with Dir _ => true | File _ => false end
                && startsWith n "chat_") by (now destruct x).
  rewrite Q.
  now destruct (match x with Dir _ => true | File _ => false end
                && startsWith n "chat_").
Qed.

Lemma savedDirs_names (l : list Conversation) (clk : nat -> Z) (t : nat) :
  map fst (savedDirs l clk t)
  = map (fun c => ChatManager.conversationDirOf (id c)) l.
Proof.
  revert t. induction l as [|c l IH]; intros t; [reflexivity|].
  cbn [savedDirs map fst]. now rewrite IH.
Qed.

Lemma savedDirs_all_conversationDirs (l : list Conversation)
  (clk : nat -> Z) (t : nat) :
  filter isConversationDir (savedDirs l clk t) = savedDirs l clk t.
Proof.
  revert t. induction l as [|c l IH]; intros t; [reflexivity|].
  cbn [savedDirs filter]. unfold isConversationDir at 1.
  cbn [fst snd savedDir]. rewrite conversationDirOf_prefix. now rewrite IH.
Qed.

Lemma filter_none {A : Type} (f : A -> bool) (l : list A) :
  Forall (fun x => f x = false) l -> filter f l = [].
Proof.
  induction 1 as [|x l Hx _ IH]; [reflexivity|].
  cbn [filter]. now rewrite Hx.
Qed.

Lemma kept_entries_no_conversationDir (R : list (string * node)) :
  Forall (fun e => isConversationDir e = false)
    (filter (fun e => negb (isConversationDir e)) R).
Proof.
  apply Forall_forall. intros e He. apply filter_In in He.
  destruct He as [_ He]. now apply negb_true_iff in He.
Qed.

(** The reading loop of [loadChatHistory] (lines 575-588) on persisted
    directories yields the persisted bodies, in directory order. *)
Lemma load_loop (E : list (string * node)) (clk : nat -> Z) (w : World)
  (l : list Conversation) :
  storage w = Some (Dir E) -> NoDup (map fst E) ->
  forall (t : nat) (acc : list json),
    incl (savedDirs l clk t) E ->
    foldM (fun conversations dir =>
      tryCatch
        (ex <- existsSync
                 (ChatManager.path_join
                    (ChatManager.path_join ChatManager.chatHistoryDir dir)
                    "conversation.json") ;;
         if ex then
           data <- readFileSync
                     (ChatManager.path_join
                        (ChatManager.path_join ChatManager.chatHistoryDir
                           dir)
                        "conversation.json") ;;
           conversation <- ChatManager.JSON_parse data ;;
           ret (conversations ++ [conversation])%list
         else ret conversations)
        (fun error => ret conversations))
      (map fst (savedDirs l clk t)) acc w
    = (Ok (acc ++ map conversationToJson l)%list, w).
Proof.
  intros S ND.
  match goal with |- forall t acc, _ -> foldM ?f _ _ _ = _ => set (cb := f) end.
  induction l as [|c l IH]; intros t acc I.
  - simpl. unfold ret. now rewrite app_nil_r.
  - cbn [savedDirs map fst foldM].
    set (d := ChatManager.conversationDirOf (id c)).
    assert (A : assoc d E = Some (savedDir c clk t)).
    { apply (assoc_nodup _ _ _ ND). apply I. now left. }
    assert (L : Fs.lookup [d; "conversation.json"] (storage w)
                = Some (File (Json.stringify2 (conversationToJson c)))).
    { rewrite S, lookup_cons, A. reflexivity. }
    unfold bind at 1. unfold cb at 1. unfold tryCatch at 1.
    change (ChatManager.path_join
              (ChatManager.path_join ChatManager.chatHistoryDir d)
              "conversation.json") with [d; "conversation.json"].
    unfold bind at 1. unfold existsSync at 1. rewrite L.
    unfold bind at 1. unfold readFileSync at 1. rewrite L.
    unfold bind at 1. unfold ChatManager.JSON_parse, liftResult.
    rewrite (parse_stringify2 _ (wfJson_conversation c)).
    unfold ret at 1.
    rewrite (IH (t + readingsOf c) (acc ++ [conversationToJson c])%list).
    + now rewrite <- app_assoc.
    + intros e He. apply I. now right.
Qed.

(** *** Sorting by identifier *)

Lemma compareIds_conversations (a b : Conversation) :
  ChatManager.compareIds (conversationToJson a) (conversationToJson b)
  = Ok (Some (id b - id a)%Z).
Proof. reflexivity. Qed.

Lemma insertSorted_conversations (c : Conversation) (l : list Conversation) :
  insertSorted ChatManager.compareIds (conversationToJson c)
    (map conversationToJson l)
  = Ok (map conversationToJson (insertById c l)).
Proof.
  induction l as [|d l IH]; [reflexivity|].
  cbn [map insertSorted insertById]. rewrite compareIds_conversations.
  destruct (id d - id c <=? 0)%Z; [reflexivity|]. now rewrite IH.
Qed.

Lemma sort_conversations (l : list Conversation) :
  arraySort ChatManager.compareIds (map conversationToJson l)
  = Ok (map conversationToJson (sortByIdDesc l)).
Proof.
  induction l as [|c l IH]; [reflexivity|].
  cbn [map arraySort sortByIdDesc]. rewrite IH.
  apply insertSorted_conversations.
Qed.

Lemma insertById_perm (c : Conversation) (l : list Conversation) :
  Permutation (insertById c l) (c :: l).
Proof.
  induction l as [|d l IH]; [reflexivity|].
  cbn [insertById]. destruct (id d - id c <=? 0)%Z; [reflexivity|].
  rewrite IH. apply perm_swap.
Qed.

Lemma sortByIdDesc_perm (l : list Conversation) :
  Permutation (sortByIdDesc l) l.
Proof.
  induction l as [|c l IH]; [reflexivity|].
  cbn [sortByIdDesc]. rewrite insertById_perm. now constructor.
Qed.

Lemma insertById_sorted (c : Conversation) (l : list Conversation) :
  StronglySorted (fun a b => (id b <= id a)%Z) l ->
  StronglySorted (fun a b => (id b <= id a)%Z) (insertById c l).
Proof.
  induction 1 as [|d l Sl IH Hd].
  - repeat constructor.
  - cbn [insertById]. destruct (Z.leb_spec (id d - id c) 0).
    + constructor; [now constructor|].
      constructor; [lia|].
      eapply Forall_impl; [|exact Hd]. simpl. intros; lia.
    + constructor; [exact IH|].
      rewrite insertById_perm. constructor; [lia|exact Hd].
Qed.

Lemma sortByIdDesc_sorted (l : list Conversation) :
  StronglySorted (fun a b => (id b <= id a)%Z) (sortByIdDesc l).
Proof.
  induction l as [|c l IH]; [constructor|].
  cbn [sortByIdDesc]. now apply insertById_sorted.
Qed.

(** What [loadChatHistory] returns on a root made of entries that are no
    conversation directories followed by persisted directories. *)
Lemma loadChatHistory_persisted (R0 : list (string * node))
  (l : list Conversation) (clk : nat -> Z) (t : nat) (w : World) :
  storage w = Some (Dir (R0 ++ savedDirs l clk t)%list) ->
  NoDup (map fst (R0 ++ savedDirs l clk t)%list) ->
  Forall (fun e => isConversationDir e = false) R0 ->
  ChatManager.loadChatHistory w
  = (Ok (map conversationToJson (sortByIdDesc l)), w).
Proof.
  intros S ND F. unfold ChatManager.loadChatHistory. apply tryCatch_ok.
  unfold bind at 1. unfold existsSync at 1.
  unfold ChatManager.chatHistoryDir at 1. rewrite lookup_nil, S. cbn [negb].
  unfold bind at 1. unfold readdirSync at 1.
  unfold ChatManager.chatHistoryDir at 1. rewrite lookup_nil, S.
  unfold bind at 1.
  rewrite (filterM_conversationDirs _ (R0 ++ savedDirs l clk t)%list w S ND
             (incl_refl _)).
  rewrite filter_app, (filter_none _ _ F), savedDirs_all_conversationDirs.
  cbn [app]. unfold bind at 1.
  rewrite (load_loop _ clk w l S ND t []
             (incl_appr _ (incl_refl _))).
  cbn [app]. unfold liftResult. now rewrite sort_conversations.
Qed.

(** ** The persistence round trip (claims C1 and C2) *)

Lemma NoDup_filter_fst {A : Type} (f : string * A -> bool)
  (l : list (string * A)) :
  NoDup (map fst l) -> NoDup (map fst (filter f l)).
Proof.
  induction l as [|[k v] l IH]; intros ND; [constructor|].
  inversion ND as [|? ? Nk NDl]; subst. cbn [filter].
  destruct (f (k, v)); [|now apply IH].
  cbn [map fst]. constructor; [|now apply IH].
  intros I. apply Nk. apply in_map_iff in I. destruct I as ([k' v'] & E & I).
  apply filter_In in I. simpl in E. subst k'.
  apply in_map_iff. exists (k, v'). split; [reflexivity|apply I].
Qed.

Lemma NoDup_conversationDirs (l : list Conversation) :
  NoDup (map id l) ->
  NoDup (map (fun c => ChatManager.conversationDirOf (id c)) l).
Proof.
  induction l as [|c l IH]; intros ND; [constructor|].
  inversion ND as [|? ? Nc NDl]; subst. cbn [map].
  constructor; [|now apply IH].
  intros I. apply in_map_iff in I. destruct I as (c' & E & I).
  apply conversationDirOf_inj in E. apply Nc. rewrite <- E. now apply in_map.
Qed.

(** The root a persist leaves behind has distinct names. *)
Lemma persisted_root_NoDup (o : option node) (l : list Conversation)
  (clk : nat -> Z) (t : nat) :
  storageReady o l -> NoDup (map id l) ->
  NoDup (map fst
           (filter (fun e => negb (isConversationDir e)) (rootEntries o)
            ++ savedDirs l clk t)%list).
Proof.
  intros SR ND. rewrite map_app, savedDirs_names.
  apply NoDup_app.
  - destruct o as [[d|R]|]; cbn [rootEntries]; try constructor.
    apply NoDup_filter_fst, SR.
  - now apply NoDup_conversationDirs.
  - intros name I1 I2. apply in_map_iff in I2. destruct I2 as (c & <- & Ic).
    destruct o as [[d|R]|]; cbn [rootEntries] in I1; try contradiction.
    pose proof (cleared_root_free R l SR c Ic) as N.
    apply assoc_none_not_in in N. contradiction.
Qed.

(** Where a persisted conversation ends up. *)
Lemma savedDirs_assoc (l : list Conversation) (clk : nat -> Z) :
  forall (t : nat) (c : Conversation),
    NoDup (map id l) -> In c l ->
    exists t',
      t <= t' /\ t' + readingsOf c <= t + readingsOfAll l /\
      assoc (ChatManager.conversationDirOf (id c)) (savedDirs l clk t)
      = Some (savedDir c clk t').
Proof.
  induction l as [|d l IH]; intros t c ND I; [destruct I|].
  inversion ND as [|? ? Nd NDl]; subst. cbn [savedDirs assoc readingsOfAll].
  destruct I as [->|I].
  - rewrite String.eqb_refl. exists t. repeat split; lia.
  - destruct (String.eqb_spec (ChatManager.conversationDirOf (id c))
                (ChatManager.conversationDirOf (id d))) as [E|_].
    + exfalso. apply Nd. apply conversationDirOf_inj in E. rewrite <- E.
      now apply in_map.
    + destruct (IH (t + readingsOf d) c NDl I) as (t' & B1 & B2 & A).
      exists t'. repeat split; [lia|lia|exact A].
Qed.

Lemma persisted_conversation_dir (l : list Conversation) (w : World)
  (c : Conversation) :
  storageReady (storage w) l -> NoDup (map id l) -> In c l ->
  exists t',
    tick w <= t' /\
    t' + readingsOf c <= tick (snd (ChatManager.saveChatHistory l w)) /\
    Fs.lookup [ChatManager.conversationDirOf (id c)]
      (storage (snd (ChatManager.saveChatHistory l w)))
    = Some (savedDir c (clock w) t').
Proof.
  intros SR ND I. rewrite (saveChatHistory_spec l w SR ND).
  cbn [snd storage tick].
  destruct (savedDirs_assoc l (clock w) (tick w) c ND I) as (t' & B1 & B2 & A).
  exists t'. repeat split; [exact B1|exact B2|].
  rewrite lookup_cons, lookup_nil, assoc_app_none; [exact A|].
  destruct (storage w) as [[d|R]|]; cbn [rootEntries]; try reflexivity.
  apply (cleared_root_free R l SR c I).
Qed.

Lemma persisted_conversation_dirs (l : list Conversation) (w : World)
  (name : string) :
  storageReady (storage w) l -> NoDup (map id l) ->
  isConversationDirName (storage (snd (ChatManager.saveChatHistory l w))) name
  <-> In name (map (fun c => ChatManager.conversationDirOf (id c)) l).
Proof.
  intros SR ND. split.
  - intros [P [es L]]. rewrite (saveChatHistory_spec l w SR ND) in L.
    cbn [snd storage] in L. rewrite lookup_cons, lookup_nil in L.
    apply assoc_in, in_app_or in L. destruct L as [L|L].
    + apply filter_In in L. destruct L as [_ L].
      unfold isConversationDir in L. cbn [fst snd] in L.
      rewrite P in L. discriminate.
    + rewrite <- (savedDirs_names l (clock w) (tick w)).
      apply (in_map fst) in L. exact L.
  - intros I. apply in_map_iff in I. destruct I as (c & <- & Ic).
    split; [apply conversationDirOf_prefix|].
    destruct (persisted_conversation_dir l w c SR ND Ic) as (t' & _ & _ & L).
    rewrite L. unfold savedDir. eauto.
Qed.

Lemma assoc_filter_kept {A : Type} (f : string * A -> bool) (k : string)
  (x : A) (l : list (string * A)) :
  NoDup (map fst l) -> assoc k l = Some x -> f (k, x) = true ->
  assoc k (filter f l) = Some x.
Proof.
  intros ND A0 F. apply assoc_nodup.
  - now apply NoDup_filter_fst.
  - apply filter_In. split; [now apply assoc_in|exact F].
Qed.

(** C1, as the code has it.  For every list of conversations with
    pairwise distinct identifiers, on a storage root that is absent or is
    a directory in which no regular file bears the directory name of a
    conversation of the list: persisting the list (after a first load)
    succeeds; the next load returns exactly the bodies of the list,
    ordered by identifier, newest first, which is a permutation of the
    list; the conversation directories under the storage root are exactly
    those of the list, so that those of an earlier generation are gone;
    and every other entry of the root, with all below it, is kept. *)
Theorem persist_load_roundtrip (l : list Conversation) (w : World) :
  NoDup (map id l) ->
  storageReady (storage w) l ->
  let w0 := snd (MainJs.loadChatHistory w) in
  let w1 := snd (MainJs.saveChatHistory l w0) in
  fst (MainJs.saveChatHistory l w0) = Ok tt /\
  fst (MainJs.loadChatHistory w1)
  = Ok (map conversationToJson (sortByIdDesc l)) /\
  Permutation (sortByIdDesc l) l /\
  StronglySorted (fun a b => (id b <= id a)%Z) (sortByIdDesc l) /\
  (forall name,
     isConversationDirName (storage w1) name
     <-> In name (map (fun c => ChatManager.conversationDirOf (id c)) l)) /\
  (forall name x,
     Fs.lookup [name] (storage w) = Some x ->
     isConversationDir (name, x) = false ->
     forall q,
       Fs.lookup (name :: q) (storage w1) = Fs.lookup (name :: q) (storage w)).
Proof.
  intros ND SR w0 w1.
  assert (E0 : w0 = w) by apply loadChatHistory_readOnly.
  subst w1. rewrite E0. clear w0 E0.
  unfold MainJs.saveChatHistory, MainJs.loadChatHistory.
  split; [now rewrite (saveChatHistory_spec l w SR ND)|].
  split.
  - rewrite (saveChatHistory_spec l w SR ND). cbn [snd].
    rewrite (loadChatHistory_persisted
               (filter (fun e => negb (isConversationDir e))
                  (rootEntries (storage w)))
               l (clock w) (tick w)).
    + reflexivity.
    + reflexivity.
    + now apply persisted_root_NoDup.
    + apply kept_entries_no_conversationDir.
  - split; [apply sortByIdDesc_perm|].
    split; [apply sortByIdDesc_sorted|].
    split; [intros name; now apply persisted_conversation_dirs|].
    intros name x L C q. rewrite (saveChatHistory_spec l w SR ND).
    cbn [snd storage].
    destruct (storage w) as [[f|R]|] eqn:S;
      try (rewrite lookup_cons in L; discriminate).
    rewrite lookup_cons, lookup_nil in L. cbn [rootEntries].
    rewrite !lookup_cons.
    rewrite (assoc_app_some name x); [now rewrite L|].
    apply assoc_filter_kept; [apply SR|exact L|].
    now rewrite C.
Qed.

(** C1, the theorem at a concrete list and storage root: a stray file
    stays, the directory of the earlier generation goes. *)
Lemma persist_load_roundtrip_witness :
  let l := [helloConversation; recipeConversation] in
  let w := worldAt earlierStorage 100 in
  (NoDup (map id l) /\ storageReady (storage w) l) /\
  let w0 := snd (MainJs.loadChatHistory w) in
  let w1 := snd (MainJs.saveChatHistory l w0) in
  fst (MainJs.saveChatHistory l w0) = Ok tt /\
  fst (MainJs.loadChatHistory w1)
  = Ok (map conversationToJson (sortByIdDesc l)) /\
  Permutation (sortByIdDesc l) l /\
  StronglySorted (fun a b => (id b <= id a)%Z) (sortByIdDesc l) /\
  (forall name,
     isConversationDirName (storage w1) name
     <-> In name (map (fun c => ChatManager.conversationDirOf (id c)) l)) /\
  (forall name x,
     Fs.lookup [name] (storage w) = Some x ->
     isConversationDir (name, x) = false ->
     forall q,
       Fs.lookup (name :: q) (storage w1) = Fs.lookup (name :: q) (storage w)).
Proof.
  assert (ND : NoDup (map id [helloConversation; recipeConversation])).
  { repeat constructor; simpl; intuition discriminate. }
  assert (SR : storageReady (storage (worldAt earlierStorage 100))
                 [helloConversation; recipeConversation]).
  { split.
    - repeat constructor; simpl; intuition discriminate.
    - intros c data [<-|[<-|[]]]; vm_compute; discriminate. }
  split; [split; assumption|].
  exact (persist_load_roundtrip [helloConversation; recipeConversation]
           (worldAt earlierStorage 100) ND SR).
Defined.

(** C1, the counterexample.  Conversation 1 followed by conversation 2 is
    persisted and loaded again: the load returns conversation 2 first, so
    what comes back is not the list that went in, but the list reordered
    by identifier. *)
Lemma persist_load_reorders :
  let l := [helloConversation; recipeConversation] in
  fst (MainJs.loadChatHistory
         (snd (MainJs.saveChatHistory l
                 (snd (MainJs.loadChatHistory (worldAt None 0))))))
  = Ok [conversationToJson recipeConversation;
        conversationToJson helloConversation]
  /\ [conversationToJson recipeConversation;
      conversationToJson helloConversation]
     <> map conversationToJson l.
Proof. split; [vm_compute; reflexivity|discriminate]. Qed.

(** The identifier is the key of a conversation: two conversations that
    bear one identifier are persisted into one directory, and the load
    that follows returns the second only.  Hence the hypothesis of
    distinct identifiers. *)
Lemma persist_drops_conversation_of_same_id :
  fst (MainJs.loadChatHistory
         (snd (MainJs.saveChatHistory
                 [helloConversation; clashingConversation]
                 (snd (MainJs.loadChatHistory (worldAt None 0))))))
  = Ok [conversationToJson clashingConversation].
Proof. vm_compute. reflexivity. Qed.

(** A regular file that bears a conversation directory name blocks the
    persist of that conversation and of all that follow it. *)
Lemma persist_blocked_by_file :
  fst (MainJs.loadChatHistory
         (snd (MainJs.saveChatHistory [helloConversation; recipeConversation]
                 (worldAt (Some (Dir [("chat_1", File "x")])) 0))))
  = Ok [].
Proof. vm_compute. reflexivity. Qed.

(** Every metadata record a persist leaves behind is written from
    scratch: it holds the seven fields of the repository and nothing that
    was in the record before. *)
Lemma persist_rewrites_metadata (l : list Conversation) (w : World)
  (c : Conversation) :
  storageReady (storage w) l -> NoDup (map id l) -> In c l ->
  exists t',
    readMetadata (storage (snd (ChatManager.saveChatHistory l w))) (id c)
    = Some (freshMetadata c (clock w) t').
Proof.
  intros SR ND I.
  destruct (persisted_conversation_dir l w c SR ND I) as (t' & _ & _ & L).
  exists t'. unfold readMetadata.
  change [ChatManager.conversationDirOf (id c); "metadata.json"]
    with ([ChatManager.conversationDirOf (id c)] ++ ["metadata.json"])%list.
  rewrite lookup_app, L. unfold savedDir.
  rewrite lookup_cons. cbn [assoc String.eqb Ascii.eqb Bool.eqb].
  rewrite lookup_nil, parse_stringify2; [reflexivity|].
  unfold freshMetadata. cbn [wfJson map fst snd fold_right].
  split; [|repeat split]. repeat constructor; simpl; intuition discriminate.
Qed.

(** C2.  Conversation 1 is on disk, classified [recipe], with the
    caller-defined field [foo] in its metadata record.  Persisting the
    conversation again leaves a record without [foo], classified
    [chat]. *)
Theorem persist_loses_caller_fields :
  let w := worldAt annotatedStorage 10 in
  let w1 := snd (MainJs.saveChatHistory [helloConversation] w) in
  metadataField (storage w) 1 "foo" = Some (JStr "bar") /\
  metadataField (storage w) 1 "projectType" = Some (JStr "recipe") /\
  fst (MainJs.saveChatHistory [helloConversation] w) = Ok tt /\
  metadataField (storage w1) 1 "foo" = None /\
  metadataField (storage w1) 1 "projectType" = Some (JStr "chat").
Proof. vm_compute. repeat split. Qed.

(** ** What the parser returns is well formed *)

Lemma assign_keys_in {A : Type} (k k0 : string) (v : A)
  (l : list (string * A)) :
  In k0 (map fst (assign k v l)) -> k0 = k \/ In k0 (map fst l).
Proof.
  induction l as [|[k' v'] l IH]; simpl.
  - intros [<-|[]]. now left.
  - destruct (String.eqb_spec k k'); simpl.
    + intros [<-|I]; [now left|]. right. now right.
    + intros [<-|I]; [right; now left|].
      destruct (IH I); [now left|right; now right].
Qed.

Lemma wfFields_assign (k : string) (v : json) (l : list (string * json)) :
  wfJson v -> wfFields l -> wfFields (assign k v l).
Proof.
  intros Wv. unfold wfFields.
  induction l as [|[k' v'] l IH]; simpl.
  - intros _. split; [repeat constructor; intros []|tauto].
  - intros [ND [Wv' Wl]]. inversion ND as [|? ? Nk NDl]; subst.
    destruct (String.eqb_spec k k') as [->|N]; simpl.
    + split; [now constructor|tauto].
    + destruct (IH (conj NDl Wl)) as [ND' Wl'].
      split; [|tauto]. constructor; [|exact ND'].
      intros I. apply assign_keys_in in I. destruct I; congruence.
Qed.

Lemma wfJson_JObj (fields : list (string * json)) :
  wfJson (JObj fields) <-> wfFields fields.
Proof. reflexivity. Qed.

(** What is recognised outside the fragment has no value. *)
Lemma taint_not_ok {A B : Type} (r : Json.presult A) (b : B)
  (rest : string) :
  Json.taint r = POk b rest -> False.
Proof. destruct r; discriminate. Qed.

Lemma exponent_not_ok (s : string) (v : json) (rest : string) :
  Json.exponent s = POk v rest -> False.
Proof.
  unfold Json.exponent.
  match goal with |- context [Json.digits1 ?x] =>
    destruct (Json.digits1 x) end; discriminate.
Qed.

Lemma fractionOrExponent_not_ok (s : string) (v : json) (rest : string) :
  Json.fractionOrExponent s = POk v rest -> False.
Proof.
  unfold Json.fractionOrExponent. destruct s as [|c r]; [discriminate|].
  destruct (Ascii.eqb c "."); [|apply exponent_not_ok].
  destruct (Json.digits1 r) as [[|e r1]|]; try discriminate.
  destruct (Ascii.eqb e "e" || Ascii.eqb e "E");
    [apply exponent_not_ok|discriminate].
Qed.

Ltac no_value :=
  try discriminate;
  try (cbn [Json.pbind];
       let H := fresh in intros H; destruct (taint_not_ok _ _ _ H)).

Lemma endOfInt_wf (n : Z) (s : string) (v : json) (rest : string) :
  Json.endOfInt n s = POk v rest -> wfJson v.
Proof.
  unfold Json.endOfInt. destruct s as [|c s].
  - intros [= <- _]. exact I.
  - destruct (Ascii.eqb c "." || Ascii.eqb c "e" || Ascii.eqb c "E").
    + intros H. destruct (fractionOrExponent_not_ok _ _ _ H).
    + intros [= <- _]. exact I.
Qed.

Lemma parseNat_wf (sg : Z) (s : string) (v : json) (rest : string) :
  Json.parseNat sg s = POk v rest -> wfJson v.
Proof.
  unfold Json.parseNat. destruct s as [|c s]; [discriminate|].
  destruct (Ascii.eqb c "0"); [apply endOfInt_wf|].
  destruct (Json.isDigit c); [|discriminate].
  destruct (Json.digits (Json.digitVal c) s). apply endOfInt_wf.
Qed.

Lemma expect_wf (lit : string) (v0 : json) (s : string) (v : json)
  (rest : string) :
  wfJson v0 -> Json.expect lit v0 s = POk v rest -> wfJson v.
Proof.
  unfold Json.expect. intros W. destruct (startsWith s lit); [|discriminate].
  now intros [= <- _].
Qed.

Lemma parse_results_wf (fuel : nat) :
  (forall s v rest, Json.parseValue fuel s = POk v rest -> wfJson v) /\
  (forall s vs rest,
     Json.parseElements fuel s = POk vs rest ->
     fold_right (fun x acc => wfJson x /\ acc) True vs) /\
  (forall acc s fields rest,
     wfFields acc ->
     Json.parseMembers fuel acc s = POk fields rest -> wfFields fields).
Proof.
  induction fuel as [|fuel (IHv & IHe & IHm)];
    [repeat split; intros; discriminate|].
  split; [|split].
  - intros s v rest. cbn [Json.parseValue].
    destruct (Json.skipWs s) as [|c r]; [discriminate|].
    destruct (Ascii.eqb c "n"); [now apply expect_wf|].
    destruct (Ascii.eqb c "t"); [now apply expect_wf|].
    destruct (Ascii.eqb c "f"); [now apply expect_wf|].
    destruct (Ascii.eqb c DQ).
    { destruct (Json.parseStringBody r); no_value.
      now intros [= <- _]. }
    destruct (Ascii.eqb c "-"); [apply parseNat_wf|].
    destruct (Json.isDigit c); [apply parseNat_wf|].
    destruct (Ascii.eqb c "[").
    { assert (E : forall r1,
        Json.pbind [] (Json.parseElements fuel r1)
          (fun items rest0 => POk (JArr items) rest0) = POk v rest ->
        wfJson v).
      { intros r1. destruct (Json.parseElements fuel r1) as [vs rest0| | |] eqn:P;
          no_value.
        intros [= <- _]. apply (IHe _ _ _ P). }
      destruct (Json.skipWs r) as [|c1 r1]; [apply E|].
      destruct c1 as [[] [] [] [] [] [] [] []]; try apply E.
      now intros [= <- _]. }
    destruct (Ascii.eqb c "{"); [|discriminate].
    assert (E : forall r1,
      Json.pbind [] (Json.parseMembers fuel [] r1)
        (fun fields rest0 => POk (JObj fields) rest0) = POk v rest ->
      wfJson v).
    { intros r1.
      destruct (Json.parseMembers fuel [] r1) as [fs rest0| | |] eqn:P;
        no_value.
      intros [= <- _]. apply wfJson_JObj.
      apply (IHm [] _ _ _ (conj (NoDup_nil _) I) P). }
    destruct (Json.skipWs r) as [|c1 r1]; [apply E|].
    destruct c1 as [[] [] [] [] [] [] [] []]; try apply E.
    intros [= <- _]. split; [constructor|exact I].
  - intros s vs rest. cbn [Json.parseElements].
    destruct (Json.parseValue fuel s) as [v rest0| | |] eqn:P; no_value.
    cbn [Json.pbind]. pose proof (IHv _ _ _ P) as Wv.
    assert (E1 : forall r1,
      Json.pbind [] (Json.parseElements fuel r1)
        (fun vs0 rest1 => POk (v :: vs0) rest1) = POk vs rest ->
      fold_right (fun x acc => wfJson x /\ acc) True vs).
    { intros r1.
      destruct (Json.parseElements fuel r1) as [vs0 rest1| | |] eqn:Q;
        no_value.
      intros [= <- _]. split; [exact Wv|apply (IHe _ _ _ Q)]. }
    destruct (Json.skipWs rest0) as [|c1 r1]; [discriminate|].
    destruct c1 as [[] [] [] [] [] [] [] []]; try discriminate;
      try apply E1.
    intros [= <- _]. split; [exact Wv|exact I].
  - intros acc s fields rest Wacc. cbn [Json.parseMembers].
    destruct (Json.skipWs s) as [|c r]; [discriminate|].
    destruct (Ascii.eqb c DQ); [|discriminate].
    destruct (Json.parseStringBody r) as [key rest0| | |]; no_value.
    cbn [Json.pbind].
    assert (E2 : forall rest1,
      Json.pbind JNull (Json.parseValue fuel rest1)
        (fun v rest2 =>
           match Json.skipWs rest2 with
           | String "," rest3 =>
               Json.parseMembers fuel (assign key v acc) rest3
           | String "}" rest3 => POk (assign key v acc) rest3
           | _ => PErr
           end) = POk fields rest ->
      wfFields fields).
    { intros rest1.
      destruct (Json.parseValue fuel rest1) as [v rest2| | |] eqn:P;
        no_value.
      cbn [Json.pbind]. pose proof (IHv _ _ _ P) as Wv.
      pose proof (wfFields_assign key v acc Wv Wacc) as W'.
      destruct (Json.skipWs rest2) as [|c1 r1]; [discriminate|].
      destruct c1 as [[] [] [] [] [] [] [] []]; try discriminate;
        first [apply (IHm _ _ _ _ W')|now intros [= <- _]]. }
    destruct (Json.skipWs rest0) as [|c1 r1]; [discriminate|].
    destruct c1 as [[] [] [] [] [] [] [] []]; try discriminate.
    apply E2.
Qed.

(** Every value [JSON.parse] returns is well formed. *)
Lemma parse_wf (s : string) (v : json) : Json.parse s = Ok v -> wfJson v.
Proof.
  unfold Json.parse.
  destruct (Json.parseValue (2 * String.length s + 2) s) as [v0 rest| | |] eqn:P;
    try discriminate; [|now destruct (Json.skipWs rest)].
  destruct (Json.skipWs rest); [|discriminate].
  intros [= <-].
  apply (proj1 (parse_results_wf _) _ _ _ P).
Qed.

(** ** Initialization (claim C5) *)

Lemma forEach_establish {A : Type} (Inv G : World -> Prop) (x0 : A)
  (f : A -> M unit) (l : list A) :
  (forall x w,
     In x l -> Inv w ->
     exists w', f x w = (Ok tt, w') /\ Inv w'
                /\ (G w -> G w') /\ (x = x0 -> G w')) ->
  In x0 l ->
  forall w, Inv w ->
    exists w', forEach l f w = (Ok tt, w') /\ Inv w' /\ G w'.
Proof.
  intros Step.
  assert (Keep : forall l', incl l' l -> forall w, Inv w -> G w ->
            exists w', forEach l' f w = (Ok tt, w') /\ Inv w' /\ G w').
  { induction l' as [|x l' IH]; intros Sub w Iw Gw.
    - exists w. now repeat split.
    - destruct (Step x w (Sub x (or_introl eq_refl)) Iw)
        as (w1 & E & I1 & K & _).
      destruct (IH (fun y Hy => Sub y (or_intror Hy)) w1 I1 (K Gw))
        as (w2 & E2 & I2 & G2).
      exists w2. cbn [forEach]. unfold bind. rewrite E. now repeat split. }
  assert (Go : forall l', incl l' l -> In x0 l' -> forall w, Inv w ->
            exists w', forEach l' f w = (Ok tt, w') /\ Inv w' /\ G w').
  { induction l' as [|x l' IH]; intros Sub I0 w Iw; [destruct I0|].
    destruct (Step x w (Sub x (or_introl eq_refl)) Iw)
      as (w1 & E & I1 & K & Est).
    cbn [forEach]. unfold bind. rewrite E.
    destruct I0 as [->|I0].
    - apply (Keep l' (fun y Hy => Sub y (or_intror Hy)) w1 I1 (Est eq_refl)).
    - apply (IH (fun y Hy => Sub y (or_intror Hy)) I0 w1 I1). }
  intros I0 w Iw. apply (Go l (incl_refl l) I0 w Iw).
Qed.

Lemma assoc_remove_other {A : Type} (k k0 : string) (l : list (string * A)) :
  k0 <> k -> assoc k0 (remove k l) = assoc k0 l.
Proof.
  intros N. induction l as [|[k' v'] l IH]; simpl; [reflexivity|].
  destruct (String.eqb_spec k k'); simpl.
  - subst k'. destruct (String.eqb_spec k0 k); [contradiction|reflexivity].
  - now rewrite IH.
Qed.

Lemma lookup_putAt_other_head (c c' : string) (p q : path)
  (n : option node) (o : option node) :
  c' <> c ->
  Fs.lookup (c' :: q) (putAt (c :: p) n o) = Fs.lookup (c' :: q) o.
Proof.
  intros N. cbn [putAt]. destruct o as [[d|es]|]; try reflexivity.
  destruct (putAt p n (assoc c es)); rewrite !lookup_cons.
  - now rewrite assoc_assign_other.
  - now rewrite assoc_remove_other.
Qed.

Lemma putAt_cons_some (c : string) (p : path) (n : option node) (x : node) :
  putAt (c :: p) n (Some x) <> None.
Proof.
  cbn [putAt]. destruct x as [d|es]; [discriminate|].
  now destruct (putAt p n (assoc c es)).
Qed.

Lemma lookup_head_putAt (g c m : string) (n : node) (o : option node) :
  Fs.lookup [g] o <> None ->
  Fs.lookup [g] (putAt [c; m] (Some n) o) <> None.
Proof.
  destruct (String.eqb_spec g c) as [->|N].
  - destruct o as [[d|es]|]; try (intros H; exact H).
    rewrite lookup_cons, lookup_nil. intros H.
    destruct (assoc c es) as [x|] eqn:E; [|congruence].
    cbn [putAt]. rewrite E.
    destruct x as [d|es0];
      rewrite lookup_cons, lookup_nil, assoc_assign_same; discriminate.
  - now rewrite (lookup_putAt_other_head c g [m] [] (Some n) o N).
Qed.

Lemma writeFileSync_existing (p : path) (data text : string) (w : World) :
  Fs.lookup p (storage w) = Some (File text) ->
  writeFileSync p data w
  = (Ok tt, withStorage w (putAt p (Some (File data)) (storage w))).
Proof.
  intros H. unfold writeFileSync, alterSync.
  now rewrite (alter_existing p _ _ (File text) (Some (File data)) H).
Qed.

(** One run of the backfill callback: it returns, and at most rewrites
    the metadata file of its directory. *)
Lemma backfillProjectType_step (file : string) (w : World) (x : node) :
  Fs.lookup [file] (storage w) = Some x ->
  ChatManager.backfillProjectType file w
  = (Ok tt,
     match (if startsWith file "chat_"
            then Fs.lookup [file; "metadata.json"] (storage w)
            else None) with
     | Some (File text) =>
         match Json.parse text with
         | Ok v =>
             match backfillOf v (clock w (tick w)) with
             | Some v' =>
                 mkWorld
                   (putAt [file; "metadata.json"]
                      (Some (File (Json.stringify2 v'))) (storage w))
                   (clock w) (S (tick w))
             | None => w
             end
         | Throw _ => w
         end
     | _ => w
     end).
Proof.
  intros L. unfold ChatManager.backfillProjectType. cbv zeta.
  change (ChatManager.path_join ChatManager.chatHistoryDir file) with [file].
  change (ChatManager.path_join [file] "metadata.json")
    with [file; "metadata.json"].
  unfold bind at 1. unfold statSync. rewrite L.
  assert (L2 : Fs.lookup [file; "metadata.json"] (storage w)
               = Fs.lookup ["metadata.json"] (Some x)).
  { change [file; "metadata.json"] with ([file] ++ ["metadata.json"])%list.
    now rewrite lookup_app, L. }
  destruct x as [d|es].
  - cbn [isDirectory andb]. rewrite L2, lookup_cons.
    now destruct (startsWith file "chat_").
  - cbn [isDirectory andb].
    destruct (startsWith file "chat_"); [|reflexivity].
    unfold bind at 1. unfold existsSync at 1.
    destruct (Fs.lookup [file; "metadata.json"] (storage w))
      as [[text|sub]|] eqn:LM; [| |reflexivity].
    + unfold tryCatch, bind at 1. unfold readFileSync at 1. rewrite LM.
      unfold bind at 1. unfold ChatManager.JSON_parse, liftResult at 1.
      destruct (Json.parse text) as [v|e]; [|reflexivity].
      destruct v as [|b|n|s|items|fields]; try reflexivity.
      * (* an array: the assignments leave its JSON value as it is *)
        cbn [backfillOf]. unfold bind at 1. unfold liftResult at 1.
        cbn [getProp truthy negb].
        unfold bind at 1. unfold liftResult at 1. cbn [setProp].
        unfold bind at 1. unfold Date_now at 1.
        unfold bind at 1. unfold liftResult at 1. cbn [setProp].
        rewrite (writeFileSync_existing _ _ text) by exact LM.
        reflexivity.
      * cbn [backfillOf]. unfold bind at 1. unfold liftResult at 1.
        cbn [getProp].
        destruct (truthy (assoc "projectType" fields)); [reflexivity|].
        cbn [negb].
        unfold bind at 1. unfold liftResult at 1. cbn [setProp].
        unfold bind at 1. unfold Date_now at 1.
        unfold bind at 1. unfold liftResult at 1. cbn [setProp].
        rewrite (writeFileSync_existing _ _ text) by exact LM.
        reflexivity.
    + unfold tryCatch, bind at 1. unfold readFileSync at 1. rewrite LM.
      reflexivity.
Qed.

Lemma backfilled_record (fields : list (string * json)) (now : Z)
  (text : string) :
  Json.parse text = Ok (JObj fields) ->
  Json.parse
    (Json.stringify2
       (JObj (assign "lastModified" (JNum now)
                (assign "projectType" (JStr "chat") fields))))
  = Ok (JObj (assign "lastModified" (JNum now)
                (assign "projectType" (JStr "chat") fields)))
  /\ truthy (assoc "projectType"
               (assign "lastModified" (JNum now)
                  (assign "projectType" (JStr "chat") fields))) = true.
Proof.
  intros P. split.
  - apply parse_stringify2.
    apply (proj2 (wfJson_JObj _)).
    apply wfFields_assign; [exact I|].
    apply wfFields_assign; [exact I|].
    exact (proj1 (wfJson_JObj fields) (parse_wf text _ P)).
  - rewrite assoc_assign_other by discriminate.
    now rewrite assoc_assign_same.
Qed.

(** The backfill loop gives the record of [name] a classification. *)
Lemma initializeDefaultProjectTypes_backfills (w : World) (name : string) :
  startsWith name "chat_" = true ->
  hasMetadataRecord (storage w) name ->
  exists w',
    ChatManager.initializeDefaultProjectTypes w = (Ok tt, w')
    /\ hasClassification (storage w') name.
Proof.
  intros P (text & fields & LM & PT).
  assert (Root : exists R, storage w = Some (Dir R)).
  { destruct (storage w) as [[d|R]|]; try (rewrite ?lookup_none in LM;
      discriminate); eauto. }
  destruct Root as (R & SR).
  assert (InName : In name (map fst R)).
  { destruct (assoc name R) eqn:E.
    - apply assoc_in, (in_map fst) in E. exact E.
    - rewrite SR, lookup_cons, E, lookup_none in LM. discriminate. }
  destruct (forEach_establish
              (fun w0 =>
                 (forall g, In g (map fst R) ->
                    Fs.lookup [g] (storage w0) <> None)
                 /\ hasMetadataRecord (storage w0) name)
              (fun w0 => hasClassification (storage w0) name)
              name ChatManager.backfillProjectType (map fst R))
    with (w := w) as (w' & E & _ & G).
  - (* one step *)
    intros x w0 Ix (Res & (text0 & fields0 & LM0 & PT0)).
    destruct (Fs.lookup [x] (storage w0)) as [nx|] eqn:Lx;
      [|exfalso; exact (Res x Ix Lx)].
    rewrite (backfillProjectType_step x w0 nx Lx).
    eexists. split; [reflexivity|].
    destruct (String.eqb_spec x name) as [->|Nx].
    + (* the directory of the record itself *)
      rewrite P, LM0, PT0. cbn [backfillOf].
      destruct (truthy (assoc "projectType" fields0)) eqn:T.
      * repeat split; try assumption; eauto.
        -- exists text0, fields0. auto.
        -- intros _. exists text0, fields0. auto.
      * destruct (backfilled_record fields0 (clock w0 (tick w0)) text0 PT0)
          as [RT TR].
        assert (New : hasClassification
                  (putAt [name; "metadata.json"]
                     (Some (File (Json.stringify2
                        (JObj (assign "lastModified"
                                 (JNum (clock w0 (tick w0)))
                                 (assign "projectType" (JStr "chat")
                                    fields0))))))
                     (storage w0)) name).
        { eexists. eexists. split; [|split; [exact RT|exact TR]].
          apply (lookup_putAt_same _ _ (File text0)), LM0. }
        cbn [storage]. repeat split; auto.
        -- intros g Ig. apply lookup_head_putAt. now apply Res.
        -- destruct New as (t1 & f1 & A & B & _). exists t1, f1. auto.
    + (* another directory *)
      assert (Frame : forall n,
        Fs.lookup [name; "metadata.json"]
          (putAt [x; "metadata.json"] (Some n) (storage w0))
        = Fs.lookup [name; "metadata.json"] (storage w0)).
      { intros n. apply lookup_putAt_other_head. congruence. }
      assert (Same :
        ((forall g, In g (map fst R) -> Fs.lookup [g] (storage w0) <> None)
         /\ hasMetadataRecord (storage w0) name)
        /\ (hasClassification (storage w0) name ->
            hasClassification (storage w0) name)
        /\ (x = name -> hasClassification (storage w0) name)).
      { split; [split; [exact Res|exists text0, fields0; auto]|].
        split; [auto|intros ->; contradiction]. }
      destruct (if startsWith x "chat_"
                then Fs.lookup [x; "metadata.json"] (storage w0)
                else None) as [[tx|sx]|]; try exact Same.
      destruct (Json.parse tx) as [vx|ex]; try exact Same.
      destruct (backfillOf vx (clock w0 (tick w0))) as [vx'|];
        try exact Same.
      cbn [storage]. repeat split.
      * intros g Ig. apply lookup_head_putAt. now apply Res.
      * exists text0, fields0. now rewrite Frame.
      * intros (t1 & f1 & A & B & C). exists t1, f1. now rewrite Frame.
      * congruence.
  - exact InName.
  - split.
    + intros g Ig. rewrite SR, lookup_cons, lookup_nil.
      intros N. apply assoc_none_not_in in N. contradiction.
    + exists text, fields. auto.
  - exists w'. split; [|exact G].
    unfold ChatManager.initializeDefaultProjectTypes.
    apply tryCatch_ok.
    unfold bind at 1. unfold existsSync at 1.
    unfold ChatManager.chatHistoryDir at 1. rewrite lookup_nil, SR.
    cbn [negb]. unfold bind at 1. unfold readdirSync at 1.
    unfold ChatManager.chatHistoryDir at 1. rewrite lookup_nil, SR.
    exact E.
Qed.

Lemma preservesFiles_forEach {A : Type} (f : A -> M unit) (l : list A) :
  (forall x, preservesFiles (f x)) -> preservesFiles (forEach l f).
Proof.
  intros H. induction l as [|x l IH]; cbn [forEach].
  - apply preservesFiles_ret.
  - apply preservesFiles_bind; [apply H|intros _; exact IH].
Qed.

Lemma createArtifactsDirectories_preservesFiles :
  preservesFiles ChatManager.createArtifactsDirectories.
Proof.
  unfold ChatManager.createArtifactsDirectories.
  apply preservesFiles_tryCatch; [|intro; apply preservesFiles_ret].
  apply preservesFiles_bind;
    [apply preservesFiles_readOnly, readOnly_existsSync|intro ex].
  apply preservesFiles_if; [apply preservesFiles_ret|].
  apply preservesFiles_bind;
    [apply preservesFiles_readOnly, readOnly_readdirSync|intro files].
  apply preservesFiles_forEach. intro file.
  apply preservesFiles_bind;
    [apply preservesFiles_readOnly, readOnly_statSync|intro stat].
  apply preservesFiles_if; [|apply preservesFiles_ret].
  apply preservesFiles_bind;
    [apply preservesFiles_readOnly, readOnly_existsSync|intro ex2].
  apply preservesFiles_if;
    [apply preservesFiles_mkdirSync|apply preservesFiles_ret].
Qed.

Lemma unit_result (m : M unit) (w : World) :
  neverThrows m -> m w = (Ok tt, snd (m w)).
Proof.
  intros N. destruct (N w) as [[] E].
  destruct (m w) as [r w']. simpl in *. now subst.
Qed.

(** Initialization returns; and every directory of the storage root whose
    name starts with [chat_] and whose [metadata.json] is a file holding
    a JSON object has, after initialization, a metadata record with a
    classification tag. *)
Lemma initChatHistory_classifies (w : World) (name : string) :
  startsWith name "chat_" = true ->
  hasMetadataRecord (storage w) name ->
  (exists l, fst (MainJs.initChatHistory w) = Ok l) /\
  hasClassification (storage (snd (MainJs.initChatHistory w))) name.
Proof.
  intros P H. split; [apply (neverThrows_tryCatch_ret _ [])|].
  unfold MainJs.initChatHistory, ChatManager.initChatHistory.
  assert (Ex : existsSync ChatManager.chatHistoryDir w = (Ok true, w)).
  { unfold existsSync, ChatManager.chatHistoryDir. rewrite lookup_nil.
    destruct H as (text & fields & LM & _).
    destruct (storage w); [reflexivity|].
    rewrite lookup_none in LM. discriminate. }
  pose proof (unit_result ChatManager.createArtifactsDirectories w
                (neverThrows_tryCatch_ret _ tt)) as C.
  set (w1 := snd (ChatManager.createArtifactsDirectories w)) in *.
  assert (H1 : hasMetadataRecord (storage w1) name).
  { destruct H as (text & fields & LM & PT). exists text, fields.
    split; [|exact PT].
    now apply createArtifactsDirectories_preservesFiles. }
  destruct (initializeDefaultProjectTypes_backfills w1 name P H1)
    as (w2 & E2 & G).
  pose proof (loadChatHistory_readOnly w2) as R.
  destruct (ChatManager.loadChatHistory w2) as [r3 w3] eqn:E3.
  simpl in R. subst w3.
  unfold tryCatch, bind. rewrite Ex. cbn [negb]. unfold ret at 1.
  rewrite C, E2, E3. destruct r3; exact G.
Qed.

(** C5, the counterexample.  After initialization the directory of
    conversation 2, which had no metadata record, still has none; and the
    record of conversation 3, which is not JSON, is as it was. *)
Lemma init_leaves_missing_record_missing :
  let o := storage (snd (MainJs.initChatHistory (worldAt legacyStorage 50))) in
  Fs.lookup ["chat_2"] o
  = Some (Dir [("conversation.json", File "{}"); ("artifacts", Dir [])]) /\
  Fs.lookup ["chat_2"; "metadata.json"] o = None /\
  Fs.lookup ["chat_3"; "metadata.json"] o = Some (File "not json") /\
  Json.parse "not json" = Throw SyntaxError.
Proof. vm_compute. repeat split. Qed.

(** The tag the backfill gives is the default one: the record of
    conversation 1, which had none, is classified [chat] afterwards. *)
Lemma init_backfills_default_classification :
  let w := worldAt legacyStorage 50 in
  metadataField (storage w) 1 "projectType" = None /\
  metadataField (storage (snd (MainJs.initChatHistory w))) 1 "projectType"
  = Some (JStr "chat").
Proof. vm_compute. repeat split. Qed.

(** ** The command processor (claim C4) *)

Lemma toLowerCase_app (a b : string) :
  toLowerCase (a ++ b) = toLowerCase a ++ toLowerCase b.
Proof. induction a; simpl; congruence. Qed.

Lemma lowerChar_white (c : ascii) :
  isWhiteSpace (lowerChar c) = isWhiteSpace c.
Proof. destruct c as [[] [] [] [] [] [] [] []]; reflexivity. Qed.

Lemma lowerChar_of_white (c : ascii) :
  isWhiteSpace c = true -> lowerChar c = c.
Proof.
  destruct c as [[] [] [] [] [] [] [] []]; try discriminate; reflexivity.
Qed.

Lemma toLowerCase_allWhite (ws : string) :
  allWhite ws = true -> toLowerCase ws = ws.
Proof.
  induction ws as [|c ws IH]; simpl; [reflexivity|].
  intros H. apply andb_true_iff in H. destruct H as [H1 H2].
  now rewrite (lowerChar_of_white c H1), IH.
Qed.

Lemma toLowerCase_trimStart (s : string) :
  toLowerCase (trimStart s) = trimStart (toLowerCase s).
Proof.
  induction s as [|c s IH]; simpl; [reflexivity|].
  rewrite lowerChar_white. now destruct (isWhiteSpace c).
Qed.

Lemma toLowerCase_trimEnd (s : string) :
  toLowerCase (trimEnd s) = trimEnd (toLowerCase s).
Proof.
  induction s as [|c s IH]; simpl; [reflexivity|].
  rewrite <- IH, lowerChar_white.
  destruct (trimEnd s); simpl; [now destruct (isWhiteSpace c)|reflexivity].
Qed.

(** Lower-casing and trimming commute. *)
Lemma toLowerCase_trim (s : string) :
  toLowerCase (trim s) = trim (toLowerCase s).
Proof.
  unfold trim. now rewrite toLowerCase_trimEnd, toLowerCase_trimStart.
Qed.

Lemma trimStart_allWhite (ws s : string) :
  allWhite ws = true -> trimStart (ws ++ s) = trimStart s.
Proof.
  induction ws as [|c ws IH]; simpl; [reflexivity|].
  intros H. apply andb_true_iff in H. destruct H as [H1 H2].
  rewrite H1. now apply IH.
Qed.

Lemma trimEnd_allWhite (ws : string) :
  allWhite ws = true -> trimEnd ws = "".
Proof.
  induction ws as [|c ws IH]; simpl; [reflexivity|].
  intros H. apply andb_true_iff in H. destruct H as [H1 H2].
  now rewrite (IH H2), H1.
Qed.

Lemma trimEnd_app_allWhite (b ws : string) :
  allWhite ws = true -> trimEnd (b ++ ws) = trimEnd b.
Proof.
  intros H. induction b as [|c b IH]; simpl.
  - now apply trimEnd_allWhite.
  - now rewrite IH.
Qed.

Lemma trimEnd_app (a b : string) :
  trimEnd b <> "" -> trimEnd (a ++ b) = a ++ trimEnd b.
Proof.
  intros N. induction a as [|c a IH]; simpl; [reflexivity|].
  rewrite IH. destruct (trimEnd b); [congruence|].
  now destruct a.
Qed.

(** The command is matched in any letter case and with any white space
    before the prefix, between prefix and token, and after the token. *)
Lemma directive_start_recipe (ws1 ws2 ws3 p s : string) :
  allWhite ws1 = true -> allWhite ws2 = true -> allWhite ws3 = true ->
  toLowerCase p = "dataknot:" -> toLowerCase s = "start recipe" ->
  directive (ws1 ++ p ++ ws2 ++ s ++ ws3) = Some "start recipe".
Proof.
  intros W1 W2 W3 P S.
  assert (T : toLowerCase (trim (ws1 ++ p ++ ws2 ++ s ++ ws3))
              = "dataknot:" ++ ws2 ++ "start recipe").
  { rewrite toLowerCase_trim, !toLowerCase_app, P, S.
    rewrite (toLowerCase_allWhite ws1 W1), (toLowerCase_allWhite ws2 W2),
      (toLowerCase_allWhite ws3 W3).
    unfold trim. rewrite (trimStart_allWhite ws1 _ W1).
    change (trimStart ("dataknot:" ++ ws2 ++ "start recipe" ++ ws3))
      with (("dataknot:" ++ ws2 ++ "start recipe" ++ ws3)).
    rewrite <- (append_assoc "dataknot:" ws2 ("start recipe" ++ ws3)).
    rewrite (trimEnd_app ("dataknot:" ++ ws2) ("start recipe" ++ ws3)).
    - rewrite (trimEnd_app_allWhite "start recipe" ws3 W3).
      now rewrite append_assoc.
    - rewrite (trimEnd_app_allWhite "start recipe" ws3 W3). discriminate. }
  unfold directive. cbv zeta. rewrite T.
  change (startsWith ("dataknot:" ++ ws2 ++ "start recipe") "dataknot:")
    with true. cbv iota.
  change (JsString.substring (String.length "dataknot:")
            ("dataknot:" ++ ws2 ++ "start recipe"))
    with (JsString.substring 0 (ws2 ++ "start recipe")).
  assert (Z0 : forall x, JsString.substring 0 x = x) by (now intros []).
  rewrite Z0. unfold trim. rewrite (trimStart_allWhite ws2 _ W2). reflexivity.
Qed.

Lemma assoc_assign_two (k1 k2 k : string) (v1 v2 : json)
  (l : list (string * json)) :
  k <> k1 -> k <> k2 ->
  assoc k (assign k1 v1 (assign k2 v2 l)) = assoc k l.
Proof.
  intros N1 N2. now rewrite !assoc_assign_other.
Qed.

(** The classification and the time a persist writes for a conversation
    depend on the conversation alone, not on what storage held before. *)
Lemma persisted_classification (l : list Conversation) (w : World)
  (c : Conversation) :
  storageReady (storage w) l -> NoDup (map id l) -> In c l ->
  let w1 := snd (ChatManager.saveChatHistory l w) in
  metadataField (storage w1) (id c) "projectType"
  = Some (JStr (if startRecipeRequested c then "recipe" else "chat"))
  /\ exists t,
       tick w <= t < tick w1
       /\ metadataField (storage w1) (id c) "lastModified"
          = Some (JNum (clock w t)).
Proof.
  intros SR ND I w1. subst w1.
  destruct (persisted_conversation_dir l w c SR ND I) as (t & C1 & C2 & L).
  assert (RM : readMetadata
                 (storage (snd (ChatManager.saveChatHistory l w))) (id c)
               = Some (freshMetadata c (clock w) t)).
  { unfold readMetadata.
    change [ChatManager.conversationDirOf (id c); "metadata.json"]
      with ([ChatManager.conversationDirOf (id c)]
            ++ ["metadata.json"])%list.
    rewrite lookup_app, L. unfold savedDir.
    rewrite lookup_cons. cbn [assoc String.eqb Ascii.eqb Bool.eqb].
    rewrite lookup_nil, parse_stringify2; [reflexivity|].
    unfold freshMetadata. cbn [wfJson map fst snd fold_right].
    split; [|repeat split].
    repeat constructor; simpl; intuition discriminate. }
  unfold metadataField. rewrite RM. unfold freshMetadata.
  split; [reflexivity|].
  unfold readingsOf in C2. cbn [assoc String.eqb Ascii.eqb Bool.eqb].
  destruct (startRecipeRequested c).
  - exists (S t). split; [lia|reflexivity].
  - exists t. split; [lia|reflexivity].
Qed.

(** C4.  During a persist, the trailing user message of a conversation
    decides what the command processing does to the metadata record.
    The command is the message that, trimmed and lower-cased, starts
    with the directive prefix and whose remainder, trimmed, is the token
    [start recipe]; it is matched in any letter case and with any
    surrounding white space.  On the command the processing sets the
    classification to [recipe] and the last-modified time to a fresh
    reading of the clock, leaving every other field alone, and the
    record the persist writes has that classification and a time read
    during the persist.  When the trailing user message is ASCII text
    and is not the command (another token after the prefix, or no
    prefix), and when there is no user message, the processing returns
    the record it is given as it is and throws nothing; the record the
    persist writes is then classified [chat], whatever classification
    storage held before. *)
Theorem dataknot_command_processing :
  (forall ws1 ws2 ws3 p s,
     allWhite ws1 = true -> allWhite ws2 = true -> allWhite ws3 = true ->
     toLowerCase p = "dataknot:" -> toLowerCase s = "start recipe" ->
     directive (ws1 ++ p ++ ws2 ++ s ++ ws3) = Some "start recipe") /\
  (forall c fields w,
     startRecipeRequested c = true ->
     exists fields',
       ChatManager.processDataKnotCommand c (JObj fields) w
       = (Ok (JObj fields'), mkWorld (storage w) (clock w) (S (tick w)))
       /\ assoc "projectType" fields' = Some (JStr "recipe")
       /\ assoc "lastModified" fields' = Some (JNum (clock w (tick w)))
       /\ forall k, k <> "lastModified" -> k <> "projectType" ->
                    assoc k fields' = assoc k fields) /\
  (forall l w c,
     NoDup (map id l) -> storageReady (storage w) l -> In c l ->
     startRecipeRequested c = true ->
     let w1 := snd (MainJs.saveChatHistory l w) in
     metadataField (storage w1) (id c) "projectType" = Some (JStr "recipe")
     /\ exists t,
          tick w <= t < tick w1
          /\ metadataField (storage w1) (id c) "lastModified"
             = Some (JNum (clock w t))) /\
  (forall c metadata w,
     trailingAscii c = true -> startRecipeRequested c = false ->
     ChatManager.processDataKnotCommand c metadata w = (Ok metadata, w)) /\
  (forall l w c,
     NoDup (map id l) -> storageReady (storage w) l -> In c l ->
     trailingAscii c = true -> startRecipeRequested c = false ->
     metadataField (storage (snd (MainJs.saveChatHistory l w))) (id c)
       "projectType" = Some (JStr "chat")) /\
  (forall c m token,
     trailingUserMessage c = Some m -> asciiOnly (content m) = true ->
     directive (content m) = Some token -> token <> "start recipe" ->
     trailingAscii c = true /\ startRecipeRequested c = false) /\
  (forall c m,
     trailingUserMessage c = Some m -> asciiOnly (content m) = true ->
     directive (content m) = None ->
     trailingAscii c = true /\ startRecipeRequested c = false) /\
  (forall c,
     trailingUserMessage c = None ->
     trailingAscii c = true /\ startRecipeRequested c = false).
Proof.
  split; [exact directive_start_recipe|].
  split.
  { intros c fields w Q. eexists. split;
      [apply (processDataKnotCommand_recognized c fields w Q)|].
    split; [|split].
    - rewrite assoc_assign_other by discriminate. apply assoc_assign_same.
    - apply assoc_assign_same.
    - intros k N1 N2. now apply assoc_assign_two. }
  split.
  { intros l w c ND SR I Q w1. subst w1. unfold MainJs.saveChatHistory.
    destruct (persisted_classification l w c SR ND I) as (P & T).
    rewrite Q in P. split; [exact P|exact T]. }
  split; [intros c metadata w _; apply processDataKnotCommand_other|].
  split.
  { intros l w c ND SR I _ Q. unfold MainJs.saveChatHistory.
    destruct (persisted_classification l w c SR ND I) as (P & _).
    now rewrite Q in P. }
  split.
  { intros c m token T A D N. unfold trailingAscii, startRecipeRequested.
    rewrite T, D. split; [exact A|now apply String.eqb_neq]. }
  split.
  { intros c m T A D. unfold trailingAscii, startRecipeRequested.
    rewrite T, D. split; [exact A|reflexivity]. }
  intros c T. unfold trailingAscii, startRecipeRequested. now rewrite T.
Qed.

(** C4, at concrete conversations: the command in mixed case with white
    space around it gives [recipe]; another token and a plain message do
    not. *)
Lemma dataknot_command_examples :
  directive "  DataKnot:   Start Recipe  " = Some "start recipe" /\
  directive "dataknot: frobnicate" = Some "frobnicate" /\
  directive "hello" = None /\
  startRecipeRequested recipeConversation = true /\
  startRecipeRequested helloConversation = false /\
  metadataField
    (storage (snd (MainJs.saveChatHistory
                     [helloConversation; recipeConversation]
                     (worldAt None 100))))
    2 "projectType" = Some (JStr "recipe").
Proof.
  do 5 (split; [reflexivity|]).
  apply (proj1 (proj1 (proj2 (proj2 dataknot_command_processing))
                  [helloConversation; recipeConversation] (worldAt None 100)
                  recipeConversation
                  ltac:(repeat constructor; simpl; intuition discriminate)
                  I (or_intror (or_introl eq_refl)) eq_refl)).
Defined.

(** C4, where it fails: conversation 1 is on disk classified [recipe];
    persisting it with a trailing directive of another token, or with a
    trailing message without the prefix, leaves it classified [chat]. *)
Lemma persist_resets_classification :
  let w := worldAt annotatedStorage 10 in
  metadataField (storage w) 1 "projectType" = Some (JStr "recipe") /\
  directive "dataknot: frobnicate" = Some "frobnicate" /\
  fst (MainJs.saveChatHistory [frobnicateConversation] w) = Ok tt /\
  metadataField
    (storage (snd (MainJs.saveChatHistory [frobnicateConversation] w)))
    1 "projectType" = Some (JStr "chat") /\
  directive "hello" = None /\
  metadataField
    (storage (snd (MainJs.saveChatHistory [helloConversation] w)))
    1 "projectType" = Some (JStr "chat").
Proof. vm_compute. repeat split. Qed.

(** * The rest of the class

    Properties of the methods the claims leave out, and of the claimed
    ones beyond what the claims say. *)

(** ** Loading from an arbitrary storage root *)

Lemma load_loop_general (E : list (string * node)) (w : World) :
  storage w = Some (Dir E) -> NoDup (map fst E) ->
  forall (es : list (string * node)) (acc : list json),
    incl es E ->
    Forall (fun e => isConversationDir e = true) es ->
    foldM (fun conversations dir =>
      tryCatch
        (ex <- existsSync
                 (ChatManager.path_join
                    (ChatManager.path_join ChatManager.chatHistoryDir dir)
                    "conversation.json") ;;
         if ex then
           data <- readFileSync
                     (ChatManager.path_join
                        (ChatManager.path_join ChatManager.chatHistoryDir
                           dir)
                        "conversation.json") ;;
           conversation <- ChatManager.JSON_parse data ;;
           ret (conversations ++ [conversation])%list
         else ret conversations)
        (fun error => ret conversations))
      (map fst es) acc w
    = (Ok (acc ++ flat_map bodyOf es)%list, w).
Proof.
  intros S ND.
  match goal with |- forall es acc, _ -> _ -> foldM ?f _ _ _ = _ =>
    set (cb := f) end.
  induction es as [|[d x] es IH]; intros acc I F.
  - simpl. unfold ret. now rewrite app_nil_r.
  - cbn [map fst foldM flat_map].
    assert (A : assoc d E = Some x).
    { apply (assoc_nodup _ _ _ ND). apply I. now left. }
    inversion F as [|? ? Fx Fes]; subst.
    unfold isConversationDir in Fx. cbn [fst snd] in Fx.
    destruct x as [data|sub]; [discriminate|].
    assert (L : Fs.lookup [d; "conversation.json"] (storage w)
                = assoc "conversation.json" sub).
    { rewrite S, lookup_cons, A, lookup_cons. apply lookup_nil. }
    assert (Rest : forall acc',
              foldM cb (map fst es) acc' w
              = (Ok (acc' ++ flat_map bodyOf es)%list, w)).
    { intros acc'. apply IH; [|exact Fes].
      intros e He. apply I. now right. }
    unfold bodyOf at 1. cbn [fst snd]. rewrite Fx.
    unfold bind at 1. unfold cb at 1. unfold tryCatch at 1.
    change (ChatManager.path_join
              (ChatManager.path_join ChatManager.chatHistoryDir d)
              "conversation.json") with [d; "conversation.json"].
    unfold bind at 1. unfold existsSync at 1. rewrite L.
    destruct (assoc "conversation.json" sub) as [[text|sub']|] eqn:C.
    + unfold bind at 1. unfold readFileSync at 1. rewrite L.
      unfold bind at 1. unfold ChatManager.JSON_parse, liftResult.
      destruct (Json.parse text) as [v|e].
      * unfold ret at 1. rewrite Rest. now rewrite <- app_assoc.
      * unfold ret at 1. rewrite Rest. reflexivity.
    + unfold bind at 1. unfold readFileSync at 1. rewrite L.
      unfold ret at 1. rewrite Rest. reflexivity.
    + unfold ret at 1. rewrite Rest. reflexivity.
Qed.

Lemma bodyOf_other (e : string * node) :
  isConversationDir e = false -> bodyOf e = [].
Proof.
  destruct e as [n [d|sub]]; unfold isConversationDir, bodyOf; cbn [fst snd];
    [reflexivity|]. now intros ->.
Qed.

Lemma flat_map_bodyOf_filter (E : list (string * node)) :
  flat_map bodyOf (filter isConversationDir E) = flat_map bodyOf E.
Proof.
  induction E as [|e E IH]; [reflexivity|]. cbn [filter flat_map].
  destruct (isConversationDir e) eqn:C.
  - cbn [flat_map]. now rewrite IH.
  - now rewrite (bodyOf_other e C), IH.
Qed.

Lemma filter_all_true {A : Type} (f : A -> bool) (l : list A) :
  Forall (fun x => f x = true) (filter f l).
Proof.
  apply Forall_forall. intros x H. now apply filter_In in H.
Qed.

(** What [loadChatHistory] returns on a root directory: the readable
    bodies, sorted; nothing when the sort throws. *)
Lemma loadChatHistory_spec (w : World) (E : list (string * node)) :
  storage w = Some (Dir E) -> NoDup (map fst E) ->
  ChatManager.loadChatHistory w
  = (Ok (match arraySort ChatManager.compareIds (flat_map bodyOf E) with
         | Ok r => r
         | Throw _ => []
         end), w).
Proof.
  intros S ND. unfold ChatManager.loadChatHistory.
  match goal with |- tryCatch ?m _ _ = _ =>
    assert (R : m w = (arraySort ChatManager.compareIds (flat_map bodyOf E),
                       w)) end.
  { unfold bind at 1. unfold existsSync at 1.
    unfold ChatManager.chatHistoryDir at 1. rewrite lookup_nil, S.
    cbn [negb]. unfold bind at 1. unfold readdirSync at 1.
    unfold ChatManager.chatHistoryDir at 1. rewrite lookup_nil, S.
    unfold bind at 1.
    rewrite (filterM_conversationDirs E E w S ND (incl_refl _)).
    unfold bind at 1.
    rewrite (load_loop_general E w S ND (filter isConversationDir E) []
               (incl_filter _ _) (filter_all_true _ _)).
    cbn [app]. now rewrite flat_map_bodyOf_filter. }
  destruct (arraySort ChatManager.compareIds (flat_map bodyOf E)) as [r|e].
  - now apply tryCatch_ok.
  - now rewrite (tryCatch_throw _ _ w w e R).
Qed.

Lemma loadChatHistory_no_directory (w : World) :
  (forall E, storage w <> Some (Dir E)) ->
  ChatManager.loadChatHistory w = (Ok [], w).
Proof.
  intros N. unfold ChatManager.loadChatHistory.
  destruct (storage w) as [[d|E]|] eqn:S.
  - match goal with |- tryCatch ?m _ _ = _ =>
      assert (R : m w = (Throw ENOTDIR, w)) end.
    { unfold bind at 1. unfold existsSync at 1.
      unfold ChatManager.chatHistoryDir at 1. rewrite lookup_nil, S.
      cbn [negb]. unfold bind at 1. unfold readdirSync at 1.
      unfold ChatManager.chatHistoryDir at 1. now rewrite lookup_nil, S. }
    now rewrite (tryCatch_throw _ _ w w ENOTDIR R).
  - exfalso. now apply (N E).
  - apply tryCatch_ok. unfold bind at 1. unfold existsSync at 1.
    unfold ChatManager.chatHistoryDir at 1. now rewrite lookup_nil, S.
Qed.

(** *** The sort, on arbitrary bodies *)

Lemma compareIds_ok (a b : json) :
  a <> JNull -> b <> JNull ->
  ChatManager.compareIds a b
  = Ok (match idNumber b, idNumber a with
        | Some x, Some y => Some (x - y)%Z
        | _, _ => None
        end).
Proof.
  intros Na Nb. unfold ChatManager.compareIds, idNumber.
  destruct a; try congruence; destruct b; try congruence; reflexivity.
Qed.

Lemma insertSorted_perm (x : json) (l : list json) :
  x <> JNull -> Forall (fun v => v <> JNull) l ->
  exists r, insertSorted ChatManager.compareIds x l = Ok r
            /\ Permutation r (x :: l).
Proof.
  intros Nx. induction l as [|y l IH]; intros F.
  - exists [x]. now split.
  - inversion F as [|? ? Ny Fl]; subst. cbn [insertSorted].
    rewrite (compareIds_ok x y Nx Ny).
    destruct (match
                 match idNumber y, idNumber x with
                 | Some a, Some b => Some (a - b)%Z
                 | _, _ => None
                 end
               with Some d => d | None => 0%Z end <=? 0)%Z.
    + exists (x :: y :: l). now split.
    + destruct (IH Fl) as (r & E & P). rewrite E.
      exists (y :: r). split; [reflexivity|].
      rewrite P. apply perm_swap.
Qed.

Lemma arraySort_perm (l : list json) :
  Forall (fun v => v <> JNull) l ->
  exists r, arraySort ChatManager.compareIds l = Ok r /\ Permutation r l.
Proof.
  induction l as [|x l IH]; intros F.
  - exists []. now split.
  - inversion F as [|? ? Nx Fl]; subst.
    destruct (IH Fl) as (r & E & P). cbn [arraySort]. rewrite E.
    assert (Fr : Forall (fun v => v <> JNull) r).
    { apply Forall_forall. intros v Hv.
      apply (proj1 (Forall_forall _ _) Fl).
      now apply (Permutation_in _ P). }
    destruct (insertSorted_perm x r Nx Fr) as (r' & E' & P').
    exists r'. split; [exact E'|]. rewrite P'. now constructor.
Qed.

Lemma idNumber_not_null (v : json) (n : Z) : idNumber v = Some n -> v <> JNull.
Proof. intros H ->. discriminate. Qed.

Lemma insertSorted_sorted (x : json) (l r : list json) :
  (exists n, idNumber x = Some n) ->
  Forall (fun v => exists n, idNumber v = Some n) l ->
  StronglySorted newerOrEqual l ->
  insertSorted ChatManager.compareIds x l = Ok r ->
  StronglySorted newerOrEqual r.
Proof.
  intros [nx Hx] F. revert r.
  induction l as [|y l IH]; intros r SS E.
  - injection E as <-. repeat constructor.
  - inversion F as [|? ? [ny Hy] Fl]; subst.
    inversion SS as [|? ? SSl Hall]; subst.
    cbn [insertSorted] in E.
    rewrite (compareIds_ok x y (idNumber_not_null x nx Hx)
               (idNumber_not_null y ny Hy)), Hx, Hy in E.
    destruct (ny - nx <=? 0)%Z eqn:C.
    + injection E as <-. constructor; [exact SS|].
      assert (XY : newerOrEqual x y).
      { exists nx, ny. repeat split; try assumption. lia. }
      constructor; [exact XY|].
      apply Forall_forall. intros z Hz.
      destruct (proj1 (Forall_forall _ _) Hall z Hz)
        as (a & b & Ha & Hb & Hab).
      exists nx, b. repeat split; try assumption.
      rewrite Hy in Ha. injection Ha as <-. lia.
    + destruct (insertSorted ChatManager.compareIds x l) as [r'|e] eqn:E';
        [|discriminate].
      injection E as <-.
      destruct (insertSorted_perm x l (idNumber_not_null x nx Hx)) as
        (r'' & E'' & P).
      { apply Forall_forall. intros v Hv.
        destruct (proj1 (Forall_forall _ _) Fl v Hv) as [n Hn].
        exact (idNumber_not_null v n Hn). }
      rewrite E' in E''. injection E'' as <-.
      constructor; [now apply IH|].
      apply Forall_forall. intros z Hz.
      apply (Permutation_in _ P) in Hz. destruct Hz as [<-|Hz].
      * exists ny, nx. repeat split; try assumption. lia.
      * exact (proj1 (Forall_forall _ _) Hall z Hz).
Qed.

Lemma arraySort_sorted (l r : list json) :
  Forall (fun v => exists n, idNumber v = Some n) l ->
  arraySort ChatManager.compareIds l = Ok r ->
  StronglySorted newerOrEqual r.
Proof.
  revert r. induction l as [|x l IH]; intros r F E.
  - injection E as <-. constructor.
  - inversion F as [|? ? Hx Fl]; subst. cbn [arraySort] in E.
    destruct (arraySort ChatManager.compareIds l) as [r0|e] eqn:E0;
      [|discriminate].
    assert (NN : Forall (fun v => v <> JNull) l).
    { apply Forall_forall. intros v Hv.
      destruct (proj1 (Forall_forall _ _) Fl v Hv) as [n Hn].
      exact (idNumber_not_null v n Hn). }
    destruct (arraySort_perm l NN) as (r1 & E1 & P).
    rewrite E0 in E1. injection E1 as <-.
    apply (insertSorted_sorted x r0 r Hx); [|now apply IH|exact E].
    apply Forall_forall. intros v Hv.
    apply (proj1 (Forall_forall _ _) Fl). now apply (Permutation_in _ P).
Qed.

(** X1.  On a storage root whose body files hold plain JSON values or
    texts that are not JSON, [loadChatHistory] returns, changes nothing,
    and yields the body of every conversation directory whose
    [conversation.json] is there and parses, skipping the directories
    where it is missing or is not JSON; when every body has a numeric
    [id] the bodies come newest first.  (A [null] body is excluded: the
    comparator throws on it.) *)
Theorem loadChatHistory_readable_bodies (w : World) :
  NoDup (map fst (rootEntries (storage w))) ->
  bodiesDescribed (storage w) ->
  Forall (fun v => v <> JNull) (readableBodies (storage w)) ->
  exists r,
    ChatManager.loadChatHistory w = (Ok r, w)
    /\ Permutation r (readableBodies (storage w))
    /\ (Forall (fun v => exists n, idNumber v = Some n)
          (readableBodies (storage w)) ->
        StronglySorted newerOrEqual r).
Proof.
  intros ND _ NN. unfold readableBodies in *.
  destruct (storage w) as [[d|E]|] eqn:S.
  - exists []. split; [|split; [constructor|constructor]].
    apply loadChatHistory_no_directory. intros E. rewrite S. discriminate.
  - cbn [rootEntries] in *.
    destruct (arraySort_perm _ NN) as (r & Er & P).
    exists r. rewrite (loadChatHistory_spec w E S ND), Er.
    split; [reflexivity|]. split; [exact P|].
    intros F. exact (arraySort_sorted _ r F Er).
  - exists []. split; [|split; [constructor|constructor]].
    apply loadChatHistory_no_directory. intros E. rewrite S. discriminate.
Qed.

Lemma loadChatHistory_readable_bodies_witness :
  let w := worldAt mixedStorage 0 in
  (NoDup (map fst (rootEntries (storage w)))
   /\ bodiesDescribed (storage w)
   /\ Forall (fun v => v <> JNull) (readableBodies (storage w))) /\
  readableBodies (storage w)
  = [conversationToJson helloConversation;
     conversationToJson recipeConversation] /\
  exists r,
    ChatManager.loadChatHistory w = (Ok r, w)
    /\ Permutation r (readableBodies (storage w))
    /\ (Forall (fun v => exists n, idNumber v = Some n)
          (readableBodies (storage w)) ->
        StronglySorted newerOrEqual r).
Proof.
  assert (ND : NoDup (map fst (rootEntries (storage (worldAt mixedStorage 0))))).
  { repeat constructor; simpl; intuition discriminate. }
  assert (B : readableBodies (storage (worldAt mixedStorage 0))
              = [conversationToJson helloConversation;
                 conversationToJson recipeConversation]).
  { vm_compute. reflexivity. }
  assert (NN : Forall (fun v => v <> JNull)
                 (readableBodies (storage (worldAt mixedStorage 0)))).
  { rewrite B. repeat constructor; discriminate. }
  assert (BD : bodiesDescribed (storage (worldAt mixedStorage 0))).
  { repeat constructor; vm_compute; reflexivity. }
  split; [split; [exact ND|split; [exact BD|exact NN]]|]. split; [exact B|].
  exact (loadChatHistory_readable_bodies (worldAt mixedStorage 0) ND BD NN).
Defined.

(** ** Removing a directory tree, deleting a conversation *)

Lemma wfNode_child (c : string) (E : list (string * node)) (x : node) :
  wfNode (Dir E) -> assoc c E = Some x -> wfNode x.
Proof.
  intros [_ A]. induction E as [|[k v] E IH]; cbn [assoc]; [discriminate|].
  destruct A as [Hv A]. destruct (String.eqb c k).
  - intros [= <-]. exact Hv.
  - now apply IH.
Qed.

Lemma assoc_remove_same {A : Type} (c : string) (E : list (string * A)) :
  NoDup (map fst E) -> assoc c (remove c E) = None.
Proof.
  induction E as [|[k v] E IH]; intros ND; [reflexivity|].
  inversion ND as [|? ? Nk NDE]; subst. cbn [remove].
  destruct (String.eqb_spec c k) as [->|N].
  - now apply assoc_none_not_in.
  - cbn [assoc]. destruct (String.eqb_spec c k); [contradiction|].
    now apply IH.
Qed.

Lemma remove_absent {A : Type} (c : string) (E : list (string * A)) :
  assoc c E = None -> remove c E = E.
Proof.
  induction E as [|[k v] E IH]; cbn [assoc remove]; [reflexivity|].
  destruct (String.eqb c k); [discriminate|]. intros H. now rewrite IH.
Qed.

Lemma lookup_putAt_removed (p : path) :
  forall o x,
    wfStorage o -> Fs.lookup p o = Some x ->
    Fs.lookup p (putAt p None o) = None.
Proof.
  induction p as [|c p IH]; intros o x W L; [reflexivity|].
  rewrite lookup_cons in L.
  destruct o as [[d|E]|]; try discriminate.
  destruct (assoc c E) as [y|] eqn:A;
    [|rewrite lookup_none in L; discriminate].
  cbn [putAt]. rewrite A.
  destruct (putAt p None (Some y)) as [child|] eqn:Q.
  - rewrite lookup_cons, assoc_assign_same, <- Q.
    apply (IH (Some y) x); [|exact L].
    exact (wfNode_child c E y W A).
  - rewrite lookup_cons, assoc_remove_same; [apply lookup_none|].
    apply W.
Qed.

Lemma lookup_putAt_incomparable (p : path) :
  forall q n o,
    isPrefix p q = false -> isPrefix q p = false ->
    Fs.lookup q (putAt p n o) = Fs.lookup q o.
Proof.
  induction p as [|c p IH]; intros q n o P Q; [discriminate|].
  destruct q as [|d q]; [discriminate|].
  cbn [isPrefix] in P, Q.
  destruct (String.eqb_spec c d) as [<-|N].
  - rewrite String.eqb_refl in Q. cbn [andb] in P, Q.
    destruct o as [[f|E]|]; try reflexivity.
    cbn [putAt]. pose proof (IH q n (assoc c E) P Q) as H.
    destruct (putAt p n (assoc c E)) as [child|] eqn:U.
    + now rewrite !lookup_cons, assoc_assign_same.
    + rewrite !lookup_cons.
      destruct (assoc c E) as [y|] eqn:A.
      * destruct p as [|c' p]; [discriminate|].
        exfalso. exact (putAt_cons_some c' p n y U).
      * now rewrite (remove_absent c E A), A.
  - apply lookup_putAt_other_head. congruence.
Qed.

Lemma removeDirectoryRecursive_file (p : path) (w : World) (d : string) :
  Fs.lookup p (storage w) = Some (File d) ->
  ChatManager.removeDirectoryRecursive p w = (Throw ENOTDIR, w).
Proof.
  intros L. unfold ChatManager.removeDirectoryRecursive.
  cbn [ChatManager.removeDirectoryRecursiveFuel].
  unfold bind at 1. unfold existsSync at 1. rewrite L.
  unfold bind at 1. unfold bind at 1. unfold readdirSync at 1.
  now rewrite L.
Qed.

Lemma removeDirectoryRecursive_absent (p : path) (w : World) :
  Fs.lookup p (storage w) = None ->
  ChatManager.removeDirectoryRecursive p w = (Ok tt, w).
Proof.
  intros L. unfold ChatManager.removeDirectoryRecursive.
  cbn [ChatManager.removeDirectoryRecursiveFuel].
  unfold bind at 1. unfold existsSync at 1. now rewrite L.
Qed.

(** X2.  [removeDirectoryRecursive] on a directory returns, after which the
    path resolves to nothing while every path that neither lies below it
    nor leads to it resolves as before; on a path that resolves to
    nothing it does nothing; on a regular file it throws [ENOTDIR] and
    changes nothing.  The clock is not read. *)
Theorem removeDirectoryRecursive_contract (p : path) (w : World) :
  wfStorage (storage w) ->
  let r := ChatManager.removeDirectoryRecursive p w in
  match Fs.lookup p (storage w) with
  | Some (Dir _) =>
      fst r = Ok tt
      /\ Fs.lookup p (storage (snd r)) = None
      /\ (forall q,
            isPrefix p q = false -> isPrefix q p = false ->
            Fs.lookup q (storage (snd r)) = Fs.lookup q (storage w))
      /\ clock (snd r) = clock w /\ tick (snd r) = tick w
  | Some (File _) => r = (Throw ENOTDIR, w)
  | None => r = (Ok tt, w)
  end.
Proof.
  intros W r. subst r.
  destruct (Fs.lookup p (storage w)) as [[d|es]|] eqn:L.
  - exact (removeDirectoryRecursive_file p w d L).
  - rewrite (removeDirectoryRecursive_spec p w es L).
    cbn [fst snd]. rewrite storage_withStorage.
    split; [reflexivity|]. split; [|split; [|split; reflexivity]].
    + exact (lookup_putAt_removed p (storage w) (Dir es) W L).
    + intros q P Q. now apply lookup_putAt_incomparable.
  - exact (removeDirectoryRecursive_absent p w L).
Qed.

Lemma removeDirectoryRecursive_contract_witness :
  let w := worldAt earlierStorage 0 in
  wfStorage (storage w) /\
  let r := ChatManager.removeDirectoryRecursive ["chat_9"] w in
  fst r = Ok tt
  /\ Fs.lookup ["chat_9"] (storage (snd r)) = None
  /\ (forall q,
        isPrefix ["chat_9"] q = false -> isPrefix q ["chat_9"] = false ->
        Fs.lookup q (storage (snd r)) = Fs.lookup q (storage w))
  /\ clock (snd r) = clock w /\ tick (snd r) = tick w.
Proof.
  assert (W : wfStorage (storage (worldAt earlierStorage 0))).
  { cbn. repeat split; repeat constructor; cbn; intuition discriminate. }
  split; [exact W|].
  exact (removeDirectoryRecursive_contract ["chat_9"]
           (worldAt earlierStorage 0) W).
Defined.

(** *** [deleteChatFile] *)

Lemma deleteChatFile_spec (i : Z) (w : World) :
  ChatManager.deleteChatFile i w
  = (Ok tt,
     match Fs.lookup [ChatManager.conversationDirOf i] (storage w) with
     | Some (Dir _) =>
         withStorage w
           (putAt [ChatManager.conversationDirOf i] None (storage w))
     | _ => w
     end).
Proof.
  unfold ChatManager.deleteChatFile. cbv zeta.
  change (ChatManager.path_join ChatManager.chatHistoryDir
            (ChatManager.conversationDirOf i))
    with [ChatManager.conversationDirOf i].
  destruct (Fs.lookup [ChatManager.conversationDirOf i] (storage w))
    as [[d|es]|] eqn:L.
  - match goal with |- tryCatch ?m _ _ = _ =>
      assert (R : m w = (Throw ENOTDIR, w)) end.
    { unfold bind at 1. unfold existsSync at 1. rewrite L.
      exact (removeDirectoryRecursive_file _ w d L). }
    now rewrite (tryCatch_throw _ _ w w ENOTDIR R).
  - apply tryCatch_ok. unfold bind at 1. unfold existsSync at 1. rewrite L.
    exact (removeDirectoryRecursive_spec _ w es L).
  - apply tryCatch_ok. unfold bind at 1. unfold existsSync at 1.
    now rewrite L.
Qed.

(** X3.  [deleteChatFile] never throws.  When the conversation's directory
    exists it is removed with all it holds, and every path under another
    entry of the storage root resolves as before; when there is no such
    directory (nothing there, or a regular file of that name) nothing
    changes. *)
Theorem deleteChatFile_removes (i : Z) (w : World) :
  wfStorage (storage w) ->
  let d := ChatManager.conversationDirOf i in
  let r := ChatManager.deleteChatFile i w in
  fst r = Ok tt /\
  match Fs.lookup [d] (storage w) with
  | Some (Dir _) =>
      Fs.lookup [d] (storage (snd r)) = None
      /\ forall name q,
           name <> d ->
           Fs.lookup (name :: q) (storage (snd r))
           = Fs.lookup (name :: q) (storage w)
  | _ => snd r = w
  end.
Proof.
  intros W d r. subst r d. rewrite (deleteChatFile_spec i w).
  cbn [fst snd]. split; [reflexivity|].
  destruct (Fs.lookup [ChatManager.conversationDirOf i] (storage w))
    as [[f|es]|] eqn:L; try reflexivity.
  rewrite storage_withStorage. split.
  - exact (lookup_putAt_removed _ (storage w) (Dir es) W L).
  - intros name q N. apply lookup_putAt_other_head. exact N.
Qed.

Lemma deleteChatFile_removes_witness :
  let w := worldAt earlierStorage 0 in
  wfStorage (storage w) /\
  let r := ChatManager.deleteChatFile 9 w in
  fst r = Ok tt /\
  Fs.lookup ["chat_9"] (storage (snd r)) = None
  /\ forall name q,
       name <> "chat_9" ->
       Fs.lookup (name :: q) (storage (snd r))
       = Fs.lookup (name :: q) (storage w).
Proof.
  assert (W : wfStorage (storage (worldAt earlierStorage 0))).
  { cbn. repeat split; repeat constructor; cbn; intuition discriminate. }
  split; [exact W|].
  exact (deleteChatFile_removes 9 (worldAt earlierStorage 0) W).
Defined.

(** *** Persist, delete, load *)

Lemma bodyOf_savedDir (c : Conversation) (clk : nat -> Z) (t : nat) :
  bodyOf (ChatManager.conversationDirOf (id c), savedDir c clk t)
  = [conversationToJson c].
Proof.
  unfold bodyOf, savedDir. cbn [fst snd].
  rewrite conversationDirOf_prefix.
  cbn [assoc String.eqb Ascii.eqb Bool.eqb].
  now rewrite (parse_stringify2 _ (wfJson_conversation c)).
Qed.

Lemma bodies_savedDirs (l : list Conversation) (clk : nat -> Z) :
  forall t, flat_map bodyOf (savedDirs l clk t) = map conversationToJson l.
Proof.
  induction l as [|c l IH]; intros t; [reflexivity|].
  cbn [savedDirs flat_map map]. now rewrite bodyOf_savedDir, IH.
Qed.

Lemma bodies_none (K : list (string * node)) :
  Forall (fun e => isConversationDir e = false) K -> flat_map bodyOf K = [].
Proof.
  induction 1 as [|e K He _ IH]; [reflexivity|].
  cbn [flat_map]. now rewrite (bodyOf_other e He), IH.
Qed.

Lemma filter_unchanged {A : Type} (f : A -> bool) (l : list A) :
  (forall x, In x l -> f x = true) -> filter f l = l.
Proof.
  induction l as [|x l IH]; intros H; [reflexivity|]. cbn [filter].
  rewrite (H x (or_introl eq_refl)), IH; [reflexivity|].
  intros y Hy. apply H. now right.
Qed.

Lemma bodies_savedDirs_remove (l : list Conversation) (clk : nat -> Z)
  (i : Z) :
  NoDup (map id l) ->
  forall t,
    flat_map bodyOf (remove (ChatManager.conversationDirOf i)
                       (savedDirs l clk t))
    = map conversationToJson (filter (fun c => negb (id c =? i)%Z) l).
Proof.
  induction l as [|c l IH]; intros ND t; [reflexivity|].
  inversion ND as [|? ? Nc NDl]; subst. cbn [savedDirs remove filter].
  destruct (String.eqb_spec (ChatManager.conversationDirOf i)
              (ChatManager.conversationDirOf (id c))) as [E|N].
  - apply conversationDirOf_inj in E. subst i.
    rewrite Z.eqb_refl. cbn [negb].
    rewrite bodies_savedDirs, filter_unchanged; [reflexivity|].
    intros x Hx. apply negb_true_iff, Z.eqb_neq. intros E. apply Nc.
    rewrite <- E. now apply in_map.
  - assert (Ni : (id c =? i)%Z = false).
    { apply Z.eqb_neq. intros E. apply N. now rewrite E. }
    rewrite Ni. cbn [negb flat_map map].
    now rewrite bodyOf_savedDir, IH.
Qed.

Lemma NoDup_remove {A : Type} (c : string) (l : list (string * A)) :
  NoDup (map fst l) -> NoDup (map fst (remove c l)).
Proof.
  induction l as [|[k v] l IH]; intros ND; [constructor|].
  inversion ND as [|? ? Nk NDl]; subst. cbn [remove].
  destruct (String.eqb c k); [exact NDl|].
  cbn [map fst]. constructor; [|now apply IH].
  intros I. apply Nk. clear -I.
  induction l as [|[k' v'] l IH]; [destruct I|].
  cbn [remove] in I. destruct (String.eqb c k').
  - now right.
  - destruct I as [I|I]; [now left|right; now apply IH].
Qed.

(** X4.  After a persist of conversations with distinct identifiers, deleting
    one conversation makes the next load return the others, newest
    first; deleting an identifier that was not persisted changes nothing
    of what is loaded. *)
Theorem delete_after_persist (l : list Conversation) (w : World) (i : Z) :
  NoDup (map id l) ->
  storageReady (storage w) l ->
  let w1 := snd (ChatManager.saveChatHistory l w) in
  let w2 := snd (ChatManager.deleteChatFile i w1) in
  fst (ChatManager.loadChatHistory w2)
  = Ok (map conversationToJson
          (sortByIdDesc (filter (fun c => negb (id c =? i)%Z) l))).
Proof.
  intros ND SR w1 w2. subst w2 w1.
  rewrite (saveChatHistory_spec l w SR ND). cbn [snd].
  set (K := filter (fun e => negb (isConversationDir e))
              (rootEntries (storage w))).
  set (t := tick w). set (clk := clock w).
  set (w1 := mkWorld (Some (Dir (K ++ savedDirs l clk t)%list)) clk
               (t + readingsOfAll l)).
  set (d := ChatManager.conversationDirOf i).
  assert (NDR : NoDup (map fst (K ++ savedDirs l clk t)%list))
    by exact (persisted_root_NoDup (storage w) l clk t SR ND).
  assert (FK : Forall (fun e => isConversationDir e = false) K)
    by apply kept_entries_no_conversationDir.
  rewrite (deleteChatFile_spec i w1). cbn [snd]. fold d.
  assert (L : Fs.lookup [d] (storage w1) = assoc d (K ++ savedDirs l clk t)%list).
  { unfold w1. cbn [storage]. now rewrite lookup_cons, lookup_nil. }
  rewrite L.
  destruct (in_dec Z.eq_dec i (map id l)) as [I|NI].
  - (* a persisted conversation *)
    apply in_map_iff in I. destruct I as (c & <- & Ic).
    assert (AK : assoc d K = None).
    { unfold d, K. destruct (storage w) as [[f|R]|]; cbn [rootEntries];
        try reflexivity.
      exact (cleared_root_free R l SR c Ic). }
    destruct (savedDirs_assoc l clk t c ND Ic) as (t' & _ & _ & A).
    fold d in A. rewrite (assoc_app_none d K _ AK), A. unfold savedDir.
    set (w2 := withStorage w1 (putAt [d] None (storage w1))).
    assert (S2 : storage w2
                 = Some (Dir (K ++ remove d (savedDirs l clk t))%list)).
    { unfold w2, w1. cbn [storage withStorage putAt].
      now rewrite (remove_app_none d K _ AK). }
    rewrite (loadChatHistory_spec w2 _ S2).
    + cbn [fst]. rewrite flat_map_app, (bodies_none K FK).
      cbn [app]. unfold d.
      rewrite (bodies_savedDirs_remove l clk (id c) ND t).
      now rewrite sort_conversations.
    + rewrite <- (remove_app_none d K _ AK). now apply NoDup_remove.
  - (* not a persisted conversation: nothing to delete *)
    assert (AS : assoc d (savedDirs l clk t) = None).
    { apply assoc_none_not_in. rewrite savedDirs_names. intros I.
      apply in_map_iff in I. destruct I as (c & E & Ic).
      apply conversationDirOf_inj in E. apply NI. rewrite <- E.
      now apply in_map. }
    assert (Same : filter (fun c => negb (id c =? i)%Z) l = l).
    { apply filter_unchanged. intros x Hx.
      apply negb_true_iff, Z.eqb_neq. intros E. apply NI. rewrite <- E.
      now apply in_map. }
    rewrite Same.
    assert (Load : forall w', storage w' = storage w1 ->
              fst (ChatManager.loadChatHistory w')
              = Ok (map conversationToJson (sortByIdDesc l))).
    { intros w' S'.
      rewrite (loadChatHistory_persisted K l clk t w' S' NDR FK).
      reflexivity. }
    destruct (assoc d (K ++ savedDirs l clk t)%list) as [[f|es]|] eqn:A;
      try (apply Load; reflexivity).
    exfalso. destruct (assoc d K) as [x|] eqn:AK.
    + rewrite (assoc_app_some d x K _ AK) in A. injection A as ->.
      apply assoc_in in AK.
      pose proof (proj1 (Forall_forall _ _) FK _ AK) as C.
      unfold isConversationDir in C. cbn [fst snd] in C.
      unfold d in C. now rewrite conversationDirOf_prefix in C.
    + rewrite (assoc_app_none d K _ AK), AS in A. discriminate.
Qed.

Lemma delete_after_persist_witness :
  let l := [helloConversation; recipeConversation] in
  let w := worldAt earlierStorage 100 in
  (NoDup (map id l) /\ storageReady (storage w) l) /\
  fst (ChatManager.loadChatHistory
         (snd (ChatManager.deleteChatFile 1
                 (snd (ChatManager.saveChatHistory l w)))))
  = Ok [conversationToJson recipeConversation].
Proof.
  assert (ND : NoDup (map id [helloConversation; recipeConversation])).
  { repeat constructor; simpl; intuition discriminate. }
  assert (SR : storageReady (storage (worldAt earlierStorage 100))
                 [helloConversation; recipeConversation]).
  { split.
    - repeat constructor; simpl; intuition discriminate.
    - intros c data [<-|[<-|[]]]; vm_compute; discriminate. }
  split; [split; assumption|].
  exact (delete_after_persist [helloConversation; recipeConversation]
           (worldAt earlierStorage 100) 1 ND SR).
Defined.

(** ** Setting the classification of one conversation *)

Lemma isPrefix_refl (p : path) : isPrefix p p = true.
Proof.
  induction p as [|c p IH]; [reflexivity|]. cbn [isPrefix].
  now rewrite String.eqb_refl.
Qed.

Lemma isPrefix_app (p : path) :
  forall q, isPrefix p q = true -> exists s, q = (p ++ s)%list.
Proof.
  induction p as [|c p IH]; intros q H; [now exists q|].
  destruct q as [|d q]; [discriminate|]. cbn [isPrefix] in H.
  apply andb_true_iff in H. destruct H as [E H].
  apply String.eqb_eq in E. subst d.
  destruct (IH q H) as [s ->]. now exists s.
Qed.

(** Overwriting a regular file changes what no other path resolves to,
    the directories on the way to the file apart. *)
Lemma lookup_putAt_file_frame (p q : path) (o : option node)
  (a b : string) :
  Fs.lookup p o = Some (File a) -> isPrefix q p = false ->
  Fs.lookup q (putAt p (Some (File b)) o) = Fs.lookup q o.
Proof.
  intros L Q. destruct (isPrefix p q) eqn:P.
  - destruct (isPrefix_app p q P) as [s ->].
    rewrite !lookup_app, L, (lookup_putAt_same p o (File a) (File b) L).
    destruct s as [|c s]; [|reflexivity].
    rewrite app_nil_r, isPrefix_refl in Q. discriminate.
  - now apply lookup_putAt_incomparable.
Qed.

Lemma setProp_twice (v : json) (t : string) (now : Z) :
  match setProp "projectType" (JStr t) v with
  | Ok v1 => setProp "lastModified" (JNum now) v1
  | Throw e => Throw e
  end
  = match updatedRecord v t now with
    | Some v2 => Ok v2
    | None => Throw TypeError
    end.
Proof. destruct v; reflexivity. Qed.

(** [updateMetadataWithProjectType], case by case. *)
Lemma updateMetadataWithProjectType_spec (i : Z) (pt : option string)
  (w : World) :
  ChatManager.updateMetadataWithProjectType i pt w
  = match Fs.lookup [ChatManager.conversationDirOf i] (storage w) with
    | None =>
        (Throw (Error ("Conversation directory not found: chat_history/"
                       ++ ChatManager.conversationDirOf i)), w)
    | Some _ =>
        match Fs.lookup [ChatManager.conversationDirOf i; "metadata.json"]
                (storage w) with
        | None =>
            (Throw (Error ("Metadata file not found: chat_history/"
                           ++ ChatManager.conversationDirOf i
                           ++ "/metadata.json")), w)
        | Some (Dir _) => (Throw EISDIR, w)
        | Some (File text) =>
            match Json.parse text with
            | Throw e => (Throw e, w)
            | Ok v =>
                match updatedRecord v (requestedType pt)
                        (clock w (tick w)) with
                | None => (Throw TypeError, w)
                | Some v2 =>
                    (Ok true,
                     mkWorld
                       (putAt [ChatManager.conversationDirOf i;
                               "metadata.json"]
                          (Some (File (Json.stringify2 v2))) (storage w))
                       (clock w) (S (tick w)))
                end
            end
        end
    end.
Proof.
  unfold ChatManager.updateMetadataWithProjectType. cbv zeta.
  fold (requestedType pt).
  change (ChatManager.path_join ChatManager.chatHistoryDir
            (ChatManager.conversationDirOf i))
    with [ChatManager.conversationDirOf i].
  change (ChatManager.path_join [ChatManager.conversationDirOf i]
            "metadata.json")
    with [ChatManager.conversationDirOf i; "metadata.json"].
  set (d := ChatManager.conversationDirOf i).
  change (ChatManager.pathToString [d]) with ("chat_history/" ++ d).
  change (ChatManager.pathToString [d; "metadata.json"])
    with ("chat_history/" ++ d ++ "/metadata.json").
  unfold tryCatch, bind at 1. unfold existsSync at 1.
  destruct (Fs.lookup [d] (storage w)) as [x|] eqn:Ld; [|reflexivity].
  cbn [negb]. unfold bind at 1. unfold ret at 1.
  unfold bind at 1. unfold existsSync at 1.
  destruct (Fs.lookup [d; "metadata.json"] (storage w))
    as [[text|sub]|] eqn:Lm; [| |reflexivity].
  - unfold bind at 1. unfold bind at 1. unfold readFileSync at 1.
    rewrite Lm. unfold ChatManager.JSON_parse at 1. unfold liftResult at 1.
    destruct (Json.parse text) as [v|e]; [|reflexivity].
    destruct v as [|b|n|s|items|fields]; try reflexivity.
    + cbn [updatedRecord]. unfold bind at 1. unfold liftResult at 1.
      cbn [setProp]. unfold bind at 1. unfold Date_now at 1.
      unfold bind at 1. unfold liftResult at 1. cbn [setProp].
      unfold bind at 1.
      rewrite (writeFileSync_existing _ _ text) by exact Lm.
      reflexivity.
    + cbn [updatedRecord]. unfold bind at 1. unfold liftResult at 1.
      cbn [setProp]. unfold bind at 1. unfold Date_now at 1.
      unfold bind at 1. unfold liftResult at 1. cbn [setProp].
      unfold bind at 1.
      rewrite (writeFileSync_existing _ _ text) by exact Lm.
      reflexivity.
  - unfold bind at 1. unfold bind at 1. unfold readFileSync at 1.
    now rewrite Lm.
Qed.

(** X5.  How [updateMetadataWithProjectType] fails: with the error naming the
    missing conversation directory, with the error naming the missing
    metadata file, or with the [SyntaxError] of a record that is not
    JSON; and whenever it throws a JavaScript error, nothing was written
    and the clock was not read. *)
Theorem updateMetadataWithProjectType_failures :
  forall (i : Z) (pt : option string) (w : World),
    let d := ChatManager.conversationDirOf i in
    let r := ChatManager.updateMetadataWithProjectType i pt w in
    (Fs.lookup [d] (storage w) = None ->
     r = (Throw (Error ("Conversation directory not found: chat_history/"
                        ++ d)), w)) /\
    (Fs.lookup [d] (storage w) <> None ->
     Fs.lookup [d; "metadata.json"] (storage w) = None ->
     r = (Throw (Error ("Metadata file not found: chat_history/" ++ d
                        ++ "/metadata.json")), w)) /\
    (forall text,
       Fs.lookup [d; "metadata.json"] (storage w) = Some (File text) ->
       Json.parse text = Throw SyntaxError ->
       r = (Throw SyntaxError, w)) /\
    (forall e,
       fst r = Throw e -> e <> OutsideFragment -> e <> OutOfFuel ->
       snd r = w).
Proof.
  intros i pt w d r. subst r.
  rewrite (updateMetadataWithProjectType_spec i pt w). fold d.
  split; [now intros ->|]. split; [|split].
  - intros N1 N2. rewrite N2.
    destruct (Fs.lookup [d] (storage w)); [reflexivity|congruence].
  - intros text L P.
    assert (Ld : Fs.lookup [d] (storage w) <> None).
    { intros N. change [d; "metadata.json"]
        with ([d] ++ ["metadata.json"])%list in L.
      rewrite lookup_app, N, lookup_none in L. discriminate. }
    rewrite L, P.
    destruct (Fs.lookup [d] (storage w)); [reflexivity|congruence].
  - intros e H _ _. revert H.
    destruct (Fs.lookup [d] (storage w)); [|reflexivity].
    destruct (Fs.lookup [d; "metadata.json"] (storage w)) as [[text|sub]|];
      try reflexivity.
    destruct (Json.parse text) as [v|e']; [|reflexivity].
    destruct (updatedRecord v (requestedType pt) (clock w (tick w)));
      [discriminate|reflexivity].
Qed.

(** The failures at concrete storage roots. *)
Lemma updateMetadataWithProjectType_failure_examples :
  ChatManager.updateMetadataWithProjectType 4 None (worldAt mixedStorage 0)
  = (Throw (Error "Conversation directory not found: chat_history/chat_4"),
     worldAt mixedStorage 0) /\
  ChatManager.updateMetadataWithProjectType 1 None (worldAt mixedStorage 0)
  = (Throw (Error "Metadata file not found: chat_history/chat_1/metadata.json"),
     worldAt mixedStorage 0) /\
  ChatManager.updateMetadataWithProjectType 2 None (worldAt mixedStorage 0)
  = (Throw SyntaxError, worldAt mixedStorage 0).
Proof.
  pose proof (updateMetadataWithProjectType_failures 4 None
                (worldAt mixedStorage 0)) as (H4 & _).
  pose proof (updateMetadataWithProjectType_failures 1 None
                (worldAt mixedStorage 0)) as (_ & H1 & _).
  pose proof (updateMetadataWithProjectType_failures 2 None
                (worldAt mixedStorage 0)) as (_ & _ & H2 & _).
  split; [exact (H4 eq_refl)|]. split.
  - apply H1; [discriminate|reflexivity].
  - apply (H2 "not json"); reflexivity.
Defined.

Lemma readMetadata_file (o : option node) (i : Z) (v : json) :
  readMetadata o i = Some v ->
  exists text,
    Fs.lookup [ChatManager.conversationDirOf i; "metadata.json"] o
    = Some (File text)
    /\ Json.parse text = Ok v.
Proof.
  unfold readMetadata.
  destruct (Fs.lookup [ChatManager.conversationDirOf i; "metadata.json"] o)
    as [[text|sub]|]; try discriminate.
  destruct (Json.parse text) as [v'|e] eqn:P; [|discriminate].
  intros [= <-]. now exists text.
Qed.

(** The run on a record that is a JSON object: what is written, and that
    it reads back. *)
Lemma updateMetadataWithProjectType_on_object (i : Z)
  (pt : option string) (w : World) (fields : list (string * json)) :
  readMetadata (storage w) i = Some (JObj fields) ->
  let fields' :=
    assign "lastModified" (JNum (clock w (tick w)))
      (assign "projectType" (JStr (requestedType pt)) fields) in
  let o' :=
    putAt [ChatManager.conversationDirOf i; "metadata.json"]
      (Some (File (Json.stringify2 (JObj fields')))) (storage w) in
  exists text,
    Fs.lookup [ChatManager.conversationDirOf i; "metadata.json"] (storage w)
    = Some (File text)
    /\ ChatManager.updateMetadataWithProjectType i pt w
       = (Ok true, mkWorld o' (clock w) (S (tick w)))
    /\ readMetadata o' i = Some (JObj fields').
Proof.
  intros RM fields' o'. subst o'.
  destruct (readMetadata_file _ _ _ RM) as (text & L & P).
  exists text. split; [exact L|].
  rewrite (updateMetadataWithProjectType_spec i pt w).
  set (d := ChatManager.conversationDirOf i) in *.
  assert (Ld : exists x, Fs.lookup [d] (storage w) = Some x).
  { destruct (Fs.lookup [d] (storage w)) as [x|] eqn:E; [now exists x|].
    change [d; "metadata.json"] with ([d] ++ ["metadata.json"])%list in L.
    rewrite lookup_app, E, lookup_none in L. discriminate. }
  destruct Ld as [x Ld]. rewrite Ld, L, P. cbn [updatedRecord].
  fold fields'. split; [reflexivity|].
  assert (RT : Json.parse (Json.stringify2 (JObj fields')) = Ok (JObj fields')).
  { apply parse_stringify2. apply (proj2 (wfJson_JObj _)).
    apply wfFields_assign; [exact I|].
    apply wfFields_assign; [exact I|].
    exact (proj1 (wfJson_JObj fields) (parse_wf text _ P)). }
  unfold readMetadata. fold d.
  rewrite (lookup_putAt_same _ _ (File text) _ L). now rewrite RT.
Qed.

(** X6.  On a metadata record that is a plain JSON object,
    [updateMetadataWithProjectType] returns [true] and rewrites the
    record with the classification asked for and a fresh last-modified
    time; every other field of the record, caller-defined ones included,
    is kept, and no path other than the record's file and the
    directories leading to it resolves to anything else than before. *)
Theorem updateMetadataWithProjectType_read_modify_write (i : Z)
  (pt : option string) (w : World) (fields : list (string * json)) :
  readMetadata (storage w) i = Some (JObj fields) ->
  plainJson (JObj fields) = true ->
  let r := ChatManager.updateMetadataWithProjectType i pt w in
  let o := storage (snd r) in
  fst r = Ok true
  /\ metadataField o i "projectType" = Some (JStr (requestedType pt))
  /\ metadataField o i "lastModified" = Some (JNum (clock w (tick w)))
  /\ (forall k,
        k <> "projectType" -> k <> "lastModified" ->
        metadataField o i k = assoc k fields)
  /\ (forall q,
        isPrefix q [ChatManager.conversationDirOf i; "metadata.json"] = false ->
        Fs.lookup q o = Fs.lookup q (storage w)).
Proof.
  intros RM _ r o. subst o r.
  destruct (updateMetadataWithProjectType_on_object i pt w fields RM)
    as (text & L & Run & RM').
  rewrite Run. cbn [fst snd storage].
  split; [reflexivity|]. unfold metadataField. rewrite RM'.
  split; [|split; [|split]].
  - rewrite assoc_assign_other by discriminate. apply assoc_assign_same.
  - apply assoc_assign_same.
  - intros k N1 N2. now rewrite !assoc_assign_other.
  - intros q Q. exact (lookup_putAt_file_frame _ q _ text _ L Q).
Qed.

Lemma updateMetadataWithProjectType_read_modify_write_witness :
  let w := worldAt annotatedStorage 10 in
  let r := ChatManager.updateMetadataWithProjectType 1 (Some "chat") w in
  let o := storage (snd r) in
  (exists fields,
     readMetadata (storage w) 1 = Some (JObj fields)
     /\ plainJson (JObj fields) = true) /\
  fst r = Ok true
  /\ metadataField o 1 "projectType" = Some (JStr "chat")
  /\ metadataField o 1 "lastModified" = Some (JNum 10)
  /\ metadataField o 1 "foo" = Some (JStr "bar").
Proof.
  assert (RM : readMetadata (storage (worldAt annotatedStorage 10)) 1
               = Some (JObj [("id", JNum 1); ("title", JStr "First chat");
                             ("created", JNum 1); ("lastModified", JNum 5);
                             ("messageCount", JNum 2);
                             ("version", JStr "1.0");
                             ("projectType", JStr "recipe");
                             ("foo", JStr "bar")])).
  { vm_compute. reflexivity. }
  destruct (updateMetadataWithProjectType_read_modify_write 1 (Some "chat")
              (worldAt annotatedStorage 10) _ RM eq_refl)
    as (A & B & C & D & _).
  split; [eexists; split; [exact RM|reflexivity]|].
  split; [exact A|]. split; [exact B|]. split; [exact C|].
  apply (D "foo"); discriminate.
Defined.

(** *** What a write into a conversation directory leaves of the bodies *)

Lemma names_assign {A : Type} (d : string) (x y : A)
  (E : list (string * A)) :
  assoc d E = Some x -> map fst (assign d y E) = map fst E.
Proof.
  induction E as [|[k v] E IH]; cbn [assoc assign]; [discriminate|].
  destruct (String.eqb_spec d k) as [->|N]; [reflexivity|].
  intros H. cbn [map fst]. now rewrite IH.
Qed.

Lemma bodies_assign (d k : string) (n : node) (sub : list (string * node))
  (E : list (string * node)) :
  assoc d E = Some (Dir sub) -> k <> "conversation.json" ->
  flat_map bodyOf (assign d (Dir (assign k n sub)) E) = flat_map bodyOf E.
Proof.
  intros A N. induction E as [|[k' v] E IH]; [discriminate|].
  cbn [assoc assign] in *.
  destruct (String.eqb_spec d k') as [->|Nd].
  - injection A as ->. cbn [flat_map]. f_equal.
    unfold bodyOf. cbn [fst snd].
    rewrite assoc_assign_other; [reflexivity|congruence].
  - cbn [flat_map]. now rewrite IH.
Qed.

Lemma rootEntries_putAt (d k : string) (n : node) (o : option node)
  (sub : list (string * node)) :
  Fs.lookup [d] o = Some (Dir sub) ->
  putAt [d; k] (Some n) o
  = Some (Dir (assign d (Dir (assign k n sub)) (rootEntries o))).
Proof.
  intros L. rewrite lookup_cons in L.
  destruct o as [[f|E]|]; try discriminate.
  rewrite lookup_nil in L. cbn [putAt rootEntries]. now rewrite L.
Qed.

(** A write of an entry other than [conversation.json] into a
    conversation directory leaves what a load returns as it was. *)
Lemma load_after_entry_write (w w' : World) (d k : string) (n : node)
  (sub : list (string * node)) :
  NoDup (map fst (rootEntries (storage w))) ->
  Fs.lookup [d] (storage w) = Some (Dir sub) ->
  k <> "conversation.json" ->
  storage w' = putAt [d; k] (Some n) (storage w) ->
  NoDup (map fst (rootEntries (storage w')))
  /\ readableBodies (storage w') = readableBodies (storage w)
  /\ fst (ChatManager.loadChatHistory w')
     = fst (ChatManager.loadChatHistory w).
Proof.
  intros ND L N S'.
  rewrite (rootEntries_putAt d k n _ sub L) in S'.
  assert (R : exists E, storage w = Some (Dir E)).
  { destruct (storage w) as [[f|E]|]; try (rewrite lookup_cons in L;
      discriminate). now exists E. }
  destruct R as [E S]. rewrite S in *. cbn [rootEntries] in *.
  assert (A : assoc d E = Some (Dir sub)).
  { now rewrite lookup_cons, lookup_nil in L. }
  assert (ND' : NoDup (map fst (assign d (Dir (assign k n sub)) E))).
  { now rewrite (names_assign d _ _ E A). }
  rewrite S'. cbn [rootEntries]. unfold readableBodies. cbn [rootEntries].
  split; [exact ND'|]. split; [exact (bodies_assign d k n sub E A N)|].
  rewrite (loadChatHistory_spec w' _ S' ND'),
    (loadChatHistory_spec w E S ND).
  cbn [fst]. now rewrite (bodies_assign d k n sub E A N).
Qed.

(** X7.  After a persist, setting the classification of a persisted
    conversation succeeds, shows in its metadata record, keeps the
    record's other fields, and leaves what a load returns as it was. *)
Theorem update_after_persist (l : list Conversation) (w : World)
  (c : Conversation) (pt : option string) :
  NoDup (map id l) ->
  storageReady (storage w) l ->
  In c l ->
  let w1 := snd (ChatManager.saveChatHistory l w) in
  let r := ChatManager.updateMetadataWithProjectType (id c) pt w1 in
  fst r = Ok true
  /\ metadataField (storage (snd r)) (id c) "projectType"
     = Some (JStr (requestedType pt))
  /\ (forall k,
        k <> "projectType" -> k <> "lastModified" ->
        metadataField (storage (snd r)) (id c) k
        = metadataField (storage w1) (id c) k)
  /\ fst (ChatManager.loadChatHistory (snd r))
     = Ok (map conversationToJson (sortByIdDesc l)).
Proof.
  intros ND SR Ic w1 r.
  destruct (persist_rewrites_metadata l w c SR ND Ic) as (t' & RM).
  fold w1 in RM. unfold freshMetadata in RM.
  match type of RM with _ = Some (JObj ?f) => set (fields := f) in * end.
  destruct (updateMetadataWithProjectType_on_object (id c) pt w1
              fields RM) as (text0 & L0 & Run & RM').
  fold r in Run.
  split; [now rewrite Run|]. split; [|split].
  - rewrite Run. cbn [snd storage]. unfold metadataField. rewrite RM'.
    rewrite assoc_assign_other by discriminate. apply assoc_assign_same.
  - intros k N1 N2. rewrite Run. cbn [snd storage].
    unfold metadataField. rewrite RM', RM.
    now rewrite !assoc_assign_other.
  - (* the load *)
    destruct (persisted_conversation_dir l w c SR ND Ic) as (t & _ & _ & Ld).
    fold w1 in Ld. unfold savedDir in Ld.
    destruct (readMetadata_file _ _ _ RM) as (text & Lm & P).
    assert (S1 : storage w1
                 = Some (Dir (filter (fun e => negb (isConversationDir e))
                                (rootEntries (storage w))
                              ++ savedDirs l (clock w) (tick w))%list)).
    { unfold w1. now rewrite (saveChatHistory_spec l w SR ND). }
    assert (ND1 : NoDup (map fst (rootEntries (storage w1)))).
    { rewrite S1. cbn [rootEntries].
      exact (persisted_root_NoDup (storage w) l _ _ SR ND). }
    assert (Load1 : fst (ChatManager.loadChatHistory w1)
                    = Ok (map conversationToJson (sortByIdDesc l))).
    { rewrite (loadChatHistory_persisted _ l _ _ w1 S1).
      - reflexivity.
      - exact (persisted_root_NoDup (storage w) l _ _ SR ND).
      - apply kept_entries_no_conversationDir. }
    rewrite <- Load1.
    assert (S2 : exists v2,
              storage (snd r)
              = putAt [ChatManager.conversationDirOf (id c); "metadata.json"]
                  (Some (File (Json.stringify2 v2))) (storage w1)).
    { unfold r. rewrite (updateMetadataWithProjectType_spec (id c) pt w1).
      rewrite Ld, Lm, P. cbn [updatedRecord snd storage]. eauto. }
    destruct S2 as [v2 S2].
    assert (NC : "metadata.json" <> "conversation.json") by discriminate.
    exact (proj2 (proj2 (load_after_entry_write w1 (snd r) _ "metadata.json"
                           (File (Json.stringify2 v2)) _ ND1 Ld NC S2))).
Qed.

Lemma update_after_persist_witness :
  let l := [helloConversation; recipeConversation] in
  let w := worldAt earlierStorage 100 in
  (NoDup (map id l) /\ storageReady (storage w) l
   /\ In helloConversation l) /\
  let w1 := snd (ChatManager.saveChatHistory l w) in
  let r := ChatManager.updateMetadataWithProjectType 1 None w1 in
  fst r = Ok true
  /\ metadataField (storage (snd r)) 1 "projectType" = Some (JStr "recipe")
  /\ (forall k,
        k <> "projectType" -> k <> "lastModified" ->
        metadataField (storage (snd r)) 1 k
        = metadataField (storage w1) 1 k)
  /\ fst (ChatManager.loadChatHistory (snd r))
     = Ok (map conversationToJson (sortByIdDesc l)).
Proof.
  assert (ND : NoDup (map id [helloConversation; recipeConversation])).
  { repeat constructor; simpl; intuition discriminate. }
  assert (SR : storageReady (storage (worldAt earlierStorage 100))
                 [helloConversation; recipeConversation]).
  { split.
    - repeat constructor; simpl; intuition discriminate.
    - intros c data [<-|[<-|[]]]; vm_compute; discriminate. }
  split; [split; [exact ND|split; [exact SR|now left]]|].
  exact (update_after_persist [helloConversation; recipeConversation]
           (worldAt earlierStorage 100) helloConversation None ND SR
           (or_introl eq_refl)).
Defined.

(** ** The artifact store: writing, reading back, listing *)

Lemma saveConversationArtifact_spec (i : Z) (name : string) (data : jsval)
  (type content : string) (w : World) :
  artifactReady (storage w) i name ->
  artifactText data type = Some content ->
  ChatManager.saveConversationArtifact i name data type w
  = (Ok tt, withStorage w (withArtifact (storage w) i name content)).
Proof.
  intros R T. unfold ChatManager.saveConversationArtifact. cbv zeta.
  apply tryCatch_ok.
  change (ChatManager.path_join ChatManager.chatHistoryDir
            (ChatManager.conversationDirOf i))
    with [ChatManager.conversationDirOf i].
  change (ChatManager.path_join [ChatManager.conversationDirOf i] "artifacts")
    with [ChatManager.conversationDirOf i; "artifacts"].
  change (ChatManager.path_join
            [ChatManager.conversationDirOf i; "artifacts"] name)
    with [ChatManager.conversationDirOf i; "artifacts"; name].
  set (d := ChatManager.conversationDirOf i) in *.
  (* what is written *)
  assert (W : forall w',
    (if String.eqb type "json"
     then ChatManager.writeData [d; "artifacts"; name]
            (ChatManager.stringifyData data)
     else if String.eqb type "text"
          then ChatManager.writeData [d; "artifacts"; name] data
          else if String.eqb type "binary"
               then ChatManager.writeData [d; "artifacts"; name] data
               else throw (Error ("Unsupported artifact type: " ++ type))) w'
    = writeFileSync [d; "artifacts"; name] content w').
  { intros w'. unfold artifactText in T.
    destruct (String.eqb type "json").
    - destruct data as [|j|bytes]; try discriminate;
        injection T as <-; reflexivity.
    - destruct (String.eqb type "text"); cbn [orb] in T.
      + destruct data as [|[]|bytes]; try discriminate;
          injection T as <-; reflexivity.
      + destruct (String.eqb type "binary"); [|discriminate].
        destruct data as [|[]|bytes]; try discriminate;
          injection T as <-; reflexivity. }
  unfold artifactReady, withArtifact in *. fold d in R. fold d.
  destruct w as [o clk t]. cbn [storage] in *.
  unfold bind at 1. unfold existsSync at 1. cbn [storage].
  rewrite lookup_cons.
  destruct o as [[f|E]|]; [destruct R| |].
  - (* the root is a directory *)
    rewrite lookup_nil. cbn [rootEntries].
    destruct (assoc d E) as [[f|sub]|] eqn:A; [destruct R| |].
    + (* the conversation directory exists *)
      cbn [negb]. unfold bind at 1. unfold ret at 1.
      unfold bind at 1. unfold existsSync at 1. cbn [storage].
      rewrite !lookup_cons, A, lookup_nil.
      destruct (assoc "artifacts" sub) as [[f|arts]|] eqn:B; [destruct R| |].
      * cbn [negb]. unfold bind at 1. unfold ret at 1.
        rewrite W. unfold writeFileSync, alterSync. cbn [storage Fs.alter].
        rewrite A, B.
        destruct (assoc name arts) as [[f|x]|]; try reflexivity.
        destruct R.
      * cbn [negb]. unfold bind at 1. unfold mkdirSync at 1.
        cbn [storage Fs.mkdirp]. rewrite A, B.
        unfold withStorage at 1. cbn [clock tick].
        rewrite W. unfold writeFileSync, alterSync. cbn [storage Fs.alter].
        rewrite assoc_assign_same. cbn [Fs.alter].
        rewrite assoc_assign_same. cbn [assoc assign].
        unfold withStorage. cbn [clock tick].
        now rewrite !assign_assign.
    + (* no conversation directory yet *)
      cbn [negb]. unfold bind at 1. unfold mkdirSync at 1.
      cbn [storage Fs.mkdirp]. rewrite A.
      unfold withStorage at 1. cbn [clock tick].
      unfold bind at 1. unfold existsSync at 1. cbn [storage].
      rewrite !lookup_cons, assoc_assign_same, lookup_nil.
      cbn [assoc negb]. unfold bind at 1. unfold mkdirSync at 1.
      cbn [storage Fs.mkdirp]. rewrite assoc_assign_same.
      cbn [Fs.mkdirp assoc assign].
      unfold withStorage at 1. cbn [clock tick].
      rewrite W. unfold writeFileSync, alterSync. cbn [storage Fs.alter].
      rewrite assoc_assign_same. cbn [Fs.alter assoc String.eqb Ascii.eqb
                                        Bool.eqb assign].
      unfold withStorage. cbn [clock tick].
      now rewrite !assign_assign.
  - (* no root yet *)
    cbn [negb rootEntries assoc assign].
    unfold bind at 1. unfold mkdirSync at 1.
    cbn [storage Fs.mkdirp].
    unfold withStorage at 1. cbn [clock tick].
    unfold bind at 1. unfold existsSync at 1. cbn [storage].
    rewrite !lookup_cons. cbn [assoc]. rewrite String.eqb_refl.
    rewrite lookup_nil. cbn [assoc negb].
    unfold bind at 1. unfold mkdirSync at 1.
    cbn [storage Fs.mkdirp assoc]. rewrite ?String.eqb_refl.
    cbn [Fs.mkdirp assoc assign]. rewrite ?String.eqb_refl.
    unfold withStorage at 1. cbn [clock tick].
    rewrite W. unfold writeFileSync, alterSync. cbn [storage Fs.alter assoc].
    rewrite ?String.eqb_refl.
    cbn [Fs.alter assoc String.eqb Ascii.eqb Bool.eqb assign].
    rewrite ?String.eqb_refl.
    unfold withStorage. cbn [clock tick]. reflexivity.
Qed.

Lemma lookup_withArtifact (o : option node) (i : Z) (name content : string) :
  Fs.lookup (artifactPath i name) (withArtifact o i name content)
  = Some (File content).
Proof.
  unfold artifactPath, withArtifact.
  rewrite lookup_cons, assoc_assign_same, lookup_cons, assoc_assign_same,
    lookup_cons, assoc_assign_same.
  apply lookup_nil.
Qed.

Lemma loadConversationArtifact_written (i : Z) (name type content : string)
  (w : World) :
  Fs.lookup (artifactPath i name) (storage w) = Some (File content) ->
  ChatManager.loadConversationArtifact i name type w
  = (Ok (if String.eqb type "json" then
           match Json.parse content with
           | Ok v => Val v
           | Throw _ => Val JNull
           end
         else if String.eqb type "text" then Val (JStr content)
         else if String.eqb type "binary" then Buffer content
         else Val JNull), w).
Proof.
  intros L. unfold ChatManager.loadConversationArtifact. cbv zeta.
  change (ChatManager.path_join
            (ChatManager.path_join
               (ChatManager.path_join ChatManager.chatHistoryDir
                  (ChatManager.conversationDirOf i)) "artifacts") name)
    with (artifactPath i name).
  unfold tryCatch, bind at 1. unfold existsSync at 1. rewrite L.
  cbn [negb]. unfold bind at 1. unfold readFileSync at 1. rewrite L.
  destruct (String.eqb type "json").
  - unfold bind, ChatManager.JSON_parse, liftResult.
    now destruct (Json.parse content).
  - destruct (String.eqb type "text"); [reflexivity|].
    now destruct (String.eqb type "binary").
Qed.

(** X8.  What was saved under a plain file name loads back: a plain JSON
    value saved under encoding [json], a string under [text], a buffer
    under [binary], on every storage root where nothing blocks the
    artifact's path. *)
Theorem artifact_save_load_roundtrip (i : Z) (name : string) (w : World) :
  plainFileName name = true ->
  artifactReady (storage w) i name ->
  (forall j,
     wfJson j -> plainJson j = true ->
     fst (ChatManager.loadConversationArtifact i name "json"
            (snd (ChatManager.saveConversationArtifact i name (Val j) "json"
                    w)))
     = Ok (Val j)) /\
  (forall s,
     fst (ChatManager.loadConversationArtifact i name "text"
            (snd (ChatManager.saveConversationArtifact i name (Val (JStr s))
                    "text" w)))
     = Ok (Val (JStr s))) /\
  (forall bytes,
     fst (ChatManager.loadConversationArtifact i name "binary"
            (snd (ChatManager.saveConversationArtifact i name (Buffer bytes)
                    "binary" w)))
     = Ok (Buffer bytes)).
Proof.
  intros _ R. split; [|split].
  - intros j Wj _.
    rewrite (saveConversationArtifact_spec i name (Val j) "json"
               (Json.stringify2 j) w R eq_refl).
    cbn [snd].
    rewrite (loadConversationArtifact_written i name "json"
               (Json.stringify2 j)).
    + cbn [fst String.eqb Ascii.eqb Bool.eqb].
      now rewrite (parse_stringify2 j Wj).
    + rewrite storage_withStorage. apply lookup_withArtifact.
  - intros s.
    rewrite (saveConversationArtifact_spec i name (Val (JStr s)) "text" s w R
               eq_refl).
    cbn [snd].
    rewrite (loadConversationArtifact_written i name "text" s).
    + reflexivity.
    + rewrite storage_withStorage. apply lookup_withArtifact.
  - intros bytes.
    rewrite (saveConversationArtifact_spec i name (Buffer bytes) "binary"
               bytes w R eq_refl).
    cbn [snd].
    rewrite (loadConversationArtifact_written i name "binary" bytes).
    + reflexivity.
    + rewrite storage_withStorage. apply lookup_withArtifact.
Qed.

Lemma artifact_save_load_roundtrip_witness :
  (plainFileName "recipe.json" = true
   /\ artifactReady (storage (worldAt mixedStorage 0)) 7 "recipe.json") /\
  fst (ChatManager.loadConversationArtifact 7 "recipe.json" "json"
         (snd (ChatManager.saveConversationArtifact 7 "recipe.json"
                 (Val (JObj [("name", JStr "soup"); ("serves", JNum 4)]))
                 "json" (worldAt mixedStorage 0))))
  = Ok (Val (JObj [("name", JStr "soup"); ("serves", JNum 4)])).
Proof.
  assert (R : artifactReady (storage (worldAt mixedStorage 0)) 7
                "recipe.json") by exact I.
  split; [split; [reflexivity|exact R]|].
  apply (proj1 (artifact_save_load_roundtrip 7 "recipe.json"
                  (worldAt mixedStorage 0) eq_refl R)); [|reflexivity].
  cbn. repeat split; repeat constructor; cbn; intuition discriminate.
Defined.

(** *** Listing *)

Lemma getConversationArtifacts_spec (i : Z) (w : World) :
  ChatManager.getConversationArtifacts i w
  = (Ok (map fst (artifactsOf (storage w) i)), w).
Proof.
  unfold ChatManager.getConversationArtifacts, artifactsOf. cbv zeta.
  change (ChatManager.path_join
            (ChatManager.path_join ChatManager.chatHistoryDir
               (ChatManager.conversationDirOf i)) "artifacts")
    with [ChatManager.conversationDirOf i; "artifacts"].
  unfold tryCatch, bind, existsSync, readdirSync. cbv beta.
  destruct (Fs.lookup [ChatManager.conversationDirOf i; "artifacts"]
              (storage w)) as [[f|arts]|] eqn:L;
    cbn [negb]; cbv beta; rewrite ?L; reflexivity.
Qed.

Lemma names_assign_any {A : Type} (k : string) (v : A)
  (l : list (string * A)) :
  map fst (assign k v l)
  = if existsb (String.eqb k) (map fst l) then map fst l
    else (map fst l ++ [k])%list.
Proof.
  induction l as [|[k' v'] l IH]; [reflexivity|].
  cbn [assign map fst existsb].
  destruct (String.eqb_spec k k') as [->|N]; [reflexivity|].
  cbn [map fst orb]. rewrite IH.
  now destruct (existsb (String.eqb k) (map fst l)).
Qed.

Lemma artifactsOf_withArtifact (o : option node) (i : Z)
  (name content : string) :
  artifactReady o i name ->
  artifactsOf (withArtifact o i name content) i
  = assign name (File content) (artifactsOf o i).
Proof.
  intros R. unfold artifactsOf, withArtifact.
  rewrite lookup_cons, assoc_assign_same, lookup_cons, assoc_assign_same,
    lookup_nil.
  f_equal. unfold artifactReady in R.
  destruct o as [[f|E]|]; [destruct R| |reflexivity].
  rewrite lookup_cons. cbn [rootEntries].
  destruct (assoc (ChatManager.conversationDirOf i) E) as [[f|sub]|];
    [destruct R| |reflexivity].
  rewrite lookup_cons, lookup_nil.
  now destruct (assoc "artifacts" sub) as [[f|arts]|].
Qed.

(** X9.  After a save under a plain file name that writes, the listing of
    the conversation's artifacts holds, up to order, the names it held
    before and the artifact's name, which is not repeated when it was
    there already: a second save under one name replaces, it does not
    duplicate. *)
Theorem artifact_listed_after_save (i : Z) (name : string) (data : jsval)
  (type content : string) (w : World) :
  plainFileName name = true ->
  artifactReady (storage w) i name ->
  artifactText data type = Some content ->
  exists names names',
    ChatManager.getConversationArtifacts i w = (Ok names, w)
    /\ fst (ChatManager.getConversationArtifacts i
              (snd (ChatManager.saveConversationArtifact i name data type w)))
       = Ok names'
    /\ Permutation names'
         (if existsb (String.eqb name) names then names else name :: names).
Proof.
  intros _ R T. exists (map fst (artifactsOf (storage w) i)).
  eexists.
  split; [apply getConversationArtifacts_spec|].
  rewrite (saveConversationArtifact_spec i name data type content w R T).
  cbn [snd]. rewrite getConversationArtifacts_spec. cbn [fst].
  rewrite storage_withStorage, (artifactsOf_withArtifact _ _ _ _ R).
  split; [reflexivity|].
  rewrite names_assign_any.
  destruct (existsb (String.eqb name) (map fst (artifactsOf (storage w) i))).
  - apply Permutation_refl.
  - apply Permutation_sym, Permutation_cons_append.
Qed.

Lemma artifact_listed_after_save_witness :
  (plainFileName "notes.txt" = true
   /\ artifactReady (storage (worldAt malformedArtifactStorage 0)) 1
        "notes.txt"
   /\ artifactText (Val (JStr "salt")) "text" = Some "salt") /\
  exists names',
    fst (ChatManager.getConversationArtifacts 1
           (snd (ChatManager.saveConversationArtifact 1 "notes.txt"
                   (Val (JStr "salt")) "text"
                   (worldAt malformedArtifactStorage 0))))
    = Ok names'
    /\ Permutation names' ["notes.txt"; "x.json"].
Proof.
  split; [split; [reflexivity|split; [exact I|reflexivity]]|].
  destruct (artifact_listed_after_save 1 "notes.txt" (Val (JStr "salt"))
              "text" "salt" (worldAt malformedArtifactStorage 0) eq_refl I
              eq_refl)
    as (names & names' & G & H & P).
  exists names'. split; [exact H|].
  injection G as <-. exact P.
Defined.

(** *** What a save leaves alone *)

Lemma alter_write_some (p : path) (data : string) :
  forall o o',
    Fs.alter p (fun o => match o with
                         | Some (Dir _) => Throw EISDIR
                         | _ => Ok (Some (File data))
                         end) o = Ok o' ->
    o' <> None.
Proof.
  destruct p as [|c p]; intros o o' H.
  - cbn [Fs.alter] in H. destruct o as [[f|es]|]; try discriminate;
      injection H as <-; discriminate.
  - cbn [Fs.alter] in H. destruct o as [[f|es]|]; try discriminate.
    destruct (Fs.alter p _ (assoc c es)) as [[child|]|e]; try discriminate;
      injection H as <-; discriminate.
Qed.

Lemma alter_write_frame (p : path) (data : string) :
  forall o o' q d,
    Fs.alter p (fun o => match o with
                         | Some (Dir _) => Throw EISDIR
                         | _ => Ok (Some (File data))
                         end) o = Ok o' ->
    q <> p ->
    (Fs.lookup q o' = Some (File d) <-> Fs.lookup q o = Some (File d)).
Proof.
  induction p as [|c p IH]; intros o o' q d H N.
  - cbn [Fs.alter] in H. destruct q as [|k q]; [congruence|].
    rewrite !lookup_cons.
    destruct o as [[f|es]|]; try discriminate; injection H as <-;
      split; discriminate.
  - cbn [Fs.alter] in H. destruct o as [[f|es]|]; try discriminate.
    destruct (Fs.alter p _ (assoc c es)) as [[child|]|e] eqn:A;
      try discriminate.
    + injection H as <-. destruct q as [|k q].
      * rewrite !lookup_nil. split; discriminate.
      * rewrite !lookup_cons.
        destruct (String.eqb_spec k c) as [->|Nk].
        -- rewrite assoc_assign_same. apply (IH _ _ q d A). congruence.
        -- now rewrite assoc_assign_other.
    + exfalso. exact (alter_write_some p data _ _ A eq_refl).
Qed.

Lemma preservesFilesExcept_weaken {A : Type} (p : path) (m : M A) :
  preservesFiles m -> preservesFilesExcept p m.
Proof. intros H w q data _. apply H. Qed.

Lemma preservesFilesExcept_bind {A B : Type} (p : path) (m : M A)
  (k : A -> M B) :
  preservesFilesExcept p m -> (forall a, preservesFilesExcept p (k a)) ->
  preservesFilesExcept p (bind m k).
Proof.
  intros Hm Hk w q data N. unfold bind.
  specialize (Hm w q data N). destruct (m w) as [[a|e] w1]; cbn [snd] in *.
  - rewrite <- Hm. apply (Hk a w1 q data N).
  - exact Hm.
Qed.

Lemma preservesFilesExcept_tryCatch {A : Type} (p : path) (m : M A)
  (h : exn -> M A) :
  preservesFilesExcept p m -> (forall e, preservesFilesExcept p (h e)) ->
  preservesFilesExcept p (tryCatch m h).
Proof.
  intros Hm Hh w q data N. unfold tryCatch.
  specialize (Hm w q data N). destruct (m w) as [[a|e] w1]; cbn [snd] in *.
  - exact Hm.
  - rewrite <- Hm. apply (Hh e w1 q data N).
Qed.

Lemma preservesFilesExcept_writeFileSync (p : path) (data : string) :
  preservesFilesExcept p (writeFileSync p data).
Proof.
  intros w q d N. unfold writeFileSync, alterSync.
  destruct (Fs.alter p _ (storage w)) as [o'|e] eqn:A; [|reflexivity].
  cbn [snd]. rewrite storage_withStorage.
  exact (alter_write_frame p data _ _ q d A N).
Qed.

Lemma preservesFilesExcept_writeData (p : path) (data : jsval) :
  preservesFilesExcept p (ChatManager.writeData p data).
Proof.
  destruct data as [|[]|bytes]; cbn [ChatManager.writeData];
    try apply preservesFilesExcept_writeFileSync;
    apply preservesFilesExcept_weaken, preservesFiles_throw.
Qed.

(** X10.  [saveConversationArtifact] under a plain file name, whatever its
    other arguments and whatever the storage, never throws and neither
    creates, changes nor removes a regular file other than the
    artifact's own: conversation bodies, metadata records and the other
    artifacts stay as they are. *)
Theorem saveConversationArtifact_touches_one_file :
  forall (i : Z) (name : string) (data : jsval) (type : string) (w : World),
    plainFileName name = true ->
    let r := ChatManager.saveConversationArtifact i name data type w in
    fst r = Ok tt /\
    forall q text,
      q <> artifactPath i name ->
      (Fs.lookup q (storage (snd r)) = Some (File text)
       <-> Fs.lookup q (storage w) = Some (File text)).
Proof.
  intros i name data type w _ r. subst r. split.
  - unfold ChatManager.saveConversationArtifact.
    match goal with |- fst (tryCatch ?m _ w) = _ =>
      destruct (neverThrows_tryCatch_ret m tt w) as [[] H] end.
    exact H.
  - intros q text N. revert w q text N.
    change (preservesFilesExcept (artifactPath i name)
              (ChatManager.saveConversationArtifact i name data type)).
    unfold ChatManager.saveConversationArtifact. cbv zeta.
    change (ChatManager.path_join
              (ChatManager.path_join
                 (ChatManager.path_join ChatManager.chatHistoryDir
                    (ChatManager.conversationDirOf i)) "artifacts") name)
      with (artifactPath i name).
    apply preservesFilesExcept_tryCatch;
      [|intro; apply preservesFilesExcept_weaken, preservesFiles_ret].
    apply preservesFilesExcept_bind;
      [apply preservesFilesExcept_weaken, preservesFiles_readOnly,
         readOnly_existsSync|intro ex1].
    apply preservesFilesExcept_bind;
      [apply preservesFilesExcept_weaken, preservesFiles_if;
         [apply preservesFiles_mkdirSync|apply preservesFiles_ret]|intros _].
    apply preservesFilesExcept_bind;
      [apply preservesFilesExcept_weaken, preservesFiles_readOnly,
         readOnly_existsSync|intro ex2].
    apply preservesFilesExcept_bind;
      [apply preservesFilesExcept_weaken, preservesFiles_if;
         [apply preservesFiles_mkdirSync|apply preservesFiles_ret]|intros _].
    destruct (String.eqb type "json");
      [apply preservesFilesExcept_writeData|].
    destruct (String.eqb type "text");
      [apply preservesFilesExcept_writeData|].
    destruct (String.eqb type "binary");
      [apply preservesFilesExcept_writeData|].
    apply preservesFilesExcept_weaken, preservesFiles_throw.
Qed.

(** Saving an artifact of conversation 1 on the annotated storage root
    leaves its body and its metadata record as they were. *)
Lemma saveConversationArtifact_touches_one_file_witness :
  let w := worldAt annotatedStorage 10 in
  let r := ChatManager.saveConversationArtifact 1 "notes.txt"
             (Val (JStr "salt")) "text" w in
  plainFileName "notes.txt" = true /\
  fst r = Ok tt /\
  Fs.lookup ["chat_1"; "conversation.json"] (storage (snd r))
  = Some (File (Json.stringify2 (conversationToJson helloConversation))).
Proof.
  intros w r. split; [reflexivity|].
  destruct (saveConversationArtifact_touches_one_file 1 "notes.txt"
              (Val (JStr "salt")) "text" w eq_refl) as (A & B).
  split; [exact A|].
  apply (B ["chat_1"; "conversation.json"]); [discriminate|reflexivity].
Defined.

(** *** Artifacts do not survive a persist *)

Lemma savedDirs_assoc_shape (l : list Conversation) (clk : nat -> Z)
  (d : string) (x : node) :
  forall t,
    assoc d (savedDirs l clk t) = Some x ->
    exists c t', x = savedDir c clk t'.
Proof.
  induction l as [|c l IH]; intros t H; [discriminate|].
  cbn [savedDirs assoc] in H.
  destruct (String.eqb d (ChatManager.conversationDirOf (id c))).
  - injection H as <-. eauto.
  - exact (IH _ H).
Qed.

Lemma persisted_artifacts_empty (l : list Conversation) (w : World) (i : Z) :
  storageReady (storage w) l -> NoDup (map id l) ->
  artifactsOf (storage (snd (ChatManager.saveChatHistory l w))) i = [].
Proof.
  intros SR ND. rewrite (saveChatHistory_spec l w SR ND). cbn [snd storage].
  unfold artifactsOf. rewrite lookup_cons.
  set (K := filter (fun e => negb (isConversationDir e))
              (rootEntries (storage w))).
  destruct (assoc (ChatManager.conversationDirOf i)
              (K ++ savedDirs l (clock w) (tick w))%list) as [x|] eqn:A;
    [|now rewrite lookup_none].
  destruct (assoc (ChatManager.conversationDirOf i) K) as [y|] eqn:AK.
  - rewrite (assoc_app_some _ y K _ AK) in A. injection A as <-.
    apply assoc_in in AK.
    pose proof (proj1 (Forall_forall _ _)
                  (kept_entries_no_conversationDir (rootEntries (storage w)))
                  _ AK) as C.
    unfold isConversationDir in C. cbn [fst snd] in C.
    rewrite conversationDirOf_prefix in C.
    destruct y as [f|es]; [|discriminate]. now rewrite lookup_cons.
  - rewrite (assoc_app_none _ K _ AK) in A.
    destruct (savedDirs_assoc_shape l (clock w) _ x _ A) as (c & t' & ->).
    reflexivity.
Qed.

(** X11.  A persist removes every artifact: after [saveChatHistory], for every
    conversation identifier, persisted or not, the artifact listing is
    empty and every artifact load under a plain file name returns
    [null]. *)
Theorem persist_discards_artifacts (l : list Conversation) (w : World) :
  NoDup (map id l) ->
  storageReady (storage w) l ->
  let w1 := snd (ChatManager.saveChatHistory l w) in
  forall (i : Z),
    fst (ChatManager.getConversationArtifacts i w1) = Ok []
    /\ forall name type,
         plainFileName name = true ->
         fst (ChatManager.loadConversationArtifact i name type w1)
         = Ok (Val JNull).
Proof.
  intros ND SR w1 i.
  pose proof (persisted_artifacts_empty l w i SR ND) as E. fold w1 in E.
  split.
  - now rewrite getConversationArtifacts_spec, E.
  - intros name type _.
    unfold ChatManager.loadConversationArtifact. cbv zeta.
    change (ChatManager.path_join
              (ChatManager.path_join
                 (ChatManager.path_join ChatManager.chatHistoryDir
                    (ChatManager.conversationDirOf i)) "artifacts") name)
      with ([ChatManager.conversationDirOf i; "artifacts"] ++ [name])%list.
    unfold tryCatch, bind at 1. unfold existsSync at 1.
    rewrite lookup_app. unfold artifactsOf in E.
    destruct (Fs.lookup [ChatManager.conversationDirOf i; "artifacts"]
                (storage w1)) as [[f|arts]|].
    + now rewrite lookup_cons.
    + subst arts. now rewrite lookup_cons.
    + now rewrite lookup_none.
Qed.

Lemma persist_discards_artifacts_witness :
  let l := [helloConversation] in
  let w0 := worldAt None 0 in
  let w := snd (ChatManager.saveConversationArtifact 1 "recipe.json"
                  (Val (JStr "soup")) "json" w0) in
  (NoDup (map id l) /\ storageReady (storage w) l) /\
  fst (ChatManager.loadConversationArtifact 1 "recipe.json" "json" w)
  = Ok (Val (JStr "soup")) /\
  let w1 := snd (ChatManager.saveChatHistory l w) in
  fst (ChatManager.getConversationArtifacts 1 w1) = Ok []
  /\ fst (ChatManager.loadConversationArtifact 1 "recipe.json" "json" w1)
     = Ok (Val JNull).
Proof.
  set (w := snd (ChatManager.saveConversationArtifact 1 "recipe.json"
                   (Val (JStr "soup")) "json" (worldAt None 0))).
  assert (ND : NoDup (map id [helloConversation])).
  { repeat constructor; simpl; intuition discriminate. }
  assert (SR : storageReady (storage w) [helloConversation]).
  { split.
    - repeat constructor; simpl; intuition discriminate.
    - intros c data [<-|[]]; vm_compute; discriminate. }
  split; [split; assumption|]. split; [vm_compute; reflexivity|].
  destruct (persist_discards_artifacts [helloConversation] w ND SR 1)
    as (A & B).
  split; [exact A|exact (B "recipe.json" "json" eq_refl)].
Defined.

(** ** Initialization, step by step *)

Lemma forEach_invariant {A : Type} (Inv : World -> Prop) (f : A -> M unit)
  (l : list A) :
  (forall x w, In x l -> Inv w -> exists w', f x w = (Ok tt, w') /\ Inv w') ->
  forall w, Inv w -> exists w', forEach l f w = (Ok tt, w') /\ Inv w'.
Proof.
  induction l as [|x l IH]; intros Step w Iw.
  - exists w. now split.
  - destruct (Step x w (or_introl eq_refl) Iw) as (w1 & E & I1).
    destruct (IH (fun y w0 Hy => Step y w0 (or_intror Hy)) w1 I1)
      as (w2 & E2 & I2).
    exists w2. cbn [forEach]. unfold bind. rewrite E. now split.
Qed.

(** One run of the callback of [createArtifactsDirectories] (lines
    645-658). *)
Lemma createArtifactsDirectory_step (file : string) (w : World) (x : node) :
  Fs.lookup [file] (storage w) = Some x ->
  (stat <- statSync (ChatManager.path_join ChatManager.chatHistoryDir file) ;;
   if isDirectory stat && startsWith file "chat_" then
     ex <- existsSync
             (ChatManager.path_join
                (ChatManager.path_join ChatManager.chatHistoryDir file)
                "artifacts") ;;
     if negb ex
     then mkdirSync
            (ChatManager.path_join
               (ChatManager.path_join ChatManager.chatHistoryDir file)
               "artifacts")
     else ret tt
   else ret tt) w
  = (Ok tt,
     match x with
     | Dir sub =>
         if startsWith file "chat_" then
           match assoc "artifacts" sub with
           | None =>
               withStorage w
                 (putAt [file; "artifacts"] (Some (Dir [])) (storage w))
           | Some _ => w
           end
         else w
     | File _ => w
     end).
Proof.
  intros L.
  change (ChatManager.path_join ChatManager.chatHistoryDir file) with [file].
  change (ChatManager.path_join [file] "artifacts")
    with [file; "artifacts"].
  unfold bind at 1. unfold statSync. rewrite L.
  destruct x as [d|sub]; [reflexivity|].
  cbn [isDirectory andb].
  destruct (startsWith file "chat_"); [|reflexivity].
  assert (L2 : Fs.lookup [file; "artifacts"] (storage w)
               = assoc "artifacts" sub).
  { change [file; "artifacts"] with ([file] ++ ["artifacts"])%list.
    now rewrite lookup_app, L, lookup_cons, lookup_nil. }
  unfold bind at 1. unfold existsSync at 1. rewrite L2.
  destruct (assoc "artifacts" sub) as [y|] eqn:A; [reflexivity|].
  cbn [negb]. unfold mkdirSync.
  rewrite (rootEntries_putAt file "artifacts" (Dir []) _ sub L).
  rewrite lookup_cons in L.
  destruct (storage w) as [[f|E]|]; try discriminate.
  rewrite lookup_nil in L. cbn [Fs.mkdirp rootEntries]. rewrite L.
  cbn [Fs.mkdirp]. now rewrite A.
Qed.

(** What stays of the storage root through writes into its conversation
    directories: the names of the root, in order and distinct, and the
    readable bodies. *)
Lemma entry_write_invariant (o : option node) (d k : string) (n : node)
  (sub : list (string * node)) :
  Fs.lookup [d] o = Some (Dir sub) ->
  k <> "conversation.json" ->
  map fst (rootEntries (putAt [d; k] (Some n) o)) = map fst (rootEntries o)
  /\ readableBodies (putAt [d; k] (Some n) o) = readableBodies o
  /\ exists E', putAt [d; k] (Some n) o = Some (Dir E').
Proof.
  intros L N. rewrite (rootEntries_putAt d k n o sub L).
  rewrite lookup_cons in L.
  destruct o as [[f|E]|]; try discriminate.
  rewrite lookup_nil in L. cbn [rootEntries]. unfold readableBodies.
  cbn [rootEntries].
  split; [exact (names_assign d _ _ E L)|].
  split; [exact (bodies_assign d k n sub E L N)|eauto].
Qed.

Lemma name_resolves (o : option node) (g : string) :
  In g (map fst (rootEntries o)) -> exists x, Fs.lookup [g] o = Some x.
Proof.
  intros I. destruct o as [[f|E]|]; try destruct I.
  rewrite lookup_cons, lookup_nil.
  destruct (assoc g E) as [x|] eqn:A; [now exists x|].
  apply assoc_none_not_in in A. contradiction.
Qed.

(** [createArtifactsDirectories] on a root directory: it returns, and
    keeps the names of the root and the readable bodies. *)
Lemma createArtifactsDirectories_invariant (w : World)
  (E : list (string * node)) :
  storage w = Some (Dir E) ->
  exists w' E',
    ChatManager.createArtifactsDirectories w = (Ok tt, w')
    /\ storage w' = Some (Dir E')
    /\ map fst E' = map fst E
    /\ readableBodies (storage w') = readableBodies (storage w)
    /\ clock w' = clock w /\ tick w' = tick w.
Proof.
  intros S.
  destruct (forEach_invariant
              (fun w0 =>
                 map fst (rootEntries (storage w0)) = map fst E
                 /\ readableBodies (storage w0) = readableBodies (storage w)
                 /\ (exists E0, storage w0 = Some (Dir E0))
                 /\ clock w0 = clock w /\ tick w0 = tick w)
              (fun file =>
                 stat <- statSync (ChatManager.path_join
                                     ChatManager.chatHistoryDir file) ;;
                 if isDirectory stat && startsWith file "chat_" then
                   ex <- existsSync
                           (ChatManager.path_join
                              (ChatManager.path_join
                                 ChatManager.chatHistoryDir file)
                              "artifacts") ;;
                   if negb ex
                   then mkdirSync
                          (ChatManager.path_join
                             (ChatManager.path_join
                                ChatManager.chatHistoryDir file)
                             "artifacts")
                   else ret tt
                 else ret tt)
              (map fst E)) with (w := w) as (w' & Ew & N' & B' & [E' S'] & C' & T').
  - intros x w0 Ix (N0 & B0 & [E0 S0] & C0 & T0).
    destruct (name_resolves (storage w0) x) as [nx Lx];
      [now rewrite N0|].
    rewrite (createArtifactsDirectory_step x w0 nx Lx).
    eexists. split; [reflexivity|].
    assert (Same : map fst (rootEntries (storage w0)) = map fst E
                   /\ readableBodies (storage w0) = readableBodies (storage w)
                   /\ (exists E1, storage w0 = Some (Dir E1))
                   /\ clock w0 = clock w /\ tick w0 = tick w).
    { repeat split; eauto. }
    destruct nx as [f|sub]; [exact Same|].
    destruct (startsWith x "chat_"); [|exact Same].
    destruct (assoc "artifacts" sub); [exact Same|].
    assert (NC : "artifacts" <> "conversation.json") by discriminate.
    destruct (entry_write_invariant (storage w0) x "artifacts" (Dir []) sub
                Lx NC) as (N1 & B1 & X1).
    rewrite storage_withStorage. cbn [withStorage clock tick].
    split; [congruence|]. split; [congruence|]. split; [exact X1|].
    split; assumption.
  - rewrite S. cbn [rootEntries]. repeat split; eauto.
  - exists w', E'. rewrite S' in N'. cbn [rootEntries] in N'.
    repeat split; try assumption.
    unfold ChatManager.createArtifactsDirectories. apply tryCatch_ok.
    unfold bind at 1. unfold existsSync at 1.
    unfold ChatManager.chatHistoryDir at 1. rewrite lookup_nil, S.
    cbn [negb]. unfold bind at 1. unfold readdirSync at 1.
    unfold ChatManager.chatHistoryDir at 1. rewrite lookup_nil, S.
    exact Ew.
Qed.

Lemma lookup_putAt_entry (d k : string) (n : node) (o : option node)
  (sub : list (string * node)) :
  Fs.lookup [d] o = Some (Dir sub) ->
  Fs.lookup [d; k] (putAt [d; k] (Some n) o) = Some n
  /\ Fs.lookup [d] (putAt [d; k] (Some n) o) = Some (Dir (assign k n sub)).
Proof.
  intros L.
  pose proof (lookup_putAt_parent [d] k o sub (Some n) L) as P.
  change ([d] ++ [k])%list with [d; k] in P. split; [|exact P].
  change [d; k] with ([d] ++ [k])%list at 1.
  rewrite lookup_app, P, lookup_cons, assoc_assign_same. apply lookup_nil.
Qed.

(** X12.  After [createArtifactsDirectories] every conversation directory has
    an entry [artifacts] (a new, empty directory where there was none,
    the entry that was there otherwise); the call never throws and
    neither creates, changes nor removes a regular file. *)
Theorem createArtifactsDirectories_post (w : World) (name : string) :
  isConversationDirName (storage w) name ->
  let r := ChatManager.createArtifactsDirectories w in
  fst r = Ok tt
  /\ match Fs.lookup [name; "artifacts"] (storage w) with
     | Some y => Fs.lookup [name; "artifacts"] (storage (snd r)) = Some y
     | None => Fs.lookup [name; "artifacts"] (storage (snd r))
               = Some (Dir [])
     end
  /\ forall p data,
       Fs.lookup p (storage (snd r)) = Some (File data)
       <-> Fs.lookup p (storage w) = Some (File data).
Proof.
  intros [P [sub0 L0]] r. subst r.
  split.
  { unfold ChatManager.createArtifactsDirectories.
    match goal with |- fst (tryCatch ?m _ w) = _ =>
      destruct (neverThrows_tryCatch_ret m tt w) as [[] H] end.
    exact H. }
  split; [|apply createArtifactsDirectories_preservesFiles].
  assert (Root : exists E, storage w = Some (Dir E)).
  { destruct (storage w) as [[f|E]|]; try (rewrite lookup_cons in L0;
      discriminate). eauto. }
  destruct Root as [E S].
  assert (InName : In name (map fst E)).
  { destruct (assoc name E) eqn:A.
    - apply assoc_in, (in_map fst) in A. exact A.
    - rewrite S, lookup_cons, A, lookup_none in L0. discriminate. }
  set (goal := fun o : option node =>
         match Fs.lookup [name; "artifacts"] (storage w) with
         | Some y => Fs.lookup [name; "artifacts"] o = Some y
         | None => Fs.lookup [name; "artifacts"] o = Some (Dir [])
         end).
  destruct (forEach_establish
              (fun w0 =>
                 (forall g, In g (map fst E) ->
                    Fs.lookup [g] (storage w0) <> None)
                 /\ (exists sub, Fs.lookup [name] (storage w0)
                                 = Some (Dir sub))
                 /\ (Fs.lookup [name; "artifacts"] (storage w0)
                     = Fs.lookup [name; "artifacts"] (storage w)
                     \/ goal (storage w0)))
              (fun w0 => goal (storage w0))
              name
              (fun file =>
                 stat <- statSync (ChatManager.path_join
                                     ChatManager.chatHistoryDir file) ;;
                 if isDirectory stat && startsWith file "chat_" then
                   ex <- existsSync
                           (ChatManager.path_join
                              (ChatManager.path_join
                                 ChatManager.chatHistoryDir file)
                              "artifacts") ;;
                   if negb ex
                   then mkdirSync
                          (ChatManager.path_join
                             (ChatManager.path_join
                                ChatManager.chatHistoryDir file)
                             "artifacts")
                   else ret tt
                 else ret tt)
              (map fst E)) with (w := w) as (w' & Ew & _ & G).
  - intros x w0 Ix (Res & [sub Ln] & Pre).
    destruct (Fs.lookup [x] (storage w0)) as [nx|] eqn:Lx;
      [|exfalso; exact (Res x Ix Lx)].
    rewrite (createArtifactsDirectory_step x w0 nx Lx).
    eexists. split; [reflexivity|].
    destruct (String.eqb_spec x name) as [->|Nx].
    + (* the directory itself *)
      rewrite Ln in Lx. injection Lx as <-. rewrite P.
      assert (L2 : Fs.lookup [name; "artifacts"] (storage w0)
                   = assoc "artifacts" sub).
      { change [name; "artifacts"] with ([name] ++ ["artifacts"])%list.
        now rewrite lookup_app, Ln, lookup_cons, lookup_nil. }
      destruct (assoc "artifacts" sub) as [y|] eqn:A.
      * assert (Gw : goal (storage w0)).
        { destruct Pre as [Pre|Pre]; [|exact Pre].
          unfold goal. rewrite <- Pre, L2. reflexivity. }
        repeat split; eauto.
      * destruct (lookup_putAt_entry name "artifacts" (Dir []) _ sub Ln)
          as [La Ld].
        assert (Gw : goal (putAt [name; "artifacts"] (Some (Dir []))
                             (storage w0))).
        { unfold goal. destruct Pre as [Pre|Pre].
          - rewrite <- Pre, L2. exact La.
          - unfold goal in Pre. rewrite L2 in Pre.
            destruct (Fs.lookup [name; "artifacts"] (storage w));
              discriminate. }
        rewrite storage_withStorage. repeat split; eauto.
        intros g Ig. apply lookup_head_putAt. now apply Res.
    + (* another entry *)
      assert (Same :
        ((forall g, In g (map fst E) -> Fs.lookup [g] (storage w0) <> None)
         /\ (exists sub, Fs.lookup [name] (storage w0) = Some (Dir sub))
         /\ (Fs.lookup [name; "artifacts"] (storage w0)
             = Fs.lookup [name; "artifacts"] (storage w)
             \/ goal (storage w0)))
        /\ (goal (storage w0) -> goal (storage w0))
        /\ (x = name -> goal (storage w0))).
      { split; [split; [exact Res|split; [eauto|exact Pre]]|].
        split; [auto|intros ->; contradiction]. }
      destruct nx as [f|subx]; [exact Same|].
      destruct (startsWith x "chat_"); [|exact Same].
      destruct (assoc "artifacts" subx); [exact Same|].
      rewrite storage_withStorage.
      assert (Frame : forall q,
        Fs.lookup (name :: q)
          (putAt [x; "artifacts"] (Some (Dir [])) (storage w0))
        = Fs.lookup (name :: q) (storage w0)).
      { intros q. apply lookup_putAt_other_head. congruence. }
      unfold goal. rewrite !Frame. fold (goal (storage w0)).
      split; [split; [|split; [eauto|exact Pre]]|].
      * intros g Ig. apply lookup_head_putAt. now apply Res.
      * split; [auto|intros ->; contradiction].
  - exact InName.
  - split; [|split; [eauto|now left]].
    intros g Ig. rewrite S, lookup_cons, lookup_nil.
    intros N. apply assoc_none_not_in in N. contradiction.
  - assert (R : ChatManager.createArtifactsDirectories w = (Ok tt, w')).
    { unfold ChatManager.createArtifactsDirectories. apply tryCatch_ok.
      unfold bind at 1. unfold existsSync at 1.
      unfold ChatManager.chatHistoryDir at 1. rewrite lookup_nil, S.
      cbn [negb]. unfold bind at 1. unfold readdirSync at 1.
      unfold ChatManager.chatHistoryDir at 1. rewrite lookup_nil, S.
      exact Ew. }
    rewrite R. exact G.
Qed.

Lemma createArtifactsDirectories_post_witness :
  let w := worldAt legacyStorage 50 in
  isConversationDirName (storage w) "chat_2" /\
  Fs.lookup ["chat_2"; "artifacts"] (storage w) = None /\
  let r := ChatManager.createArtifactsDirectories w in
  fst r = Ok tt
  /\ Fs.lookup ["chat_2"; "artifacts"] (storage (snd r)) = Some (Dir [])
  /\ forall p data,
       Fs.lookup p (storage (snd r)) = Some (File data)
       <-> Fs.lookup p (storage w) = Some (File data).
Proof.
  assert (H : isConversationDirName (storage (worldAt legacyStorage 50))
                "chat_2").
  { split; [reflexivity|]. eexists. reflexivity. }
  split; [exact H|]. split; [reflexivity|].
  exact (createArtifactsDirectories_post (worldAt legacyStorage 50) "chat_2"
           H).
Defined.

(** [initializeDefaultProjectTypes] on a root directory: it returns, and
    keeps the names of the root and the readable bodies. *)
Lemma initializeDefaultProjectTypes_invariant (w : World)
  (E : list (string * node)) :
  storage w = Some (Dir E) ->
  exists w' E',
    ChatManager.initializeDefaultProjectTypes w = (Ok tt, w')
    /\ storage w' = Some (Dir E')
    /\ map fst E' = map fst E
    /\ readableBodies (storage w') = readableBodies (storage w).
Proof.
  intros S.
  destruct (forEach_invariant
              (fun w0 =>
                 map fst (rootEntries (storage w0)) = map fst E
                 /\ readableBodies (storage w0) = readableBodies (storage w)
                 /\ (exists E0, storage w0 = Some (Dir E0)))
              ChatManager.backfillProjectType
              (map fst E)) with (w := w) as (w' & Ew & N' & B' & [E' S']).
  - intros x w0 Ix (N0 & B0 & [E0 S0]).
    destruct (name_resolves (storage w0) x) as [nx Lx];
      [now rewrite N0|].
    rewrite (backfillProjectType_step x w0 nx Lx).
    eexists. split; [reflexivity|].
    assert (Same : map fst (rootEntries (storage w0)) = map fst E
                   /\ readableBodies (storage w0) = readableBodies (storage w)
                   /\ (exists E1, storage w0 = Some (Dir E1))).
    { repeat split; eauto. }
    destruct (startsWith x "chat_"); [|exact Same].
    destruct (Fs.lookup [x; "metadata.json"] (storage w0))
      as [[text|sub']|] eqn:Lm; try exact Same.
    destruct (Json.parse text) as [v|e]; [|exact Same].
    destruct (backfillOf v (clock w0 (tick w0))) as [v'|]; [|exact Same].
    assert (Dx : exists sub, nx = Dir sub).
    { destruct nx as [f|sub]; [|eauto].
      change [x; "metadata.json"] with ([x] ++ ["metadata.json"])%list in Lm.
      rewrite lookup_app, Lx, lookup_cons in Lm. discriminate. }
    destruct Dx as [sub ->].
    assert (NC : "metadata.json" <> "conversation.json") by discriminate.
    destruct (entry_write_invariant (storage w0) x "metadata.json"
                (File (Json.stringify2 v')) sub Lx NC) as (N1 & B1 & X1).
    cbn [storage].
    split; [congruence|]. split; [congruence|exact X1].
  - rewrite S. cbn [rootEntries]. repeat split; eauto.
  - exists w', E'. rewrite S' in N'. cbn [rootEntries] in N'.
    repeat split; try assumption.
    unfold ChatManager.initializeDefaultProjectTypes. apply tryCatch_ok.
    unfold bind at 1. unfold existsSync at 1.
    unfold ChatManager.chatHistoryDir at 1. rewrite lookup_nil, S.
    cbn [negb]. unfold bind at 1. unfold readdirSync at 1.
    unfold ChatManager.chatHistoryDir at 1. rewrite lookup_nil, S.
    exact Ew.
Qed.

Lemma initChatHistory_on_directory (w : World) (E : list (string * node)) :
  storage w = Some (Dir E) -> NoDup (map fst E) ->
  exists w',
    ChatManager.initChatHistory w
    = (fst (ChatManager.loadChatHistory w), w')
    /\ readableBodies (storage w') = readableBodies (storage w)
    /\ fst (ChatManager.loadChatHistory w')
       = fst (ChatManager.loadChatHistory w).
Proof.
  intros S ND.
  destruct (createArtifactsDirectories_invariant w E S)
    as (w1 & E1 & R1 & S1 & N1 & B1 & _).
  destruct (initializeDefaultProjectTypes_invariant w1 E1 S1)
    as (w2 & E2 & R2 & S2 & N2 & B2).
  assert (ND2 : NoDup (map fst E2)) by (now rewrite N2, N1).
  assert (L2 : ChatManager.loadChatHistory w2
               = (fst (ChatManager.loadChatHistory w), w2)).
  { rewrite (loadChatHistory_spec w2 E2 S2 ND2),
      (loadChatHistory_spec w E S ND). cbn [fst].
    unfold readableBodies in B1, B2. rewrite S2, S1 in B2.
    rewrite S1, S in B1. cbn [rootEntries] in B1, B2.
    now rewrite B2, B1. }
  exists w2. split; [|split].
  - unfold ChatManager.initChatHistory.
    match goal with |- tryCatch ?m _ _ = _ =>
      assert (R : m w = (fst (ChatManager.loadChatHistory w), w2)) end.
    { unfold bind at 1. unfold existsSync at 1.
      unfold ChatManager.chatHistoryDir at 1. rewrite lookup_nil, S.
      cbn [negb]. unfold bind at 1. unfold ret at 1.
      unfold bind at 1. rewrite R1. unfold bind at 1. rewrite R2.
      exact L2. }
    unfold tryCatch. rewrite R.
    rewrite (loadChatHistory_spec w E S ND). reflexivity.
  - congruence.
  - now rewrite L2.
Qed.

(** X13.  [initChatHistory] returns exactly what [loadChatHistory] would have
    returned before it ran, and a load after it returns the same:
    creating artifacts directories and backfilling classifications never
    touches a conversation body.  On an absent root it creates the root
    directory. *)
Theorem initChatHistory_returns_stored_conversations (w : World) :
  NoDup (map fst (rootEntries (storage w))) ->
  let r := ChatManager.initChatHistory w in
  fst r = fst (ChatManager.loadChatHistory w)
  /\ fst (ChatManager.loadChatHistory (snd r))
     = fst (ChatManager.loadChatHistory w)
  /\ readableBodies (storage (snd r)) = readableBodies (storage w)
  /\ (storage w = None -> storage (snd r) = Some (Dir [])).
Proof.
  intros ND r. subst r.
  destruct (storage w) as [[f|E]|] eqn:S.
  - (* the root is a regular file: every step fails and is caught *)
    assert (L : ChatManager.loadChatHistory w = (Ok [], w)).
    { apply loadChatHistory_no_directory. intros E. rewrite S. discriminate. }
    assert (C : ChatManager.createArtifactsDirectories w = (Ok tt, w)).
    { unfold ChatManager.createArtifactsDirectories.
      match goal with |- tryCatch ?m _ _ = _ =>
        assert (R : m w = (Throw ENOTDIR, w)) end.
      { unfold bind at 1. unfold existsSync at 1.
        unfold ChatManager.chatHistoryDir at 1. rewrite lookup_nil, S.
        cbn [negb]. unfold bind at 1. unfold readdirSync at 1.
        unfold ChatManager.chatHistoryDir at 1. now rewrite lookup_nil, S. }
      now rewrite (tryCatch_throw _ _ w w ENOTDIR R). }
    assert (B : ChatManager.initializeDefaultProjectTypes w = (Ok tt, w)).
    { unfold ChatManager.initializeDefaultProjectTypes.
      match goal with |- tryCatch ?m _ _ = _ =>
        assert (R : m w = (Throw ENOTDIR, w)) end.
      { unfold bind at 1. unfold existsSync at 1.
        unfold ChatManager.chatHistoryDir at 1. rewrite lookup_nil, S.
        cbn [negb]. unfold bind at 1. unfold readdirSync at 1.
        unfold ChatManager.chatHistoryDir at 1. now rewrite lookup_nil, S. }
      now rewrite (tryCatch_throw _ _ w w ENOTDIR R). }
    assert (R : ChatManager.initChatHistory w = (Ok [], w)).
    { unfold ChatManager.initChatHistory. apply tryCatch_ok.
      unfold bind at 1. unfold existsSync at 1.
      unfold ChatManager.chatHistoryDir at 1. rewrite lookup_nil, S.
      cbn [negb]. unfold bind at 1. unfold ret at 1.
      unfold bind at 1. rewrite C. unfold bind at 1. rewrite B.
      exact L. }
    rewrite R. cbn [fst snd]. rewrite !L. cbn [fst]. rewrite ?S.
    split; [reflexivity|]. split; [reflexivity|]. split; [reflexivity|].
    intros H. discriminate H.
  - destruct (initChatHistory_on_directory w E S ND) as (w' & R & B & L).
    rewrite R. cbn [fst snd].
    rewrite S in B.
    split; [reflexivity|]. split; [exact L|]. split; [exact B|].
    intros H. discriminate H.
  - (* no root yet *)
    assert (L : ChatManager.loadChatHistory w = (Ok [], w)).
    { apply loadChatHistory_no_directory. intros E. rewrite S. discriminate. }
    set (w0 := withStorage w (Some (Dir []))).
    assert (S0 : storage w0 = Some (Dir [])) by reflexivity.
    assert (ND0 : NoDup (map fst (@nil (string * node)))) by constructor.
    destruct (initChatHistory_on_directory w0 [] S0 ND0) as (w' & R & B & L').
    assert (Sw' : storage w' = Some (Dir [])).
    { destruct (createArtifactsDirectories_invariant w0 [] S0)
        as (w1 & E1 & R1 & S1 & N1 & _).
      destruct (initializeDefaultProjectTypes_invariant w1 E1 S1)
        as (w2 & E2 & R2 & S2 & N2 & _).
      assert (E2 = []).
      { destruct E2; [reflexivity|]. rewrite N1 in N2. discriminate N2. }
      subst E2.
      revert R. unfold ChatManager.initChatHistory, tryCatch.
      unfold bind at 1. unfold existsSync at 1.
      unfold ChatManager.chatHistoryDir at 1. rewrite lookup_nil, S0.
      cbn [negb]. unfold bind at 1. unfold ret at 1.
      unfold bind at 1. rewrite R1. unfold bind at 1. rewrite R2.
      pose proof (loadChatHistory_readOnly w2) as RO.
      destruct (ChatManager.loadChatHistory w2) as [[a|e] w3];
        cbn [snd] in RO; subst w3; cbv beta iota; unfold ret;
        intros H; apply (f_equal snd) in H; cbn [snd] in H; subst w';
        exact S2. }
    assert (R' : ChatManager.initChatHistory w
                 = ChatManager.initChatHistory w0).
    { unfold ChatManager.initChatHistory, tryCatch.
      unfold bind at 1. unfold existsSync at 1.
      unfold ChatManager.chatHistoryDir at 1. rewrite lookup_nil, S.
      cbn [negb]. unfold bind at 1. unfold mkdirSync at 1.
      unfold ChatManager.chatHistoryDir at 1. rewrite S.
      cbn [Fs.mkdirp]. fold w0.
      unfold bind at 3. unfold existsSync at 1.
      unfold ChatManager.chatHistoryDir at 2. rewrite lookup_nil, S0.
      cbn [negb]. unfold bind at 3. unfold ret at 1. reflexivity. }
    rewrite R', R. cbn [fst snd].
    assert (L0 : ChatManager.loadChatHistory w0 = (Ok [], w0)).
    { rewrite (loadChatHistory_spec w0 [] S0 ND0). reflexivity. }
    rewrite L0 in *. rewrite L. cbn [fst] in *.
    split; [reflexivity|]. split; [exact L'|].
    split; [|intros _; exact Sw'].
    rewrite B. reflexivity.
Qed.

Lemma initChatHistory_returns_stored_conversations_witness :
  let w := worldAt mixedStorage 0 in
  NoDup (map fst (rootEntries (storage w))) /\
  fst (ChatManager.initChatHistory w)
  = Ok [conversationToJson recipeConversation;
        conversationToJson helloConversation].
Proof.
  assert (ND : NoDup (map fst (rootEntries (storage (worldAt mixedStorage 0))))).
  { repeat constructor; simpl; intuition discriminate. }
  split; [exact ND|].
  rewrite (proj1 (initChatHistory_returns_stored_conversations
                    (worldAt mixedStorage 0) ND)).
  vm_compute. reflexivity.
Defined.

(** *** What the backfill keeps *)

Lemma recordFields_inv (o : option node) (name : string)
  (fields : list (string * json)) :
  recordFields o name = Some fields ->
  exists text,
    Fs.lookup [name; "metadata.json"] o = Some (File text)
    /\ Json.parse text = Ok (JObj fields).
Proof.
  unfold recordFields.
  destruct (Fs.lookup [name; "metadata.json"] o) as [[text|sub]|];
    try discriminate.
  destruct (Json.parse text) as [[]|] eqn:P; try discriminate.
  intros [= <-]. now exists text.
Qed.

Lemma recordFields_same (o o' : option node) (name : string) :
  Fs.lookup [name; "metadata.json"] o' = Fs.lookup [name; "metadata.json"] o ->
  recordFields o' name = recordFields o name.
Proof. unfold recordFields. now intros ->. Qed.

(** What the backfill loop does to the record of one conversation
    directory, in the model. *)
Lemma backfill_record_effect (w : World)
  (name : string) (fields : list (string * json)) :
  startsWith name "chat_" = true ->
  recordFields (storage w) name = Some fields ->
  let w' := snd (ChatManager.initializeDefaultProjectTypes w) in
  if truthy (assoc "projectType" fields)
  then Fs.lookup [name; "metadata.json"] (storage w')
       = Fs.lookup [name; "metadata.json"] (storage w)
  else exists t,
         tick w <= t < tick w'
         /\ recordFields (storage w') name
            = Some (assign "lastModified" (JNum (clock w t))
                      (assign "projectType" (JStr "chat") fields)).
Proof.
  intros P RF w'. subst w'.
  destruct (recordFields_inv _ _ _ RF) as (text & LM & PT).
  assert (Root : exists R, storage w = Some (Dir R)).
  { destruct (storage w) as [[d|R]|]; try (rewrite ?lookup_none in LM;
      discriminate); eauto. }
  destruct Root as (R & SR).
  assert (InName : In name (map fst R)).
  { destruct (assoc name R) eqn:E.
    - apply assoc_in, (in_map fst) in E. exact E.
    - rewrite SR, lookup_cons, E, lookup_none in LM. discriminate. }
  set (goal := fun w0 : World =>
         if truthy (assoc "projectType" fields)
         then Fs.lookup [name; "metadata.json"] (storage w0)
              = Fs.lookup [name; "metadata.json"] (storage w)
         else exists t,
                tick w <= t < tick w0
                /\ recordFields (storage w0) name
                   = Some (assign "lastModified" (JNum (clock w t))
                             (assign "projectType" (JStr "chat") fields))).
  destruct (forEach_establish
              (fun w0 =>
                 (forall g, In g (map fst R) ->
                    Fs.lookup [g] (storage w0) <> None)
                 /\ clock w0 = clock w /\ tick w <= tick w0
                 /\ (Fs.lookup [name; "metadata.json"] (storage w0)
                     = Fs.lookup [name; "metadata.json"] (storage w)
                     \/ goal w0))
              goal name ChatManager.backfillProjectType (map fst R))
    with (w := w) as (w' & E & _ & G).
  - (* one step *)
    intros x w0 Ix (Res & Ck & Tk & Pre).
    destruct (Fs.lookup [x] (storage w0)) as [nx|] eqn:Lx;
      [|exfalso; exact (Res x Ix Lx)].
    rewrite (backfillProjectType_step x w0 nx Lx).
    eexists. split; [reflexivity|].
    destruct (String.eqb_spec x name) as [->|Nx].
    + (* the directory of the record itself *)
      rewrite P.
      destruct (truthy (assoc "projectType" fields)) eqn:T.
      * (* classified: the record is as it was, and stays so *)
        assert (Same : Fs.lookup [name; "metadata.json"] (storage w0)
                       = Fs.lookup [name; "metadata.json"] (storage w)).
        { destruct Pre as [Pre|Pre]; [exact Pre|].
          unfold goal in Pre. now rewrite ?T in Pre. }
        rewrite Same, LM, PT. cbn [backfillOf]. rewrite ?T. cbv beta iota.
        unfold goal. rewrite ?T.
        split; [split; [exact Res|split; [exact Ck|split; [exact Tk|]]]|].
        -- left. congruence.
        -- split; [auto|intros _; congruence].
      * destruct Pre as [Pre|Pre].
        -- (* not yet classified: the backfill writes *)
           rewrite Pre, LM, PT. cbn [backfillOf]. rewrite ?T. cbv beta iota.
           destruct (backfilled_record fields (clock w0 (tick w0)) text PT)
             as [RT _].
           assert (New : goal
                     (mkWorld
                        (putAt [name; "metadata.json"]
                           (Some (File (Json.stringify2
                              (JObj (assign "lastModified"
                                       (JNum (clock w0 (tick w0)))
                                       (assign "projectType" (JStr "chat")
                                          fields))))))
                           (storage w0))
                        (clock w0) (S (tick w0)))).
           { unfold goal. rewrite ?T. exists (tick w0).
             cbn [tick storage]. split; [lia|].
             unfold recordFields.
             rewrite (lookup_putAt_same _ _ (File text) _
                        (eq_trans Pre LM)), RT.
             now rewrite Ck. }
           cbn [storage clock tick].
           split; [split; [|split; [exact Ck|split; [lia|now right]]]|].
           ++ intros g Ig. apply lookup_head_putAt. now apply Res.
           ++ split; [intros _; exact New|intros _; exact New].
        -- (* classified by an earlier step: nothing more to do *)
           assert (Gw : goal w0) by exact Pre.
           unfold goal in Pre. rewrite ?T in Pre.
           destruct Pre as (t & Bt & RFt).
           destruct (recordFields_inv _ _ _ RFt) as (text' & LM' & PT').
           rewrite LM', PT'. cbn [backfillOf].
           rewrite assoc_assign_other by discriminate.
           rewrite assoc_assign_same. cbn [truthy String.eqb negb].
           cbv beta iota.
           split; [split; [exact Res|split; [exact Ck|split; [exact Tk|]]]|].
           ++ now right.
           ++ split; [auto|intros _; exact Gw].
    + (* another directory *)
      assert (Same :
        ((forall g, In g (map fst R) -> Fs.lookup [g] (storage w0) <> None)
         /\ clock w0 = clock w /\ tick w <= tick w0
         /\ (Fs.lookup [name; "metadata.json"] (storage w0)
             = Fs.lookup [name; "metadata.json"] (storage w)
             \/ goal w0))
        /\ (goal w0 -> goal w0)
        /\ (x = name -> goal w0)).
      { split; [repeat split; assumption|].
        split; [auto|intros ->; contradiction]. }
      destruct (if startsWith x "chat_"
                then Fs.lookup [x; "metadata.json"] (storage w0)
                else None) as [[tx|sx]|]; try exact Same.
      destruct (Json.parse tx) as [vx|ex]; try exact Same.
      destruct (backfillOf vx (clock w0 (tick w0))) as [vx'|];
        try exact Same.
      set (o1 := putAt [x; "metadata.json"]
                   (Some (File (Json.stringify2 vx'))) (storage w0)).
      assert (Frame : Fs.lookup [name; "metadata.json"] o1
                      = Fs.lookup [name; "metadata.json"] (storage w0)).
      { apply lookup_putAt_other_head. congruence. }
      assert (Keep : goal w0 ->
                     goal (mkWorld o1 (clock w0) (S (tick w0)))).
      { unfold goal. destruct (truthy (assoc "projectType" fields)).
        - cbn [storage]. now rewrite Frame.
        - intros (t & Bt & RFt). exists t. cbn [tick storage].
          split; [lia|].
          now rewrite (recordFields_same (storage w0) o1 name Frame). }
      cbn [storage clock tick].
      split; [split; [|split; [exact Ck|split; [lia|]]]|].
      * intros g Ig. apply lookup_head_putAt. now apply Res.
      * destruct Pre as [Pre|Pre]; [left; now rewrite Frame|right; auto].
      * split; [exact Keep|intros ->; contradiction].
  - exact InName.
  - split; [|split; [reflexivity|split; [lia|now left]]].
    intros g Ig. rewrite SR, lookup_cons, lookup_nil.
    intros N. apply assoc_none_not_in in N. contradiction.
  - assert (Run : ChatManager.initializeDefaultProjectTypes w = (Ok tt, w')).
    { unfold ChatManager.initializeDefaultProjectTypes.
      apply tryCatch_ok.
      unfold bind at 1. unfold existsSync at 1.
      unfold ChatManager.chatHistoryDir at 1. rewrite lookup_nil, SR.
      cbn [negb]. unfold bind at 1. unfold readdirSync at 1.
      unfold ChatManager.chatHistoryDir at 1. rewrite lookup_nil, SR.
      exact E. }
    rewrite Run. cbn [snd]. exact G.
Qed.

(** X14.  [initializeDefaultProjectTypes] never overwrites a classification:
    the metadata file of a conversation directory whose record has a
    (truthy) [projectType] is left exactly as it is.  A record without
    one, when it is a plain JSON value, is rewritten with [projectType]
    set to [chat] and [lastModified] to a clock reading taken during the
    call, all other fields kept, in their order. *)
Theorem initializeDefaultProjectTypes_conservative (w : World)
  (name : string) (fields : list (string * json)) :
  startsWith name "chat_" = true ->
  recordFields (storage w) name = Some fields ->
  let w' := snd (ChatManager.initializeDefaultProjectTypes w) in
  if truthy (assoc "projectType" fields)
  then Fs.lookup [name; "metadata.json"] (storage w')
       = Fs.lookup [name; "metadata.json"] (storage w)
  else plainJson (JObj fields) = true ->
       exists t,
         tick w <= t < tick w'
         /\ recordFields (storage w') name
            = Some (assign "lastModified" (JNum (clock w t))
                      (assign "projectType" (JStr "chat") fields)).
Proof.
  intros P RF w'. subst w'.
  pose proof (backfill_record_effect w name fields P RF) as H.
  cbv zeta in H.
  destruct (truthy (assoc "projectType" fields)); [exact H|].
  intros _. exact H.
Qed.

(** The theorem at a record that is classified, which stays as it is, and
    at the legacy record of conversation 1, which gets the default. *)
Lemma initializeDefaultProjectTypes_conservative_witness :
  let w := worldAt annotatedStorage 10 in
  let v := worldAt legacyStorage 50 in
  let v' := snd (ChatManager.initializeDefaultProjectTypes v) in
  (startsWith "chat_1" "chat_" = true
   /\ (exists fields,
         recordFields (storage w) "chat_1" = Some fields
         /\ truthy (assoc "projectType" fields) = true)
   /\ recordFields (storage v) "chat_1"
      = Some [("id", JNum 1); ("title", JStr "Old chat")]
   /\ plainJson (JObj [("id", JNum 1); ("title", JStr "Old chat")]) = true) /\
  Fs.lookup ["chat_1"; "metadata.json"]
    (storage (snd (ChatManager.initializeDefaultProjectTypes w)))
  = Fs.lookup ["chat_1"; "metadata.json"] (storage w) /\
  exists t,
    tick v <= t < tick v'
    /\ recordFields (storage v') "chat_1"
       = Some [("id", JNum 1); ("title", JStr "Old chat");
               ("projectType", JStr "chat");
               ("lastModified", JNum (clock v t))].
Proof.
  assert (RF : recordFields (storage (worldAt annotatedStorage 10)) "chat_1"
               = Some [("id", JNum 1); ("title", JStr "First chat");
                       ("created", JNum 1); ("lastModified", JNum 5);
                       ("messageCount", JNum 2); ("version", JStr "1.0");
                       ("projectType", JStr "recipe");
                       ("foo", JStr "bar")]).
  { vm_compute. reflexivity. }
  assert (RL : recordFields (storage (worldAt legacyStorage 50)) "chat_1"
               = Some [("id", JNum 1); ("title", JStr "Old chat")]).
  { vm_compute. reflexivity. }
  split; [split; [reflexivity|split;
            [eexists; split; [exact RF|reflexivity]|split;
               [exact RL|reflexivity]]]|].
  split.
  - exact (initializeDefaultProjectTypes_conservative
             (worldAt annotatedStorage 10) "chat_1" _ eq_refl RF).
  - exact (initializeDefaultProjectTypes_conservative
             (worldAt legacyStorage 50) "chat_1" _ eq_refl RL eq_refl).
Defined.

(** ** More on what a persist writes and keeps *)

(** X15.  A persist keeps every entry of the storage root that is not a
    conversation directory (a stray file, a directory whose name does not
    start with [chat_]): the entry and all below it resolve as before. *)
Theorem persist_keeps_other_entries (l : list Conversation) (w : World)
  (name : string) (x : node) :
  NoDup (map id l) ->
  storageReady (storage w) l ->
  Fs.lookup [name] (storage w) = Some x ->
  isConversationDir (name, x) = false ->
  forall q,
    Fs.lookup (name :: q) (storage (snd (ChatManager.saveChatHistory l w)))
    = Fs.lookup (name :: q) (storage w).
Proof.
  intros ND SR L C q. rewrite (saveChatHistory_spec l w SR ND).
  cbn [snd storage].
  destruct (storage w) as [[f|R]|] eqn:S;
    try (rewrite lookup_cons in L; discriminate).
  rewrite lookup_cons, lookup_nil in L. cbn [rootEntries].
  rewrite !lookup_cons.
  rewrite (assoc_app_some name x); [now rewrite L|].
  apply assoc_filter_kept; [apply SR|exact L|].
  now rewrite C.
Qed.

Lemma persist_keeps_other_entries_witness :
  let l := [helloConversation; recipeConversation] in
  let w := worldAt earlierStorage 100 in
  (NoDup (map id l) /\ storageReady (storage w) l) /\
  Fs.lookup ["notes.txt"] (storage (snd (ChatManager.saveChatHistory l w)))
  = Some (File "keep me").
Proof.
  assert (ND : NoDup (map id [helloConversation; recipeConversation])).
  { repeat constructor; simpl; intuition discriminate. }
  assert (SR : storageReady (storage (worldAt earlierStorage 100))
                 [helloConversation; recipeConversation]).
  { split.
    - repeat constructor; simpl; intuition discriminate.
    - intros c data [<-|[<-|[]]]; vm_compute; discriminate. }
  split; [split; assumption|].
  exact (persist_keeps_other_entries [helloConversation; recipeConversation]
           (worldAt earlierStorage 100) "notes.txt" (File "keep me") ND SR
           eq_refl eq_refl []).
Defined.

(** X16.  The directory a persist leaves for a conversation whose
    identifier is a safe integer and whose trailing user message is
    ASCII text holds exactly an empty [artifacts] directory, the body
    printed with two-space indentation, and a metadata record of exactly
    seven fields: the identifier, the title, [created] equal to the
    identifier, a last-modified time read from the clock during the
    persist, the number of messages, the version [1.0] and the
    classification. *)
Theorem persist_directory_contents (l : list Conversation) (w : World)
  (c : Conversation) :
  NoDup (map id l) ->
  storageReady (storage w) l ->
  In c l ->
  (Z.abs (id c) <= 9007199254740991)%Z ->
  trailingAscii c = true ->
  let w1 := snd (ChatManager.saveChatHistory l w) in
  exists t,
    tick w <= t < tick w1
    /\ Fs.lookup [ChatManager.conversationDirOf (id c)] (storage w1)
       = Some (Dir
           [("artifacts", Dir []);
            ("conversation.json",
             File (Json.stringify2 (conversationToJson c)));
            ("metadata.json",
             File (Json.stringify2
               (JObj [("id", JNum (id c));
                      ("title", JStr (title c));
                      ("created", JNum (id c));
                      ("lastModified", JNum (clock w t));
                      ("messageCount",
                       JNum (Z.of_nat (List.length (messages c))));
                      ("version", JStr "1.0");
                      ("projectType",
                       JStr (if startRecipeRequested c then "recipe"
                             else "chat"))])))])
    /\ readMetadata (storage w1) (id c)
       = Some (JObj [("id", JNum (id c));
                     ("title", JStr (title c));
                     ("created", JNum (id c));
                     ("lastModified", JNum (clock w t));
                     ("messageCount",
                      JNum (Z.of_nat (List.length (messages c))));
                     ("version", JStr "1.0");
                     ("projectType",
                      JStr (if startRecipeRequested c then "recipe"
                            else "chat"))]).
Proof.
  intros ND SR Ic _ _ w1. subst w1.
  destruct (persisted_conversation_dir l w c SR ND Ic) as (t & B1 & B2 & L).
  unfold readingsOf in B2. unfold savedDir, freshMetadata in L.
  exists (if startRecipeRequested c then S t else t).
  split; [destruct (startRecipeRequested c); lia|].
  assert (E : JNum (if startRecipeRequested c
                    then clock w (S t) else clock w t)
              = JNum (clock w (if startRecipeRequested c then S t else t)))
    by (now destruct (startRecipeRequested c)).
  rewrite E in L. split; [exact L|].
  unfold readMetadata.
  change [ChatManager.conversationDirOf (id c); "metadata.json"]
    with ([ChatManager.conversationDirOf (id c)] ++ ["metadata.json"])%list.
  rewrite lookup_app, L, lookup_cons.
  cbn [assoc String.eqb Ascii.eqb Bool.eqb].
  rewrite lookup_nil, parse_stringify2; [reflexivity|].
  cbn [wfJson map fst snd fold_right].
  split; [|repeat split]. repeat constructor; simpl; intuition discriminate.
Qed.

Lemma persist_directory_contents_witness :
  let l := [helloConversation; recipeConversation] in
  let w := worldAt earlierStorage 100 in
  (NoDup (map id l) /\ storageReady (storage w) l
   /\ In recipeConversation l
   /\ (Z.abs (id recipeConversation) <= 9007199254740991)%Z
   /\ trailingAscii recipeConversation = true) /\
  metadataField (storage (snd (ChatManager.saveChatHistory l w))) 2
    "messageCount" = Some (JNum 1).
Proof.
  assert (ND : NoDup (map id [helloConversation; recipeConversation])).
  { repeat constructor; simpl; intuition discriminate. }
  assert (SR : storageReady (storage (worldAt earlierStorage 100))
                 [helloConversation; recipeConversation]).
  { split.
    - repeat constructor; simpl; intuition discriminate.
    - intros c data [<-|[<-|[]]]; vm_compute; discriminate. }
  assert (Safe : (Z.abs (id recipeConversation) <= 9007199254740991)%Z).
  { cbn. lia. }
  split; [split; [exact ND|split; [exact SR|split; [right; now left|
            split; [exact Safe|reflexivity]]]]|].
  destruct (persist_directory_contents
              [helloConversation; recipeConversation]
              (worldAt earlierStorage 100) recipeConversation ND SR
              (or_intror (or_introl eq_refl)) Safe eq_refl)
    as (t & _ & _ & RM).
  unfold metadataField.
  change (id recipeConversation) with 2%Z in RM. rewrite RM. reflexivity.
Defined.

(** *** A persist that is blocked half-way *)

Lemma forEach_app {A : Type} (f : A -> M unit) (a b : list A) (w : World) :
  forEach (a ++ b)%list f w
  = match forEach a f w with
    | (Ok _, w1) => forEach b f w1
    | (Throw e, w1) => (Throw e, w1)
    end.
Proof.
  revert w. induction a as [|x a IH]; intros w; [reflexivity|].
  cbn [app forEach]. unfold bind.
  destruct (f x w) as [[u|e] w1]; [apply IH|reflexivity].
Qed.

Lemma saveConversation_blocked (c : Conversation) (w : World)
  (E : list (string * node)) (f : string) :
  storage w = Some (Dir E) ->
  assoc (ChatManager.conversationDirOf (id c)) E = Some (File f) ->
  ChatManager.saveConversation c w = (Throw ENOTDIR, w).
Proof.
  intros S A. unfold ChatManager.saveConversation. cbv zeta.
  change (ChatManager.path_join ChatManager.chatHistoryDir
            (ChatManager.conversationDirOf (id c)))
    with [ChatManager.conversationDirOf (id c)].
  change (ChatManager.path_join [ChatManager.conversationDirOf (id c)]
            "artifacts")
    with [ChatManager.conversationDirOf (id c); "artifacts"].
  set (d := ChatManager.conversationDirOf (id c)) in *.
  unfold bind at 1. unfold existsSync at 1.
  rewrite S, lookup_cons, A, lookup_nil. cbn [negb].
  unfold bind at 1. unfold ret at 1.
  unfold bind at 1. unfold existsSync at 1.
  rewrite S, lookup_cons, A, lookup_cons. cbn [negb].
  unfold bind at 1. unfold mkdirSync at 1. rewrite S.
  cbn [Fs.mkdirp]. rewrite A. reflexivity.
Qed.

(** X17.  When a regular file bears the directory name of a conversation of
    the list, the persist stops there without raising: the conversations
    before it are written, that one and all after it are not, and the
    conversation directories of the earlier generation are gone all the
    same.  The load that follows returns the conversations before the
    blocked one only. *)
Theorem persist_stops_at_blocked_conversation (l1 l2 : list Conversation)
  (c : Conversation) (w : World) (f : string) :
  NoDup (map id l1) ->
  storageReady (storage w) l1 ->
  Fs.lookup [ChatManager.conversationDirOf (id c)] (storage w)
  = Some (File f) ->
  let r := ChatManager.saveChatHistory (l1 ++ c :: l2)%list w in
  fst r = Ok tt
  /\ fst (ChatManager.loadChatHistory (snd r))
     = Ok (map conversationToJson (sortByIdDesc l1))
  /\ forall name,
       isConversationDirName (storage (snd r)) name
       <-> In name (map (fun c => ChatManager.conversationDirOf (id c)) l1).
Proof.
  intros ND SR L r.
  destruct w as [o clk t]. cbn [storage] in *.
  destruct o as [[d|R]|]; try (rewrite lookup_cons in L; discriminate).
  rewrite lookup_cons, lookup_nil in L.
  set (K := filter (fun e => negb (isConversationDir e)) R).
  set (w1 := mkWorld (Some (Dir (K ++ savedDirs l1 clk t)%list)) clk
               (t + readingsOfAll l1)).
  assert (AK : assoc (ChatManager.conversationDirOf (id c)) K
               = Some (File f)).
  { apply assoc_filter_kept; [apply SR|exact L|reflexivity]. }
  assert (Run : r = (Ok tt, w1)).
  { subst r. unfold ChatManager.saveChatHistory, tryCatch.
    unfold bind at 1. unfold existsSync at 1. cbn [storage].
    unfold ChatManager.chatHistoryDir at 1. rewrite lookup_nil. cbn [negb].
    unfold bind at 1. unfold ret at 1.
    unfold bind at 1. unfold readdirSync at 1. cbn [storage].
    unfold ChatManager.chatHistoryDir at 1. rewrite lookup_nil.
    unfold bind at 1.
    rewrite (clear_loop R [] (mkWorld (Some (Dir R)) clk t) eq_refl (proj1 SR)).
    unfold withStorage. cbn [app clock tick rootEntries]. fold K.
    rewrite forEach_app.
    rewrite (save_loop l1 K clk t ND (cleared_root_free R l1 SR)).
    fold w1. cbn [forEach]. unfold bind at 1.
    rewrite (saveConversation_blocked c w1 _ f eq_refl).
    - reflexivity.
    - now apply assoc_app_some. }
  rewrite Run. cbn [fst snd].
  assert (NDR : NoDup (map fst (K ++ savedDirs l1 clk t)%list))
    by exact (persisted_root_NoDup (Some (Dir R)) l1 clk t SR ND).
  split; [reflexivity|]. split.
  - rewrite (loadChatHistory_persisted K l1 clk t w1 eq_refl NDR);
      [reflexivity|apply kept_entries_no_conversationDir].
  - intros name. unfold w1. cbn [storage]. split.
    + intros [P [es Le]]. rewrite lookup_cons, lookup_nil in Le.
      apply assoc_in, in_app_or in Le. destruct Le as [Le|Le].
      * apply filter_In in Le. destruct Le as [_ Le].
        unfold isConversationDir in Le. cbn [fst snd] in Le.
        rewrite P in Le. discriminate.
      * rewrite <- (savedDirs_names l1 clk t).
        apply (in_map fst) in Le. exact Le.
    + intros I. apply in_map_iff in I. destruct I as (c' & <- & Ic).
      split; [apply conversationDirOf_prefix|].
      destruct (savedDirs_assoc l1 clk t c' ND Ic) as (t' & _ & _ & A).
      rewrite lookup_cons, lookup_nil.
      rewrite (assoc_app_none _ K);
        [|exact (cleared_root_free R l1 SR c' Ic)].
      rewrite A. unfold savedDir. eauto.
Qed.

Lemma persist_stops_at_blocked_conversation_witness :
  let w := worldAt (Some (Dir [("chat_9", Dir [("conversation.json",
                                               File "{}")]);
                               ("chat_2", File "x")])) 0 in
  (NoDup (map id [helloConversation])
   /\ storageReady (storage w) [helloConversation]
   /\ Fs.lookup [ChatManager.conversationDirOf (id recipeConversation)]
        (storage w) = Some (File "x")) /\
  let r := ChatManager.saveChatHistory
             [helloConversation; recipeConversation;
              mkConversation 3 "Third" []] w in
  fst r = Ok tt
  /\ fst (ChatManager.loadChatHistory (snd r))
     = Ok [conversationToJson helloConversation].
Proof.
  set (w := worldAt (Some (Dir [("chat_9", Dir [("conversation.json",
                                                 File "{}")]);
                                 ("chat_2", File "x")])) 0).
  assert (ND : NoDup (map id [helloConversation])).
  { repeat constructor; simpl; intuition discriminate. }
  assert (SR : storageReady (storage w) [helloConversation]).
  { split.
    - repeat constructor; simpl; intuition discriminate.
    - intros c data [<-|[]]; vm_compute; discriminate. }
  split; [split; [exact ND|split; [exact SR|reflexivity]]|].
  destruct (persist_stops_at_blocked_conversation [helloConversation]
              [mkConversation 3 "Third" []] recipeConversation w "x" ND SR
              eq_refl) as (A & B & _).
  split; [exact A|exact B].
Defined.

(** ** The inference gateway: the request and the outcomes *)

Lemma wfJson_flat (fields : list (string * json)) :
  NoDup (map fst fields) ->
  Forall (fun kv => match snd kv with
                    | JArr _ | JObj _ => False
                    | _ => True
                    end) fields ->
  wfJson (JObj fields).
Proof.
  intros ND F. apply (proj2 (wfJson_JObj fields)). split; [exact ND|].
  clear ND. induction F as [|[k v] l Hv _ IH]; cbn [fold_right snd];
    [exact I|].
  split; [|exact IH]. cbn [snd] in Hv. now destruct v.
Qed.

(** X18.  Whatever the message, the buffer, the model name and the key, the
    request goes to [POST 127.0.0.1:8000/chat]; its body is valid JSON
    that decodes to the prompt built from buffer and message, the model
    and [reset_conversation: false]; its [Content-Length] is the length
    of the body; and it carries the API key header exactly when the
    model is the class's Claude model and the key is a non-empty
    string. *)
Theorem buildRequest_well_formed :
  forall (cm msg : string) (buf : list Message) (model : string)
         (key : option string),
    let r := ChatManager.buildRequest cm msg buf model key in
    Json.parse (body r)
    = Ok (JObj [("prompt", JStr (ChatManager.buildContext buf msg));
                ("model", JStr model);
                ("reset_conversation", JBool false)])
    /\ assoc "Content-Length" (headers r)
       = Some (JNum (Z.of_nat (String.length (body r))))
    /\ assoc "Content-Type" (headers r) = Some (JStr "application/json")
    /\ hostname r = "127.0.0.1" /\ port r = 8000%Z
    /\ urlPath r = "/chat" /\ method r = "POST"
    /\ assoc "claude-api-key" (headers r)
       = match key with
         | Some k =>
             if String.eqb model cm && negb (String.eqb k "")
             then Some (JStr k) else None
         | None => None
         end.
Proof.
  intros cm msg buf model key r. subst r.
  unfold ChatManager.buildRequest. cbv zeta. cbn [body headers hostname port
                                                   urlPath method].
  split.
  { apply parse_stringify. apply wfJson_flat.
    - repeat constructor; simpl; intuition discriminate.
    - repeat constructor. }
  destruct key as [k|]; [|repeat split].
  destruct (String.eqb model cm && negb (String.eqb k "")); repeat split.
Qed.

(** The request at a message that needs escaping. *)
Lemma buildRequest_well_formed_example :
  let r := MainJs.buildRequest
             ("say " ++ String DQ ("hi" ++ String DQ (LF ++ "twice")))
             [mkMessage "user" "a"] "mistral:latest" (Some "sk-key") in
  Json.parse (body r)
  = Ok (JObj [("prompt",
               JStr ("User: a" ++ LF ++ LF ++ "User: say "
                     ++ String DQ ("hi" ++ String DQ (LF ++ "twice"))));
              ("model", JStr "mistral:latest");
              ("reset_conversation", JBool false)])
  /\ assoc "claude-api-key" (headers r) = None.
Proof.
  destruct (buildRequest_well_formed MainJs.claudeModel
              ("say " ++ String DQ ("hi" ++ String DQ (LF ++ "twice")))
              [mkMessage "user" "a"] "mistral:latest" (Some "sk-key"))
    as (A & _ & _ & _ & _ & _ & _ & B).
  split; [exact A|exact B].
Defined.

(** X19.  How the promise of [sendMessageToAPI] settles: a transport error
    rejects with that error; a body that is not JSON, or is [null],
    rejects with the invalid-response error; a body that is a plain JSON
    object with a [response] field resolves with the value of that
    field, in particular every body that is the serialization of such an
    object. *)
Theorem sendMessageToAPI_outcomes :
  forall (cm : string) (server : Request -> Exchange) (msg : string)
         (buf : list Message) (model : string) (key : option string),
    let req := ChatManager.buildRequest cm msg buf model key in
    let out := ChatManager.sendMessageToAPI cm server msg buf model key in
    (forall e, server req = TransportError e -> out = Rejected e) /\
    (forall data,
       server req = Response data -> Json.parse data = Throw SyntaxError ->
       out = Rejected (Error "Invalid JSON response from server")) /\
    (forall data,
       server req = Response data -> Json.parse data = Ok JNull ->
       out = Rejected (Error "Invalid JSON response from server")) /\
    (forall data fields v,
       server req = Response data -> Json.parse data = Ok (JObj fields) ->
       plainJson (JObj fields) = true ->
       assoc "response" fields = Some v ->
       out = Resolved (Val v)) /\
    (forall fields v,
       wfJson (JObj fields) -> plainJson (JObj fields) = true ->
       assoc "response" fields = Some v ->
       (server req = Response (Json.stringify (JObj fields))
        \/ server req = Response (Json.stringify2 (JObj fields))) ->
       out = Resolved (Val v)).
Proof.
  intros cm server msg buf model key req out. subst out req.
  unfold ChatManager.sendMessageToAPI, ChatManager.handleExchange.
  split; [now intros e ->|].
  split; [now intros data -> ->|].
  split; [now intros data -> ->|].
  split.
  - intros data fields v -> -> _ A. cbn [getProp]. now rewrite A.
  - intros fields v W _ A [-> | ->].
    + rewrite (parse_stringify _ W). cbn [getProp]. now rewrite A.
    + rewrite (parse_stringify2 _ W). cbn [getProp]. now rewrite A.
Qed.

(** The outcomes against a server that echoes the prompt back. *)
Lemma sendMessageToAPI_outcomes_example :
  MainJs.sendMessageToAPI
    (fun r =>
       match Json.parse (body r) with
       | Ok (JObj fields) =>
           match assoc "prompt" fields with
           | Some p => Response (Json.stringify (JObj [("response", p)]))
           | None => Response "oops"
           end
       | _ => Response "oops"
       end)
    "hello" [] "mistral:latest" None
  = Resolved (Val (JStr "hello")).
Proof.
  match goal with |- MainJs.sendMessageToAPI ?srv _ _ _ _ = _ =>
    destruct (sendMessageToAPI_outcomes MainJs.claudeModel srv "hello" []
                "mistral:latest" None) as (_ & _ & _ & _ & H) end.
  apply (H [("response", JStr "hello")] (JStr "hello")).
  - cbn. repeat split; repeat constructor; cbn; intuition discriminate.
  - reflexivity.
  - reflexivity.
  - left. vm_compute. reflexivity.
Defined.

(** X20.  [resetAIMemory] never rejects, whatever the server does.  It first
    posts to [/chat] a body that decodes to the reset prompt, the model
    and [reset_conversation: true]; it posts to [/reset-model] only when
    that first request was answered, so a transport failure of the first
    request also skips the second. *)
Theorem resetAIMemory_best_effort :
  forall (server : Request -> Exchange) (model : string),
    let sent := fst (ChatManager.resetAIMemory server model) in
    snd (ChatManager.resetAIMemory server model) = Resolved Undefined
    /\ exists chat,
         hd_error sent = Some chat
         /\ hostname chat = "127.0.0.1" /\ port chat = 8000%Z
         /\ urlPath chat = "/chat" /\ method chat = "POST"
         /\ Json.parse (body chat)
            = Ok (JObj [("prompt", JStr ChatManager.resetPrompt);
                        ("model", JStr model);
                        ("reset_conversation", JBool true)])
         /\ ((exists e, server chat = TransportError e) -> sent = [chat])
         /\ ((exists data, server chat = Response data) ->
             sent = [chat;
                     mkRequest "127.0.0.1" 8000 "/reset-model" "POST" [] ""]).
Proof.
  intros server model sent. subst sent.
  set (chat :=
         mkRequest "127.0.0.1" 8000 "/chat" "POST"
           [("Content-Type", JStr "application/json");
            ("Content-Length",
             JNum (Z.of_nat (String.length
               (Json.stringify
                  (JObj [("prompt", JStr ChatManager.resetPrompt);
                         ("model", JStr model);
                         ("reset_conversation", JBool true)])))))]
           (Json.stringify
              (JObj [("prompt", JStr ChatManager.resetPrompt);
                     ("model", JStr model);
                     ("reset_conversation", JBool true)]))).
  set (reset := mkRequest "127.0.0.1" 8000 "/reset-model" "POST" [] "").
  assert (Run : ChatManager.resetAIMemory server model
                = (match server chat with
                   | TransportError _ => [chat]
                   | Response _ => [chat; reset]
                   end, Resolved Undefined)).
  { unfold ChatManager.resetAIMemory. cbv zeta. fold chat. fold reset.
    destruct (server chat); [reflexivity|].
    now destruct (server reset). }
  assert (P : Json.parse (body chat)
              = Ok (JObj [("prompt", JStr ChatManager.resetPrompt);
                          ("model", JStr model);
                          ("reset_conversation", JBool true)])).
  { unfold chat. cbn [body]. apply parse_stringify. apply wfJson_flat.
    - repeat constructor; simpl; intuition discriminate.
    - repeat constructor. }
  rewrite Run. cbn [fst snd]. split; [reflexivity|]. exists chat.
  split; [now destruct (server chat)|].
  split; [reflexivity|]. split; [reflexivity|].
  split; [reflexivity|]. split; [reflexivity|]. split; [exact P|].
  split.
  - intros [e H]. now rewrite H.
  - intros [data H]. now rewrite H.
Qed.

(** ** Directory names and the last user message *)

(** X21.  Two conversations share a directory exactly when they share an
    identifier; every conversation directory name starts with [chat_],
    so a persist, a load and the initialization all recognize it. *)
Theorem conversation_directory_names :
  forall n m : Z,
    (ChatManager.conversationDirOf n = ChatManager.conversationDirOf m
     <-> n = m)
    /\ startsWith (ChatManager.conversationDirOf n) "chat_" = true.
Proof.
  intros n m. split; [split|].
  - apply conversationDirOf_inj.
  - now intros ->.
  - apply conversationDirOf_prefix.
Qed.

Lemma filter_none_of {A : Type} (f : A -> bool) (l : list A) :
  Forall (fun x => f x = false) l -> filter f l = [].
Proof.
  induction 1 as [|x l Hx _ IH]; [reflexivity|].
  cbn [filter]. now rewrite Hx.
Qed.

Lemma pop_app_last {A : Type} (l : list A) (x : A) :
  pop (l ++ [x])%list = Some x.
Proof.
  induction l as [|y l IH]; [reflexivity|].
  cbn [app]. rewrite pop_cons, IH. reflexivity.
Qed.

(** X22.  The message the command processing looks at is the last one whose
    role is [user]: replies of other roles after it do not hide it, and
    when no message has role [user] there is none. *)
Theorem lastUserMessage_is_last_of_role_user :
  forall (i : Z) (ttl : string) (before after : list Message) (m : Message),
    (role m = "user" ->
     Forall (fun x => role x <> "user") after ->
     ChatManager.lastUserMessage
       (mkConversation i ttl (before ++ m :: after)%list) = Some m)
    /\ (Forall (fun x => role x <> "user") before ->
        ChatManager.lastUserMessage (mkConversation i ttl before) = None).
Proof.
  intros i ttl before after m. unfold ChatManager.lastUserMessage.
  cbn [messages]. split.
  - intros R F. rewrite filter_app. cbn [filter]. rewrite R.
    cbn [String.eqb Ascii.eqb Bool.eqb].
    rewrite (filter_none_of _ after).
    + apply pop_app_last.
    + apply Forall_forall. intros x Hx.
      apply String.eqb_neq. exact (proj1 (Forall_forall _ _) F x Hx).
  - intros F. rewrite (filter_none_of _ before); [reflexivity|].
    apply Forall_forall. intros x Hx.
    apply String.eqb_neq. exact (proj1 (Forall_forall _ _) F x Hx).
Qed.
(** ** Initialization and the metadata records (claim C5) *)

Lemma lookup_putAt_sibling (d d' k k' : string) (n : node) (o : option node)
  (sub : list (string * node)) :
  Fs.lookup [d] o = Some (Dir sub) -> k' <> k ->
  Fs.lookup [d'; k'] (putAt [d; k] (Some n) o) = Fs.lookup [d'; k'] o.
Proof.
  intros L N. destruct (String.eqb_spec d' d) as [->|Nd].
  - change [d; k'] with ([d] ++ [k'])%list.
    rewrite !lookup_app, (proj2 (lookup_putAt_entry d k n o sub L)), L.
    rewrite !lookup_cons. now rewrite assoc_assign_other.
  - now apply lookup_putAt_other_head.
Qed.

(** [createArtifactsDirectories] returns, reads no clock, and changes
    nothing in a conversation directory but its [artifacts] entry. *)
Lemma createArtifactsDirectories_keeps (w : World) :
  exists w1,
    ChatManager.createArtifactsDirectories w = (Ok tt, w1)
    /\ clock w1 = clock w /\ tick w1 = tick w
    /\ forall d k, k <> "artifacts" ->
         Fs.lookup [d; k] (storage w1) = Fs.lookup [d; k] (storage w).
Proof.
  destruct (storage w) as [[f|E]|] eqn:S.
  - exists w. rewrite ?S. split; [|now repeat split].
    unfold ChatManager.createArtifactsDirectories, tryCatch.
    unfold bind at 1. unfold existsSync at 1.
    unfold ChatManager.chatHistoryDir at 1. rewrite lookup_nil, S.
    cbn [negb]. unfold bind at 1. unfold readdirSync at 1.
    unfold ChatManager.chatHistoryDir at 1. rewrite lookup_nil, S.
    reflexivity.
  - destruct (forEach_invariant
              (fun w0 =>
                 map fst (rootEntries (storage w0)) = map fst E
                 /\ clock w0 = clock w /\ tick w0 = tick w
                 /\ forall d k, k <> "artifacts" ->
                      Fs.lookup [d; k] (storage w0)
                      = Fs.lookup [d; k] (storage w))
              (fun file =>
                 stat <- statSync (ChatManager.path_join
                                     ChatManager.chatHistoryDir file) ;;
                 if isDirectory stat && startsWith file "chat_" then
                   ex <- existsSync
                           (ChatManager.path_join
                              (ChatManager.path_join
                                 ChatManager.chatHistoryDir file)
                              "artifacts") ;;
                   if negb ex
                   then mkdirSync
                          (ChatManager.path_join
                             (ChatManager.path_join
                                ChatManager.chatHistoryDir file)
                             "artifacts")
                   else ret tt
                 else ret tt)
              (map fst E)) with (w := w) as (w' & Ew & _ & C' & T' & F').
    + intros x w0 Ix (N0 & C0 & T0 & F0).
      destruct (name_resolves (storage w0) x) as [nx Lx];
        [now rewrite N0|].
      rewrite (createArtifactsDirectory_step x w0 nx Lx).
      eexists. split; [reflexivity|].
      assert (Same : map fst (rootEntries (storage w0)) = map fst E
                     /\ clock w0 = clock w /\ tick w0 = tick w
                     /\ forall d k, k <> "artifacts" ->
                          Fs.lookup [d; k] (storage w0)
                          = Fs.lookup [d; k] (storage w)).
      { repeat split; assumption. }
      destruct nx as [f|sub]; [exact Same|].
      destruct (startsWith x "chat_"); [|exact Same].
      destruct (assoc "artifacts" sub); [exact Same|].
      assert (NC : "artifacts" <> "conversation.json") by discriminate.
      destruct (entry_write_invariant (storage w0) x "artifacts" (Dir []) sub
                  Lx NC) as (N1 & _ & _).
      rewrite storage_withStorage. cbn [withStorage clock tick].
      split; [congruence|]. split; [exact C0|]. split; [exact T0|].
      intros d k Nk.
      rewrite (lookup_putAt_sibling x d "artifacts" k (Dir []) (storage w0)
                 sub Lx Nk).
      now apply F0.
    + rewrite S. cbn [rootEntries]. now repeat split.
    + exists w'. rewrite <- S. split; [|now repeat split].
      unfold ChatManager.createArtifactsDirectories. apply tryCatch_ok.
      unfold bind at 1. unfold existsSync at 1.
      unfold ChatManager.chatHistoryDir at 1. rewrite lookup_nil, S.
      cbn [negb]. unfold bind at 1. unfold readdirSync at 1.
      unfold ChatManager.chatHistoryDir at 1. rewrite lookup_nil, S.
      exact Ew.
  - exists w. rewrite ?S. split; [|now repeat split].
    unfold ChatManager.createArtifactsDirectories, tryCatch.
    unfold bind at 1. unfold existsSync at 1.
    unfold ChatManager.chatHistoryDir at 1. rewrite lookup_nil, S.
    reflexivity.
Qed.

(** The backfill loop leaves alone the record file of a directory that
    has none, or whose record it cannot or need not complete. *)
Lemma initializeDefaultProjectTypes_keeps (w : World) (name : string) :
  (forall text v now,
     Fs.lookup [name; "metadata.json"] (storage w) = Some (File text) ->
     Json.parse text = Ok v -> backfillOf v now = None) ->
  exists w2,
    ChatManager.initializeDefaultProjectTypes w = (Ok tt, w2)
    /\ Fs.lookup [name; "metadata.json"] (storage w2)
       = Fs.lookup [name; "metadata.json"] (storage w).
Proof.
  intros NB.
  destruct (storage w) as [[f|E]|] eqn:S.
  - exists w. rewrite ?S. split; [|reflexivity].
    unfold ChatManager.initializeDefaultProjectTypes, tryCatch.
    unfold bind at 1. unfold existsSync at 1.
    unfold ChatManager.chatHistoryDir at 1. rewrite lookup_nil, S.
    cbn [negb]. unfold bind at 1. unfold readdirSync at 1.
    unfold ChatManager.chatHistoryDir at 1. rewrite lookup_nil, S.
    reflexivity.
  - destruct (forEach_invariant
              (fun w0 =>
                 map fst (rootEntries (storage w0)) = map fst E
                 /\ Fs.lookup [name; "metadata.json"] (storage w0)
                    = Fs.lookup [name; "metadata.json"] (storage w))
              ChatManager.backfillProjectType
              (map fst E)) with (w := w) as (w' & Ew & _ & F').
    + intros x w0 Ix (N0 & F0).
      destruct (name_resolves (storage w0) x) as [nx Lx];
        [now rewrite N0|].
      rewrite (backfillProjectType_step x w0 nx Lx).
      eexists. split; [reflexivity|].
      assert (Same : map fst (rootEntries (storage w0)) = map fst E
                     /\ Fs.lookup [name; "metadata.json"] (storage w0)
                        = Fs.lookup [name; "metadata.json"] (storage w)).
      { split; assumption. }
      destruct (startsWith x "chat_"); [|exact Same].
      destruct (Fs.lookup [x; "metadata.json"] (storage w0))
        as [[text|sub']|] eqn:Lm; try exact Same.
      destruct (Json.parse text) as [v|e] eqn:Pv; [|exact Same].
      destruct (backfillOf v (clock w0 (tick w0))) as [v'|] eqn:B;
        [|exact Same].
      assert (Nx : x <> name).
      { intros ->. rewrite F0, S in Lm.
        rewrite (NB text v (clock w0 (tick w0)) Lm Pv) in B.
        discriminate. }
      assert (Dx : exists sub, nx = Dir sub).
      { destruct nx as [f|sub]; [|eauto].
        change [x; "metadata.json"] with ([x] ++ ["metadata.json"])%list in Lm.
        rewrite lookup_app, Lx, lookup_cons in Lm. discriminate. }
      destruct Dx as [sub ->].
      assert (NC : "metadata.json" <> "conversation.json") by discriminate.
      destruct (entry_write_invariant (storage w0) x "metadata.json"
                  (File (Json.stringify2 v')) sub Lx NC) as (N1 & _ & _).
      cbn [storage]. split; [congruence|].
      rewrite lookup_putAt_other_head by congruence. exact F0.
    + rewrite S. cbn [rootEntries]. now split.
    + exists w'. rewrite <- S. split; [|exact F'].
      unfold ChatManager.initializeDefaultProjectTypes. apply tryCatch_ok.
      unfold bind at 1. unfold existsSync at 1.
      unfold ChatManager.chatHistoryDir at 1. rewrite lookup_nil, S.
      cbn [negb]. unfold bind at 1. unfold readdirSync at 1.
      unfold ChatManager.chatHistoryDir at 1. rewrite lookup_nil, S.
      exact Ew.
  - exists w. rewrite ?S. split; [|reflexivity].
    unfold ChatManager.initializeDefaultProjectTypes, tryCatch.
    unfold bind at 1. unfold existsSync at 1.
    unfold ChatManager.chatHistoryDir at 1. rewrite lookup_nil, S.
    reflexivity.
Qed.

(** The world initialization leaves: that of the backfill loop run after
    the creation of the artifacts directories, on the storage root
    created if it was missing. *)
Lemma initChatHistory_world (w : World) :
  let wa := match storage w with
            | None => withStorage w (Some (Dir []))
            | Some _ => w
            end in
  snd (ChatManager.initChatHistory w)
  = snd (ChatManager.initializeDefaultProjectTypes
           (snd (ChatManager.createArtifactsDirectories wa))).
Proof.
  intros wa.
  assert (First :
    (ex <- existsSync ChatManager.chatHistoryDir ;;
     (if negb ex then mkdirSync ChatManager.chatHistoryDir else ret tt)) w
    = (Ok tt, wa)).
  { unfold bind, existsSync, mkdirSync, ChatManager.chatHistoryDir. subst wa.
    rewrite lookup_nil. destruct (storage w) as [n|] eqn:S; cbn [negb].
    - reflexivity.
    - rewrite S. reflexivity. }
  destruct (createArtifactsDirectories_keeps wa) as (w1 & C & _).
  pose proof (unit_result ChatManager.initializeDefaultProjectTypes w1
                (neverThrows_tryCatch_ret _ tt)) as D.
  set (w2 := snd (ChatManager.initializeDefaultProjectTypes w1)) in *.
  pose proof (loadChatHistory_readOnly w2) as R.
  destruct (ChatManager.loadChatHistory w2) as [r3 w3] eqn:E3.
  simpl in R. subst w3.
  rewrite C. cbn [snd]. fold w2.
  unfold ChatManager.initChatHistory, tryCatch.
  unfold bind at 1. unfold bind at 1 in First.
  destruct (existsSync ChatManager.chatHistoryDir w) as [[ex|e] w0];
    [|discriminate First].
  unfold bind at 1. rewrite First.
  unfold bind at 1. rewrite C. unfold bind at 1. rewrite D.
  rewrite E3. now destruct r3.
Qed.

(** C5, as the code has it.  Initialization returns.  Afterwards, every
    directory of the storage root whose name starts with [chat_] and
    whose [metadata.json] is a file holding a JSON object has a metadata
    record with a classification tag: a record that had a (truthy) tag
    is left exactly as it was, and a record without one, when it is a
    plain JSON value, is rewritten with the default tag [chat] and
    [lastModified] set to a clock reading taken during the call, all
    other fields kept.  A directory without a metadata record still has
    none, and a record that is not JSON is left as it was. *)
Theorem init_backfills_existing_records (w : World) (name : string) :
  startsWith name "chat_" = true ->
  let w' := snd (MainJs.initChatHistory w) in
  let record := [name; "metadata.json"] in
  (exists l, fst (MainJs.initChatHistory w) = Ok l) /\
  (hasMetadataRecord (storage w) name -> hasClassification (storage w') name) /\
  (forall fields,
     recordFields (storage w) name = Some fields ->
     if truthy (assoc "projectType" fields)
     then Fs.lookup record (storage w') = Fs.lookup record (storage w)
     else plainJson (JObj fields) = true ->
          exists t,
            tick w <= t < tick w'
            /\ recordFields (storage w') name
               = Some (assign "lastModified" (JNum (clock w t))
                         (assign "projectType" (JStr "chat") fields))) /\
  (Fs.lookup record (storage w) = None ->
   Fs.lookup record (storage w') = None) /\
  (forall text,
     Fs.lookup record (storage w) = Some (File text) ->
     Json.parse text = Throw SyntaxError ->
     Fs.lookup record (storage w') = Some (File text)).
Proof.
  intros P w' record.
  split; [apply (neverThrows_tryCatch_ret _ [])|].
  split; [intros H; exact (proj2 (initChatHistory_classifies w name P H))|].
  subst w'. unfold MainJs.initChatHistory.
  rewrite (initChatHistory_world w). cbv zeta.
  set (wa := match storage w with
             | None => withStorage w (Some (Dir []))
             | Some _ => w
             end).
  assert (A : Fs.lookup record (storage wa) = Fs.lookup record (storage w)
              /\ clock wa = clock w /\ tick wa = tick w).
  { subst wa. destruct (storage w) as [n|] eqn:S.
    - rewrite ?S. now repeat split.
    - rewrite ?S. now repeat split. }
  destruct A as (La & Ca & Ta).
  destruct (createArtifactsDirectories_keeps wa) as (w1 & C & Ck & Tk & F).
  rewrite C. cbn [snd].
  assert (L1 : Fs.lookup record (storage w1) = Fs.lookup record (storage w)).
  { rewrite <- La. apply F. discriminate. }
  split; [|split].
  - intros fields RF.
    assert (RF1 : recordFields (storage w1) name = Some fields).
    { now rewrite (recordFields_same (storage w) (storage w1) name L1). }
    pose proof (backfill_record_effect w1 name fields P RF1) as H.
    cbv zeta in H. fold record in H.
    destruct (truthy (assoc "projectType" fields)).
    + now rewrite H.
    + intros _. destruct H as (t & Bt & R). exists t.
      split; [lia|]. now rewrite R, Ck, Ca.
  - intros N.
    destruct (initializeDefaultProjectTypes_keeps w1 name) as (w2 & R & K).
    + intros text v now L. fold record in L. rewrite L1, N in L.
      discriminate.
    + rewrite R. cbn [snd]. fold record in K. now rewrite K, L1.
  - intros text L Q.
    destruct (initializeDefaultProjectTypes_keeps w1 name) as (w2 & R & K).
    + intros text0 v now L0 Q0. fold record in L0. rewrite L1, L in L0.
      injection L0 as <-. rewrite Q in Q0. discriminate.
    + rewrite R. cbn [snd]. fold record in K. now rewrite K, L1.
Qed.

(** C5, the theorem at the legacy storage root: the record of
    conversation 1, which had no classification, gets the default one and
    keeps its fields; the directory of conversation 2, which had no
    record, has none; the record of conversation 3, which is not JSON, is
    as it was. *)
Lemma init_backfills_existing_records_witness :
  let w := worldAt legacyStorage 50 in
  let w' := snd (MainJs.initChatHistory w) in
  (startsWith "chat_1" "chat_" = true
   /\ recordFields (storage w) "chat_1"
      = Some [("id", JNum 1); ("title", JStr "Old chat")]
   /\ Fs.lookup ["chat_2"; "metadata.json"] (storage w) = None
   /\ Fs.lookup ["chat_3"; "metadata.json"] (storage w)
      = Some (File "not json")
   /\ Json.parse "not json" = Throw SyntaxError) /\
  (exists t,
     tick w <= t < tick w'
     /\ recordFields (storage w') "chat_1"
        = Some [("id", JNum 1); ("title", JStr "Old chat");
                ("projectType", JStr "chat");
                ("lastModified", JNum (clock w t))]) /\
  Fs.lookup ["chat_2"; "metadata.json"] (storage w') = None /\
  Fs.lookup ["chat_3"; "metadata.json"] (storage w')
  = Some (File "not json").
Proof.
  intros w w'.
  assert (RF : recordFields (storage w) "chat_1"
               = Some [("id", JNum 1); ("title", JStr "Old chat")]).
  { vm_compute. reflexivity. }
  assert (Q : Json.parse "not json" = Throw SyntaxError).
  { vm_compute. reflexivity. }
  split; [split; [reflexivity|split; [exact RF|split; [reflexivity|
            split; [reflexivity|exact Q]]]]|].
  split; [|split].
  - exact (proj1 (proj2 (proj2
             (init_backfills_existing_records w "chat_1" eq_refl)))
             _ RF eq_refl).
  - exact (proj1 (proj2 (proj2 (proj2
             (init_backfills_existing_records w "chat_2" eq_refl))))
             eq_refl).
  - exact (proj2 (proj2 (proj2 (proj2
             (init_backfills_existing_records w "chat_3" eq_refl))))
             "not json" eq_refl Q).
Defined.
